(** * Doctor-Rec: the recommendation pipeline of [src/web/app.py] and [src/app.py]

    A shallow embedding of the two front-ends of the repository:

    - [Web]: the Flask endpoint [predict] of [src/web/app.py];
    - [App]: the Streamlit page of [src/app.py], from the widgets down.

    Both run the same pipeline: encode the symptoms against the loaded
    vocabulary, ask the classifier for a disease label, resolve the label to
    a specialist, search places, fetch the details of the first five places.
    What the two files share word for word is in [Pipeline].

    Conventions of the model.
    - Python dicts are association lists in insertion order; a lookup takes
      the first binding of the key and a store overwrites it in place or
      appends a new one, as a Python dict does.
    - JSON-like data coming from the place provider is a [pyval].  The request
      is read at the types of the caller-facing interface: a list of strings
      for the symptoms and a string for the location, each key possibly
      absent.  A search candidate is read at the two keys the code touches.
    - The classifier and the Google Maps client are external: they are values
      passed to the handlers.  A call to the client is recorded in a log, and
      the answer of the client may depend on the calls issued before.
    - Python exceptions are values of [pyexn]; code that can raise lives in
      the monad [M], with [try_except] for the handlers of the source.  The
      state of [M] holds what outlives an exception: the call log, what was
      printed or shown, and the variables the Streamlit page reads after its
      [try] block.
    - Streamlit is external too.  A call that shows a text adds an element to
      the page.  The three widgets that are given data of the provider (a
      link button, a keyed button, the map) are checked by Streamlit when
      they are drawn: whether Streamlit raises is a value passed to the
      page, which answers from the page so far and the widget.

    The file has the definitions first ([Py], [Exn], [Ext], [Pipeline], [Web],
    [App], then the vocabulary of the statements and the sample data), and
    the properties after them. *)

From Stdlib Require Import String Ascii List ZArith Bool Lia.
Import ListNotations.

Set Warnings "-register-all".

#[local] Open Scope string_scope.
#[local] Open Scope list_scope.

(** ** Python values *)

Module Py.

(** A float is kept as a decimal literal [mantissa * 10 ^ exponent]: the code
    never computes with one, it only passes it on or tests it for truth. *)
Inductive pyval : Type :=
| PNone
| PBool (b : bool)
| PInt (z : Z)
| PFloat (mantissa exponent : Z)
| PStr (s : string)
| PList (l : list pyval)
| PDict (d : list (string * pyval)).

Definition dict (V : Type) : Type := list (string * V).
Definition pydict : Type := dict pyval.

(** [type(v).__name__], as it shows in the messages of the interpreter. *)
Definition type_name (v : pyval) : string :=
  match v with
  | PNone => "NoneType"
  | PBool _ => "bool"
  | PInt _ => "int"
  | PFloat _ _ => "float"
  | PStr _ => "str"
  | PList _ => "list"
  | PDict _ => "dict"
  end.

(** [bool(v)]: what [if v] and [not v] test. *)
Definition truthy (v : pyval) : bool :=
  match v with
  | PNone => false
  | PBool b => b
  | PInt z => negb (z =? 0)%Z
  | PFloat m _ => negb (m =? 0)%Z
  | PStr s => negb (s =? "")
  | PList l => match l with [] => false | _ => true end
  | PDict d => match d with [] => false | _ => true end
  end.

Definition str_truthy (s : string) : bool := negb (s =? "").
Definition list_truthy {A} (l : list A) : bool :=
  match l with [] => false | _ => true end.

(** *** Dicts with string keys *)

Section Dict.
Context {V : Type}.

(** [d.get(k)] as an option: [None] when the key is absent. *)
Fixpoint dict_get (d : dict V) (k : string) : option V :=
  match d with
  | [] => None
  | (k', v) :: d' => if k' =? k then Some v else dict_get d' k
  end.

(** [k in d]. *)
Definition dict_contains (d : dict V) (k : string) : bool :=
  match dict_get d k with Some _ => true | None => false end.

(** [d.get(k, default)]. *)
Definition dict_get_default (d : dict V) (k : string) (default : V) : V :=
  match dict_get d k with Some v => v | None => default end.

(** [d[k] = v]: overwrite in place, or append a new key. *)
Fixpoint dict_set (d : dict V) (k : string) (v : V) : dict V :=
  match d with
  | [] => [(k, v)]
  | (k', v') :: d' =>
      if k' =? k then (k', v) :: d' else (k', v') :: dict_set d' k v
  end.

Definition dict_keys (d : dict V) : list string := map fst d.
Definition dict_values (d : dict V) : list V := map snd d.
End Dict.

(** *** Strings *)

(** [s.replace(old, new)] for one-character [old] and [new]. *)
Fixpoint str_replace (old new : ascii) (s : string) : string :=
  match s with
  | EmptyString => EmptyString
  | String c s' =>
      String (if Ascii.eqb c old then new else c) (str_replace old new s')
  end.

(** [s.startswith(prefix)]. *)
Definition str_startswith (s pre : string) : bool := String.prefix pre s.

(** *** Exceptions *)

Inductive pyexn : Type :=
| KeyError (key : string)
| AttributeError (type attr : string)
| TypeError (msg : string)
| Raised (class msg : string).
(* [Raised]: an exception raised by an external collaborator (the classifier
   or the googlemaps client), with its class name and the text [str(e)]
   gives. *)

(** [str(e)]. *)
Definition str_exn (e : pyexn) : string :=
  match e with
  | KeyError k => "'" ++ k ++ "'"
  | AttributeError ty attr =>
      "'" ++ ty ++ "' object has no attribute '" ++ attr ++ "'"
  | TypeError msg => msg
  | Raised _ msg => msg
  end.

(** The [TypeError] of [v[key]] for a string key and a [v] that is no dict
    (messages of CPython 3.11 and later). *)
Definition not_subscriptable (v : pyval) : pyexn :=
  match v with
  | PList _ => TypeError "list indices must be integers or slices, not str"
  | PStr _ => TypeError "string indices must be integers, not 'str'"
  | _ => TypeError ("'" ++ type_name v ++ "' object is not subscriptable")
  end.

End Py.
Import Py.

(** ** Code that raises and mutates: a state and exception monad *)

Module Exn.

(** The outcome of code that touches no state: a value, or a raised
    exception. *)
Definition outcome (A : Type) : Type := (pyexn + A)%type.

Definition rbind {A B} (r : outcome A) (k : A -> outcome B) : outcome B :=
  match r with
  | inr a => k a
  | inl e => inl e
  end.

(** A computation over a state [S]: it ends with a value or with a raised
    exception, and in both cases with the state it reached.  The state of a
    raising computation is the state at the [raise]: what it stored before
    stays stored. *)
Definition M (S A : Type) : Type := S -> outcome A * S.

Definition ret {S A} (a : A) : M S A := fun s => (inr a, s).

Definition raise {S A} (e : pyexn) : M S A := fun s => (inl e, s).

Definition bind {S A B} (m : M S A) (k : A -> M S B) : M S B :=
  fun s =>
    match m s with
    | (inr a, s') => k a s'
    | (inl e, s') => (inl e, s')
    end.

(** [try: body  except Exception as e: handler(e)]. *)
Definition try_except {S A} (body : M S A) (handler : pyexn -> M S A) : M S A :=
  fun s =>
    match body s with
    | (inr a, s') => (inr a, s')
    | (inl e, s') => handler e s'
    end.

Definition get {S} : M S S := fun s => (inr s, s).
Definition modify {S} (f : S -> S) : M S unit := fun s => (inr tt, f s).

(** An outcome, as a computation that leaves the state alone. *)
Definition of_outcome {S A} (r : outcome A) : M S A := fun s => (r, s).

(** [for x in xs: body(x)]. *)
Fixpoint for_each {S A} (xs : list A) (body : A -> M S unit) : M S unit :=
  match xs with
  | [] => ret tt
  | x :: xs' => bind (body x) (fun _ => for_each xs' body)
  end.

End Exn.
Import Exn.

Declare Scope exn_scope.
Delimit Scope exn_scope with exn.
Declare Scope res_scope.
Delimit Scope res_scope with res.
Notation "x <- c ;; k" := (bind c (fun x => k))
  (at level 61, c at next level, right associativity) : exn_scope.
Notation "x <- c ;; k" := (rbind c (fun x => k))
  (at level 61, c at next level, right associativity) : res_scope.
Notation "c ;;; k" := (bind c (fun _ => k))
  (at level 61, right associativity) : exn_scope.
#[local] Open Scope exn_scope.

(** ** The external collaborators *)

Module Ext.

(** The classifier artifact: [model.predict(pd.DataFrame([model_input]))[0]].
    The data frame has one row, its columns are the keys of [model_input] in
    their order.  The model is opaque; it may raise (a shape mismatch). *)
Definition classifier : Type := dict Z -> outcome string.

(** A search result, at the keys the code touches: ['place_id'], and
    ['details'], which the Streamlit loop stores into the candidate. *)
Record candidate : Type := {
  place_id : option string;
  details : option pydict
}.

(** The answer of [gmaps.places]: a dict that may hold ['results']. *)
Record places_result : Type := { results : option (list candidate) }.

(** The answer of [gmaps.place]: a dict that may hold ['result']. *)
Record place_details : Type := { result : option pydict }.

(** A call issued to the place provider. *)
Inductive gcall : Type :=
| CallPlaces (query type : string)
| CallPlace (place_id : string) (fields : list string).

(** The googlemaps client.  Each operation answers from the calls issued so
    far and its arguments, with a value or with a raised exception. *)
Record gmaps_client : Type := {
  gm_places : list gcall -> string -> string -> outcome places_result;
  gm_place : list gcall -> string -> list string -> outcome place_details
}.

(** States that carry the log of the calls issued to the provider. *)
Class CallLog (S : Type) : Type := {
  calls_of : S -> list gcall;
  log_call : gcall -> S -> S
}.

(** [gmaps.places(query=query, type=type)]. *)
Definition places {S} `{CallLog S} (gmaps : gmaps_client) (query type : string)
  : M S places_result :=
  fun s => (gm_places gmaps (calls_of s) query type,
            log_call (CallPlaces query type) s).

(** [gmaps.place(place_id=place_id, fields=fields)]. *)
Definition place {S} `{CallLog S} (gmaps : gmaps_client) (place_id : string)
    (fields : list string) : M S place_details :=
  fun s => (gm_place gmaps (calls_of s) place_id fields,
            log_call (CallPlace place_id fields) s).

End Ext.
Import Ext.

(** ** What both front-ends share *)

Module Pipeline.

(** [[col for col in all_cols if col != 'prognosis' and not
    col.startswith('Unnamed:')]]: the vocabulary, from the columns of
    Training.csv. *)
Definition symptoms_of_columns (all_cols : list string) : list string :=
  filter (fun col => negb (col =? "prognosis")
                     && negb (str_startswith col "Unnamed:")) all_cols.

(** [{symptom: 0 for symptom in symptoms}]. *)
Definition zero_input (symptoms : list string) : dict Z :=
  fold_left (fun d symptom => dict_set d symptom 0%Z) symptoms [].

(** The encoding step:
<<
    model_input = {symptom: 0 for symptom in symptoms}
    for symptom in user_symptoms:
        if symptom in model_input:
            model_input[symptom] = 1
>> *)
Definition model_input (symptoms user_symptoms : list string) : dict Z :=
  fold_left
    (fun d symptom => if dict_contains d symptom then dict_set d symptom 1%Z else d)
    user_symptoms (zero_input symptoms).

Definition specialty_map : dict string :=
  [ ("Fungal infection", "Dermatologist"); ("Allergy", "Allergist");
    ("GERD", "Gastroenterologist");
    ("Acne", "Dermatologist"); ("Pneumonia", "Pulmonologist");
    ("Jaundice", "Gastroenterologist");
    ("Migraine", "Neurologist"); ("Hypertension ", "Cardiologist");
    ("Heart attack", "Cardiologist");
    ("Paralysis (brain hemorrhage)", "Neurologist");
    ("Chicken pox", "Dermatologist");
    ("Malaria", "General Practitioner"); ("Dengue", "General Practitioner");
    ("Typhoid", "General Practitioner") ].

(** [specialty_map.get(prediction, 'General Practitioner')]. *)
Definition resolve (prediction : string) : string :=
  dict_get_default specialty_map prediction "General Practitioner".

(** [f"{specialist} in {user_location}"]. *)
Definition query_of (specialist user_location : string) : string :=
  specialist ++ " in " ++ user_location.

Definition fields : list string :=
  ["name"; "formatted_address"; "international_phone_number";
   "website"; "rating"; "opening_hours"; "geometry"].

(** [doctor['place_id']]. *)
Definition candidate_place_id (doctor : candidate) : outcome string :=
  match place_id doctor with
  | Some p => inr p
  | None => inl (KeyError "place_id")
  end.

(** [v.get(key, default)] on a value: only a dict has [get]. *)
Definition py_get (v : pyval) (key : string) (default : pyval) : outcome pyval :=
  match v with
  | PDict d => inr (dict_get_default d key default)
  | _ => inl (AttributeError (type_name v) "get")
  end.

(** [v[key]] for a string key. *)
Definition py_getitem (v : pyval) (key : string) : outcome pyval :=
  match v with
  | PDict d =>
      match dict_get d key with
      | Some x => inr x
      | None => inl (KeyError key)
      end
  | _ => inl (not_subscriptable v)
  end.

(** [v.replace(' ', '+')]: only a string has [replace]. *)
Definition py_replace_space (v : pyval) : outcome string :=
  match v with
  | PStr s => inr (str_replace " " "+" s)
  | _ => inl (AttributeError (type_name v) "replace")
  end.

Definition status_unknown : string := "Status unknown".
Definition status_open : string := "🟢 Open now".
Definition status_closed : string := "🔴 Closed".

(** The opening-hours step, the same in both files:
<<
    open_now_status = "Status unknown"
    if 'opening_hours' in details:
        open_now = details['opening_hours'].get('open_now', False)
        open_now_status = "🟢 Open now" if open_now else "🔴 Closed"
>> *)
Definition open_now_status (details : pydict) : outcome string :=
  match dict_get details "opening_hours" with
  | Some opening_hours =>
      (open_now <- py_get opening_hours "open_now" (PBool false) ;;
       inr (if truthy open_now then status_open else status_closed))%res
  | None => inr status_unknown
  end.

End Pipeline.
Import Pipeline.

(** ** [src/web/app.py]: the Flask endpoint *)

Module Web.

(** The body of the POST request, [request.json]: a JSON object read at the
    keys ['symptoms'] and ['location']. *)
Record request : Type := {
  req_symptoms : option (list string);
  req_location : option string
}.

(** What a view returns: the body given to [jsonify] and the status code
    (200 when the view gives none). *)
Definition response : Type := (pydict * Z)%type.

(** What the endpoint changes: the calls issued to the provider and the lines
    it prints. *)
Record wstate : Type := {
  calls : list gcall;
  stdout : list string
}.

#[export] Instance wstate_log : CallLog wstate := {
  calls_of := calls;
  log_call c s := {| calls := calls s ++ [c]; stdout := stdout s |}
}.

Definition print (line : string) : M wstate unit :=
  modify (fun s => {| calls := calls s; stdout := stdout s ++ [line] |}).

(** [f"https://www.google.com/maps/search/?api=1&query={name}&query_place_id={place_id}"]. *)
Definition gmaps_url (name place_id : string) : string :=
  "https://www.google.com/maps/search/?api=1&query=" ++ name
  ++ "&query_place_id=" ++ place_id.

(** The dict appended to [doctors_details], lines 100 to 115; its values are
    evaluated in the order of the source. *)
Definition doctor_entry (place_id : string) (details : pydict) : outcome pyval :=
 (open_now_status <- open_now_status details ;;
  name_plus <- py_replace_space (dict_get_default details "name" (PStr "")) ;;
  location <- py_get (dict_get_default details "geometry" (PDict []))
                     "location" (PDict []) ;;
  inr (PDict
    [ ("name", dict_get_default details "name" (PStr "N/A"));
      ("address", dict_get_default details "formatted_address"
                    (PStr "Address not available"));
      ("phone", dict_get_default details "international_phone_number"
                  (PStr "Phone not available"));
      ("website", dict_get_default details "website" PNone);
      ("rating", dict_get_default details "rating" (PStr "N/A"));
      ("open_now_status", PStr open_now_status);
      ("gmaps_url", PStr (gmaps_url name_plus place_id));
      ("location", location) ]))%res.

(** One turn of [for doctor in doctors_list], lines 93 to 115: the new value
    of [doctors_details]. *)
Definition enrich_one (gmaps : gmaps_client) (doctors_details : list pyval)
    (doctor : candidate) : M wstate (list pyval) :=
  place_id <- of_outcome (candidate_place_id doctor) ;;
  place_details <- place gmaps place_id fields ;;
  let details := match result place_details with Some d => d | None => [] end in
  entry <- of_outcome (doctor_entry place_id details) ;;
  ret (doctors_details ++ [entry]).

(** The loop of lines 91 to 115, from [doctors_details] so far. *)
Fixpoint enrich (gmaps : gmaps_client) (doctors_details : list pyval)
    (doctors_list : list candidate) : M wstate (list pyval) :=
  match doctors_list with
  | [] => ret doctors_details
  | doctor :: rest =>
      doctors_details' <- enrich_one gmaps doctors_details doctor ;;
      enrich gmaps doctors_details' rest
  end.

(** The [try] block of [predict], lines 68 to 122. *)
Definition predict_body (model : classifier) (gmaps : gmaps_client)
    (symptoms : list string) (data : request) : M wstate response :=
  let user_symptoms :=
    match req_symptoms data with Some l => l | None => [] end in
  let user_location :=
    match req_location data with Some l => l | None => "" end in
  if negb (list_truthy user_symptoms) || negb (str_truthy user_location) then
    ret ([("error", PStr "Missing symptoms or location.")], 400%Z)
  else
    prediction <- of_outcome (model (model_input symptoms user_symptoms)) ;;
    let specialist := resolve prediction in
    let query := query_of specialist user_location in
    places_result <- places gmaps query "doctor" ;;
    let doctors_list :=
      firstn 5 (match results places_result with Some l => l | None => [] end) in
    doctors_details <- enrich gmaps [] doctors_list ;;
    ret ([ ("predicted_disease", PStr prediction);
           ("specialist", PStr specialist);
           ("doctors", PList doctors_details) ], 200%Z).

(** [predict], with the resources loaded at startup: [model] and [gmaps] are
    [None] when their loading failed. *)
Definition predict (model : option classifier) (gmaps : option gmaps_client)
    (symptoms : list string) (data : request) : M wstate response :=
  match model, gmaps with
  | Some model, Some gmaps =>
      try_except (predict_body model gmaps symptoms data)
        (fun e =>
           print ("An error occurred during prediction: " ++ str_exn e) ;;;
           ret ([("error", PStr (str_exn e))], 500%Z))
  | _, _ =>
      ret ([("error", PStr "Backend server is not configured correctly.")], 500%Z)
  end.

(** A fresh run: nothing called, nothing printed. *)
Definition start : wstate := {| calls := []; stdout := [] |}.

End Web.

(** ** [src/app.py]: the Streamlit front-end *)

Module App.

(** A piece of an f-string: literal text, or a value formatted in place. *)
Inductive piece : Type :=
| Lit (text : string)
| Val (v : pyval).

(** The elements a run writes to the page, in the order of the calls.  The
    layout (columns, containers) and [time.sleep] are left out. *)
Inductive ui : Type :=
| st_warning (body : string)
| st_error (body : string)
| st_info (body : string)
| st_success (body : string)
| st_write (body : list piece)
| st_markdown (body : list piece)
| st_balloons
| st_divider
| st_subheader (body : string)
| st_status (label : string)
| status_update (label state : string)
| st_link_button (label : string) (url : pyval)
| st_button (label key : string)
| st_map (data : list pyval).

(** The state of a run: the calls issued to the provider, the page, and the
    variables of lines 114 to 117, which the display step reads after the
    [try] block whether or not it raised. *)
Record astate : Type := {
  calls : list gcall;
  page : list ui;
  prediction : option string;
  specialist : option string;
  doctors_list : list candidate;
  map_data_list : list pyval
}.

Definition with_calls (l : list gcall) (s : astate) : astate :=
  {| calls := l; page := page s; prediction := prediction s;
     specialist := specialist s; doctors_list := doctors_list s;
     map_data_list := map_data_list s |}.

Definition with_page (l : list ui) (s : astate) : astate :=
  {| calls := calls s; page := l; prediction := prediction s;
     specialist := specialist s; doctors_list := doctors_list s;
     map_data_list := map_data_list s |}.

Definition with_prediction (p : option string) (s : astate) : astate :=
  {| calls := calls s; page := page s; prediction := p;
     specialist := specialist s; doctors_list := doctors_list s;
     map_data_list := map_data_list s |}.

Definition with_specialist (sp : option string) (s : astate) : astate :=
  {| calls := calls s; page := page s; prediction := prediction s;
     specialist := sp; doctors_list := doctors_list s;
     map_data_list := map_data_list s |}.

Definition with_doctors_list (l : list candidate) (s : astate) : astate :=
  {| calls := calls s; page := page s; prediction := prediction s;
     specialist := specialist s; doctors_list := l;
     map_data_list := map_data_list s |}.

Definition with_map_data_list (l : list pyval) (s : astate) : astate :=
  {| calls := calls s; page := page s; prediction := prediction s;
     specialist := specialist s; doctors_list := doctors_list s;
     map_data_list := l |}.

#[export] Instance astate_log : CallLog astate := {
  calls_of := calls;
  log_call c s := with_calls (calls s ++ [c]) s
}.

(** A call of [st.warning], [st.write], ... with a text: one more element on
    the page. *)
Definition show (u : ui) : M astate unit :=
  modify (fun s => with_page (page s ++ [u]) s).

(** The widget calls whose arguments come from the data of the provider:
    [st.link_button], [st.button] with a key, [st.map].  Streamlit checks the
    arguments when it draws the widget and may raise (a url that is no
    string, a key that is on the page already, coordinates that are no
    numbers).  These checks are code of Streamlit, not of the page: a run
    takes them as a value, which answers from the page so far and the widget
    with the exception it raises, if any. *)
Definition streamlit : Type := list ui -> ui -> option pyexn.

(** A widget call: the widget is on the page unless Streamlit raises. *)
Definition draw (widgets : streamlit) (u : ui) : M astate unit :=
  s <- get ;;
  match widgets (page s) u with
  | Some e => raise e
  | None => show u
  end.

Definition set_prediction (p : option string) : M astate unit :=
  modify (with_prediction p).

Definition set_specialist (sp : option string) : M astate unit :=
  modify (with_specialist sp).

Definition set_doctors_list (l : list candidate) : M astate unit :=
  modify (with_doctors_list l).

Definition set_map_data_list (l : list pyval) : M astate unit :=
  modify (with_map_data_list l).

(** [l[i] = x]; the loop only stores at positions of the list. *)
Fixpoint list_store {A} (l : list A) (i : nat) (x : A) : list A :=
  match l, i with
  | [], _ => []
  | _ :: l', O => x :: l'
  | y :: l', S i' => y :: list_store l' i' x
  end.

(** [enumerate(l)], from index [i]. *)
Fixpoint enumerate_from {A} (i : nat) (l : list A) : list (nat * A) :=
  match l with
  | [] => []
  | x :: l' => (i, x) :: enumerate_from (S i) l'
  end.

(** One turn of the loop of lines 155 to 168, for the candidate at position
    [i].  [doctor['details'] = details] stores into the candidate, which the
    list [doctors_list] holds: the store is seen through the list. *)
Definition enrich_one (gmaps : gmaps_client) (i : nat) (doctor : candidate)
  : M astate unit :=
  place_id_ <- of_outcome (candidate_place_id doctor) ;;
  place_details <- place gmaps place_id_ fields ;;
  let details_ := match result place_details with Some d => d | None => [] end in
  s <- get ;;
  set_doctors_list
    (list_store (doctors_list s) i
       {| place_id := place_id doctor; details := Some details_ |}) ;;;
  match dict_get details_ "geometry" with
  | Some geometry =>
      location <- of_outcome (py_getitem geometry "location") ;;
      lat <- of_outcome (py_getitem location "lat") ;;
      lng <- of_outcome (py_getitem location "lng") ;;
      s <- get ;;
      set_map_data_list
        (map_data_list s ++
           [PDict [ ("name", dict_get_default details_ "name" (PStr "N/A"));
                    ("lat", lat); ("lon", lng) ]])
  | None => ret tt
  end.

(** The [try] block, lines 122 to 170. *)
Definition process (model : classifier) (gmaps : gmaps_client)
    (symptoms user_symptoms : list string) (user_location : string)
  : M astate unit :=
  show (st_write [Lit "Analyzing your symptoms..."]) ;;;
  p <- of_outcome (model (model_input symptoms user_symptoms)) ;;
  set_prediction (Some p) ;;;
  show (st_write [Lit "Identifying the right specialist..."]) ;;;
  let sp := resolve p in
  set_specialist (Some sp) ;;;
  show (st_write [Lit ("Searching for " ++ sp ++ "s near " ++ user_location ++ "...")]) ;;;
  places_result <- places gmaps (query_of sp user_location) "doctor" ;;
  let found :=
    firstn 5 (match results places_result with Some l => l | None => [] end) in
  set_doctors_list found ;;;
  for_each (enumerate_from 0 found) (fun '(i, doctor) => enrich_one gmaps i doctor) ;;;
  show (status_update "Analysis Complete!" "complete").

(** The [except] clause, lines 172 to 174. *)
Definition on_error (e : pyexn) : M astate unit :=
  show (status_update "Error processing request" "error") ;;;
  show (st_error ("An error occurred: " ++ str_exn e)).

(** [f"http://googleusercontent.com/maps/google.com/4{name}&query_place_id={place_id}"]. *)
Definition gmaps_url (name place_id : string) : string :=
  "http://googleusercontent.com/maps/google.com/4" ++ name
  ++ "&query_place_id=" ++ place_id.

(** One doctor card, lines 189 to 218. *)
Definition card (widgets : streamlit) (doctor : candidate) : M astate unit :=
  let details_ := match details doctor with Some d => d | None => [] end in
  place_id_ <- of_outcome (candidate_place_id doctor) ;;
  let name := dict_get_default details_ "name" (PStr "N/A") in
  let address := dict_get_default details_ "formatted_address"
                   (PStr "Address not available") in
  let phone := dict_get_default details_ "international_phone_number"
                 (PStr "Phone not available") in
  let website := dict_get_default details_ "website" PNone in
  let rating := dict_get_default details_ "rating" (PStr "N/A") in
  open_now <- of_outcome (open_now_status details_) ;;
  show (st_markdown [Lit "#### "; Val name]) ;;;
  show (st_write [Lit "**"; Val rating; Lit "** ⭐ | "; Lit open_now]) ;;;
  show (st_write [Lit "📍 **Address:** "; Val address]) ;;;
  show (st_write [Lit "📞 **Phone:** "; Val phone]) ;;;
  (if truthy website
   then draw widgets (st_link_button "Visit Website 🌐" website)
   else draw widgets (st_button "Website N/A" ("web_na_" ++ place_id_))) ;;;
  name_plus <- of_outcome (py_replace_space name) ;;
  draw widgets
    (st_link_button "View on Map 🗺️" (PStr (gmaps_url name_plus place_id_))) ;;;
  show (st_write [Lit ""]).

Definition opt_truthy (o : option string) : bool :=
  match o with Some s => str_truthy s | None => false end.

Definition opt_text (o : option string) : string :=
  match o with Some s => s | None => "None" end.

(** The display step, lines 177 to 224. *)
Definition display (widgets : streamlit) : M astate unit :=
  s <- get ;;
  if opt_truthy (prediction s) && opt_truthy (specialist s) then
    show (st_success ("**Predicted Condition:** " ++ opt_text (prediction s))) ;;;
    show st_balloons ;;;
    show (st_markdown
            [Lit ("### Recommended Specialist: **" ++ opt_text (specialist s) ++ "**")]) ;;;
    show st_divider ;;;
    show (st_subheader ("Top 5 " ++ opt_text (specialist s) ++ "s near you:")) ;;;
    if negb (list_truthy (doctors_list s)) then
      show (st_warning
              "No doctors found matching your criteria. Try a broader location.")
    else
      for_each (doctors_list s) (card widgets) ;;;
      if list_truthy (map_data_list s) then
        show st_divider ;;;
        show (st_subheader "Doctor Locations:") ;;;
        draw widgets (st_map (map_data_list s))
      else ret tt
  else ret tt.

(** The results column, lines 105 to 227: what a run does with the values of
    the widgets. *)
Definition results (widgets : streamlit) (model : classifier)
    (gmaps : gmaps_client) (symptoms user_symptoms : list string)
    (user_location : string) (find_doctor_button : bool) : M astate unit :=
  if find_doctor_button then
    if negb (list_truthy user_symptoms) then
      show (st_warning "Please select at least one symptom.")
    else if negb (str_truthy user_location) then
      show (st_warning "Please enter your location.")
    else
      set_prediction None ;;;
      set_specialist None ;;;
      set_doctors_list [] ;;;
      set_map_data_list [] ;;;
      show (st_status "Finding recommendations...") ;;;
      try_except (process model gmaps symptoms user_symptoms user_location)
                 on_error ;;;
      display widgets
  else
    show (st_info "Your results will appear here.").

(** The page below the title, lines 79 to 232, with the resources loaded at
    startup. *)
Definition main (widgets : streamlit) (model : option classifier)
    (gmaps : option gmaps_client) (symptoms user_symptoms : list string)
    (user_location : string) (find_doctor_button : bool) : M astate unit :=
  match model, list_truthy symptoms, gmaps with
  | Some model, true, Some gmaps =>
      results widgets model gmaps symptoms user_symptoms user_location
        find_doctor_button
  | Some _, true, None =>
      show (st_error "Google Maps Client could not be initialized. Please check your API key in .streamlit/secrets.toml")
  | _, _, _ =>
      show (st_error "Application could not be started. Please check model/data file paths.")
  end.

(** A fresh run: an empty page, nothing called. *)
Definition start : astate :=
  {| calls := []; page := []; prediction := None; specialist := None;
     doctors_list := []; map_data_list := [] |}.

End App.


(** ** Vocabulary of the statements *)

Module Spec.

(** Whether the request names the symptom. *)
Definition requested (user_symptoms : list string) (symptom : string) : bool :=
  existsb (String.eqb symptom) user_symptoms.

(** The details the code reads from the answer of a fetch:
    [place_details.get('result', {})]. *)
Definition details_of (pd : place_details) : pydict :=
  match result pd with Some d => d | None => [] end.

(** The candidates the code keeps from the answer of the search:
    [places_result.get('results', [])[:5]]. *)
Definition capped (pr : places_result) : list candidate :=
  firstn 5 (match results pr with Some l => l | None => [] end).

(** The fetches issued for a list of place ids, one after the other. *)
Definition fetch_calls (ids : list string) : list gcall :=
  map (fun id => CallPlace id fields) ids.

(** The place ids of the candidates that have one. *)
Fixpoint candidate_ids (doctors_list : list candidate) : list string :=
  match doctors_list with
  | [] => []
  | doctor :: rest =>
      match place_id doctor with
      | Some id => id :: candidate_ids rest
      | None => candidate_ids rest
      end
  end.

(** [enriched gmaps log doctors_list entries]: from the call log [log], every
    candidate of [doctors_list] has a place id, its fetch answers, and the
    entry at its position in [entries] is the one [Web.doctor_entry] builds
    from that answer.  The fetch of a candidate sees the fetches of the
    candidates before it in the log. *)
Inductive enriched (gmaps : gmaps_client)
  : list gcall -> list candidate -> list pyval -> Prop :=
| enriched_nil log : enriched gmaps log [] []
| enriched_cons log doctor rest id pd entry entries :
    place_id doctor = Some id ->
    gm_place gmaps log id fields = inr pd ->
    Web.doctor_entry id (details_of pd) = inr entry ->
    enriched gmaps (log ++ [CallPlace id fields]) rest entries ->
    enriched gmaps log (doctor :: rest) (entry :: entries).

(** The entry of a candidate whose fetch brought no details. *)
Definition placeholder_entry (id : string) : pyval :=
  PDict
    [ ("name", PStr "N/A");
      ("address", PStr "Address not available");
      ("phone", PStr "Phone not available");
      ("website", PNone);
      ("rating", PStr "N/A");
      ("open_now_status", PStr "Status unknown");
      ("gmaps_url", PStr (Web.gmaps_url "" id));
      ("location", PDict []) ].

(** [data.get('symptoms', [])] and [data.get('location', '')]. *)
Definition user_symptoms_of (data : Web.request) : list string :=
  match Web.req_symptoms data with Some l => l | None => [] end.

Definition user_location_of (data : Web.request) : string :=
  match Web.req_location data with Some l => l | None => "" end.

(** The request passes the check of line 72. *)
Definition complete (data : Web.request) : bool :=
  list_truthy (user_symptoms_of data) && str_truthy (user_location_of data).

(** The body of a successful response. *)
Definition success_body (prediction : string) (entries : list pyval) : pydict :=
  [ ("predicted_disease", PStr prediction);
    ("specialist", PStr (resolve prediction));
    ("doctors", PList entries) ].

(** The state of the endpoint after it issued the calls [cs]. *)
Definition logged (s : Web.wstate) (cs : list gcall) : Web.wstate :=
  {| Web.calls := Web.calls s ++ cs; Web.stdout := Web.stdout s |}.

(** The body of a response is an error body: the key ['error'] alone. *)
Definition error_only (body : pydict) : Prop :=
  exists message, body = [("error", PStr message)].

(** [fetched gmaps log doctors_list stored]: from the call log [log], every
    candidate of [doctors_list] has a place id, its fetch answers, and the
    candidate at its position in [stored] is the same candidate with the
    details of that answer under ['details']. *)
Inductive fetched (gmaps : gmaps_client)
  : list gcall -> list candidate -> list candidate -> Prop :=
| fetched_nil log : fetched gmaps log [] []
| fetched_cons log doctor rest id pd stored :
    place_id doctor = Some id ->
    gm_place gmaps log id fields = inr pd ->
    fetched gmaps (log ++ [CallPlace id fields]) rest stored ->
    fetched gmaps log (doctor :: rest)
      ({| place_id := Some id; details := Some (details_of pd) |} :: stored).

(** Every element a computation adds to the page satisfies [P]; the
    computation only adds to the page. *)
Definition emits {A} (P : App.ui -> Prop) (m : M App.astate A) : Prop :=
  forall s r s', m s = (r, s') ->
    exists new, App.page s' = App.page s ++ new /\ Forall P new.

(** The state in which the [try] block of the Streamlit run starts: the
    variables cleared, the status box open. *)
Definition cleared (s : App.astate) : App.astate :=
  {| App.calls := App.calls s;
     App.page := App.page s ++ [App.st_status "Finding recommendations..."];
     App.prediction := None; App.specialist := None;
     App.doctors_list := []; App.map_data_list := [] |}.

Definition symptom_warning : App.ui :=
  App.st_warning "Please select at least one symptom.".
Definition location_warning : App.ui :=
  App.st_warning "Please enter your location.".
Definition no_doctors_warning : App.ui :=
  App.st_warning "No doctors found matching your criteria. Try a broader location.".

Definition is_error (u : App.ui) : bool :=
  match u with App.st_error _ => true | _ => false end.

(** What the display step shows of a prediction before the doctors. *)
Definition headline (prediction : string) : list App.ui :=
  [ App.st_success ("**Predicted Condition:** " ++ prediction);
    App.st_balloons;
    App.st_markdown
      [App.Lit ("### Recommended Specialist: **" ++ resolve prediction ++ "**")];
    App.st_divider;
    App.st_subheader ("Top 5 " ++ resolve prediction ++ "s near you:") ].

(** What the [try] block writes into the status box up to the search. *)
Definition progress (prediction user_location : string) : list App.ui :=
  [ App.st_status "Finding recommendations...";
    App.st_write [App.Lit "Analyzing your symptoms..."];
    App.st_write [App.Lit "Identifying the right specialist..."];
    App.st_write
      [App.Lit ("Searching for " ++ resolve prediction ++ "s near "
                ++ user_location ++ "...")] ].

(** The keys of the dict appended to [doctors_details], in its order. *)
Definition entry_keys : list string :=
  ["name"; "address"; "phone"; "website"; "rating"; "open_now_status";
   "gmaps_url"; "location"].

(** The answer of line 73. *)
Definition missing_input : Web.response :=
  ([("error", PStr "Missing symptoms or location.")], 400%Z).

End Spec.
Import Spec.

(** ** Sample runs *)

Module Samples.

Definition vocabulary : list string :=
  ["itching"; "skin_rash"; "continuous_sneezing"; "headache"].

(** A classifier that reads two columns of the row. *)
Definition sample_model : classifier :=
  fun row =>
    match dict_get row "itching", dict_get row "headache" with
    | Some 1%Z, _ => inr "Fungal infection"
    | _, Some 1%Z => inr "Migraine"
    | _, _ => inr "Allergy"
    end.

Definition found (id : string) : candidate :=
  {| place_id := Some id; details := None |}.

(** Streamlit, when it takes every widget it is given. *)
Definition lenient : App.streamlit := fun _ _ => None.

Definition six_found : places_result :=
  {| results := Some [found "p1"; found "p2"; found "p3"; found "p4";
                      found "p5"; found "p6"] |}.

Definition none_found : places_result := {| results := Some [] |}.

Definition clinic (name : string) (open_now : bool) : place_details :=
  {| result := Some
       [ ("name", PStr name);
         ("formatted_address", PStr "12 Ring Road, New Delhi");
         ("international_phone_number", PStr "+91 11 5550 0100");
         ("website", PStr "https://clinic.example");
         ("rating", PFloat 45 (-1));
         ("opening_hours", PDict [("open_now", PBool open_now)]);
         ("geometry",
          PDict [("location",
                  PDict [("lat", PFloat 286139 (-4)); ("lng", PFloat 772090 (-4))])]) ] |}.

(** A provider that answers the same whatever was called before. *)
Definition provider (search : outcome places_result)
    (fetch : string -> outcome place_details) : gmaps_client :=
  {| gm_places := fun _ _ _ => search;
     gm_place := fun _ id _ => fetch id |}.

Definition all_clinics (id : string) : outcome place_details :=
  inr (clinic ("Skin Care " ++ id) true).

Definition timeout : pyexn := Raised "Timeout" "The request timed out.".

(** The fetch of "p3" times out. *)
Definition third_times_out (id : string) : outcome place_details :=
  if id =? "p3" then inl timeout else all_clinics id.

(** The fetch of "p3" succeeds without a ['result']. *)
Definition third_is_bare (id : string) : outcome place_details :=
  if id =? "p3" then inr {| result := None |} else all_clinics id.

Definition ask (symptoms : list string) (location : string) : Web.request :=
  {| Web.req_symptoms := Some symptoms; Web.req_location := Some location |}.

(** The details of an open clinic. *)
Definition open_clinic : pydict :=
  match result (clinic "Skin Care" true) with Some d => d | None => [] end.

(** Details with opening hours that do not say whether the place is open
    now. *)
Definition unflagged : pydict :=
  [ ("name", PStr "City Clinic");
    ("opening_hours",
     PDict [("weekday_text", PList [PStr "Monday: 9:00 AM - 5:00 PM"])]) ].

(** Details whose address the provider sends as [null]. *)
Definition null_address : place_details :=
  {| result := Some
       [ ("name", PStr "City Clinic"); ("formatted_address", PNone) ] |}.

(** One place found, its address [null]. *)
Definition null_provider : gmaps_client :=
  provider (inr {| results := Some [found "p1"] |}) (fun _ => inr null_address).

(** Six places found, the details of each fetched. *)
Definition good_provider : gmaps_client := provider (inr six_found) all_clinics.

Definition good_run : outcome Web.response * Web.wstate :=
  Eval vm_compute in
    Web.predict (Some sample_model) (Some good_provider) vocabulary
      (ask ["itching"; "skin_rash"] "New Delhi") Web.start.

Definition good_body : pydict :=
  Eval vm_compute in
    match good_run with (inr (body, _), _) => body | _ => [] end.

Definition good_state : Web.wstate :=
  Eval vm_compute in snd good_run.

Definition five_ids : list string := ["p1"; "p2"; "p3"; "p4"; "p5"].

(** Of the five fetches, the one of "p3" times out. *)
Definition flaky_provider : gmaps_client := provider (inr six_found) third_times_out.

(** Of the five fetches, the one of "p3" answers without a result. *)
Definition bare_provider : gmaps_client := provider (inr six_found) third_is_bare.

Definition search_log : list gcall :=
  [CallPlaces "Dermatologist in New Delhi" "doctor"].

(** The search answers with no place. *)
Definition empty_provider : gmaps_client := provider (inr none_found) all_clinics.

Definition empty_body : pydict :=
  [ ("predicted_disease", PStr "Fungal infection");
    ("specialist", PStr "Dermatologist");
    ("doctors", PList []) ].

End Samples.

(** ** Start-up of the two front-ends, and the home page *)

Module Startup.

(** *** [src/web/app.py], lines 13 to 58 *)

(** Lines 16 to 21: [googlemaps.Client(key=API_KEY)], or [None] when it
    raises. *)
Definition web_init_gmaps (client : outcome gmaps_client)
  : M Web.wstate (option gmaps_client) :=
  match client with
  | inr gmaps => ret (Some gmaps)
  | inl e =>
      Web.print ("Error initializing Google Maps Client: " ++ str_exn e) ;;;
      ret None
  end.

(** Lines 24 to 28: [joblib.load(...)], or [None] when it raises. *)
Definition web_load_model (loaded : outcome classifier)
  : M Web.wstate (option classifier) :=
  match loaded with
  | inr model => ret (Some model)
  | inl e => Web.print ("Error loading model: " ++ str_exn e) ;;; ret None
  end.

(** Lines 31 to 37: the columns of Training.csv without the label column and
    the unnamed ones, or [[]] when reading raises.  [read_csv] is what
    [pd.read_csv('Training.csv').columns.tolist()] gives. *)
Definition web_load_symptoms (read_csv : outcome (list string))
  : M Web.wstate (list string) :=
  match read_csv with
  | inr all_cols => ret (symptoms_of_columns all_cols)
  | inl e =>
      Web.print ("Error loading symptoms from Training.csv: " ++ str_exn e) ;;;
      ret []
  end.



(** The module from its start to one POST on [/predict]: the three loads in
    the order of the file, then the endpoint. *)
Definition serve_predict (client : outcome gmaps_client)
    (loaded : outcome classifier) (read_csv : outcome (list string))
    (data : Web.request) : M Web.wstate Web.response :=
  gmaps <- web_init_gmaps client ;;
  model <- web_load_model loaded ;;
  symptoms <- web_load_symptoms read_csv ;;
  Web.predict model gmaps symptoms data.


(** *** [src/app.py], lines 14 to 55 *)

(** [except FileNotFoundError]: the class of the exception. *)
Definition is_file_not_found (e : pyexn) : bool :=
  match e with
  | Raised class _ => class =? "FileNotFoundError"
  | _ => false
  end.

(** Lines 15 to 19. *)
Definition init_gmaps (client : outcome gmaps_client)
  : M App.astate (option gmaps_client) :=
  match client with
  | inr gmaps => ret (Some gmaps)
  | inl e =>
      App.show (App.st_error
        ("Could not initialize Google Maps: " ++ str_exn e
         ++ ". Check your API key in .streamlit/secrets.toml.")) ;;;
      ret None
  end.

(** [load_model], lines 24 to 34. *)
Definition load_model (loaded : outcome classifier)
  : M App.astate (option classifier) :=
  match loaded with
  | inr model => ret (Some model)
  | inl e =>
      if is_file_not_found e then
        App.show (App.st_error
          "Error: Model file not found. Make sure 'disease_predictor_model.pkl' is in the 'model' folder.") ;;;
        ret None
      else
        App.show (App.st_error
          ("An error occurred while loading the model: " ++ str_exn e)) ;;;
        ret None
  end.

(** [get_symptoms_list], lines 38 to 50. *)
Definition get_symptoms_list (read_csv : outcome (list string))
  : M App.astate (list string) :=
  match read_csv with
  | inr all_cols => ret (symptoms_of_columns all_cols)
  | inl e =>
      if is_file_not_found e then
        App.show (App.st_error
          "Error: 'Training.csv' not found. Make sure it's in the main project folder.") ;;;
        ret []
      else
        App.show (App.st_error
          ("An error occurred while loading symptoms: " ++ str_exn e)) ;;;
        ret []
  end.

(** One run of the script: the loads of lines 15 to 55, then the page of
    lines 79 to 232.  The sidebar and the title between them (lines 58 to
    77) are fixed text and are left out, like the layout. *)
Definition script (widgets : App.streamlit) (client : outcome gmaps_client)
    (loaded : outcome classifier) (read_csv : outcome (list string))
    (user_symptoms : list string) (user_location : string)
    (find_doctor_button : bool) : M App.astate unit :=
  gmaps <- init_gmaps client ;;
  model <- load_model loaded ;;
  symptoms <- get_symptoms_list read_csv ;;
  App.main widgets model gmaps symptoms user_symptoms user_location
    find_doctor_button.

End Startup.

(** ** Vocabulary of further statements *)

Module Terms.

Definition is_dict (v : pyval) : bool :=
  match v with PDict _ => true | _ => false end.

Definition is_str (v : pyval) : bool :=
  match v with PStr _ => true | _ => false end.

(** The key is absent from the dict, or its value passes the test. *)
Definition absent_or (test : pyval -> bool) (d : pydict) (key : string) : Prop :=
  match dict_get d key with
  | Some v => test v = true
  | None => True
  end.

(** The characters of a string. *)
Fixpoint chars (s : string) : list ascii :=
  match s with
  | EmptyString => []
  | String c s' => c :: chars s'
  end.

(** The seven specialists a label can resolve to. *)
Definition specialists : list string :=
  ["Dermatologist"; "Allergist"; "Gastroenterologist"; "Pulmonologist";
   "Neurologist"; "Cardiologist"; "General Practitioner"].

(** A column of the table that is no symptom. *)
Definition not_a_symptom (col : string) : bool :=
  (col =? "prognosis") || str_startswith col "Unnamed:".

(** The details stored in a candidate: [doctor.get('details', {})]. *)
Definition stored_details (doctor : candidate) : pydict :=
  match details doctor with Some d => d | None => [] end.

(** The map point of a candidate whose details carry a geometry with a
    location that has both coordinates; no point otherwise. *)
Definition point_of (details : pydict) : list pyval :=
  match dict_get details "geometry" with
  | Some (PDict geometry) =>
      match dict_get geometry "location" with
      | Some (PDict location) =>
          match dict_get location "lat", dict_get location "lng" with
          | Some lat, Some lng =>
              [PDict [ ("name", dict_get_default details "name" (PStr "N/A"));
                       ("lat", lat); ("lon", lng) ]]
          | _, _ => []
          end
      | _ => []
      end
  | _ => []
  end.

Definition has_geometry (details : pydict) : bool :=
  dict_contains details "geometry".

(** The state of the Streamlit run after it issued the calls [cs]. *)
Definition app_logged (s : App.astate) (cs : list gcall) : App.astate :=
  App.with_calls (App.calls s ++ cs) s.

(** A computation that leaves the call log as it found it. *)
Definition quiet {A} (m : M App.astate A) : Prop :=
  forall s r s', m s = (r, s') -> App.calls s' = App.calls s.

(** Every exception that leaves the computation satisfies [P]. *)
Definition raises_only {A} (P : pyexn -> Prop) (m : M App.astate A) : Prop :=
  forall s e s', m s = (inl e, s') -> P e.

(** The exceptions of a search result or of details that are not shaped as
    the code expects: a missing "place_id", opening hours that are no dict,
    a name that is no string. *)
Definition malformed (e : pyexn) : Prop :=
  e = KeyError "place_id"
  \/ exists ty, e = AttributeError ty "get" \/ e = AttributeError ty "replace".

(** The widgets Streamlit checks when it draws them. *)
Definition is_widget (u : App.ui) : bool :=
  match u with
  | App.st_link_button _ _ | App.st_button _ _ | App.st_map _ => true
  | _ => false
  end.

(** The exception is one Streamlit raises for a widget. *)
Definition refused (widgets : App.streamlit) (e : pyexn) : Prop :=
  exists pg u, is_widget u = true /\ widgets pg u = Some e.

(** The text of a card, lines 203 to 206. *)
Definition card_text (name rating address phone : pyval) (status : string)
  : list App.ui :=
  [ App.st_markdown [App.Lit "#### "; App.Val name];
    App.st_write [App.Lit "**"; App.Val rating; App.Lit "** ⭐ | "; App.Lit status];
    App.st_write [App.Lit "📍 **Address:** "; App.Val address];
    App.st_write [App.Lit "📞 **Phone:** "; App.Val phone] ].

(** The errors the three loads of the Streamlit script show, in the order
    of the loads: lines 18, 30 or 33, 46 or 49. *)
Definition load_errors (client : outcome gmaps_client)
    (loaded : outcome classifier) (read_csv : outcome (list string))
  : list App.ui :=
  (match client with
   | inl e =>
       [App.st_error ("Could not initialize Google Maps: " ++ str_exn e
                      ++ ". Check your API key in .streamlit/secrets.toml.")]
   | inr _ => []
   end
   ++ match loaded with
      | inl e =>
          [App.st_error
             (if Startup.is_file_not_found e
              then "Error: Model file not found. Make sure 'disease_predictor_model.pkl' is in the 'model' folder."
              else "An error occurred while loading the model: " ++ str_exn e)]
      | inr _ => []
      end
   ++ match read_csv with
      | inl e =>
          [App.st_error
             (if Startup.is_file_not_found e
              then "Error: 'Training.csv' not found. Make sure it's in the main project folder."
              else "An error occurred while loading symptoms: " ++ str_exn e)]
      | inr _ => []
      end)%list.

(** Whether a load went well. *)
Definition went_well {A} (o : outcome A) : bool :=
  match o with inr _ => true | inl _ => false end.

(** What a load gives the module: the value, or [None]. *)
Definition loaded_or_none {A} (o : outcome A) : option A :=
  match o with inr a => Some a | inl _ => None end.

(** The vocabulary the module holds after reading the table. *)
Definition vocabulary_of (read_csv : outcome (list string)) : list string :=
  match read_csv with
  | inr all_cols => symptoms_of_columns all_cols
  | inl _ => []
  end.

(** The lines the start-up of the Flask module prints. *)
Definition startup_lines (client : outcome gmaps_client)
    (loaded : outcome classifier) (read_csv : outcome (list string))
  : list string :=
  (match client with
   | inl e => [("Error initializing Google Maps Client: " ++ str_exn e)%string]
   | inr _ => []
   end
   ++ match loaded with
      | inl e => [("Error loading model: " ++ str_exn e)%string]
      | inr _ => []
      end
   ++ match read_csv with
      | inl e => [("Error loading symptoms from Training.csv: " ++ str_exn e)%string]
      | inr _ => []
      end)%list.

End Terms.
Import Terms.

(** ** Further sample data *)

Module MoreSamples.
Import Samples.

(** A search result without a place id, after a good one. *)
Definition nameless : candidate := {| place_id := None; details := None |}.

Definition second_is_nameless : places_result :=
  {| results := Some [found "p1"; nameless; found "p3"] |}.

Definition first_is_nameless : places_result :=
  {| results := Some [nameless; found "p2"] |}.

(** Details whose geometry has no location. *)
Definition unlocated : place_details :=
  {| result := Some
       [ ("name", PStr "City Clinic");
         ("geometry", PDict [("viewport", PDict [])]) ] |}.

(** Details without a geometry. *)
Definition unmapped : place_details :=
  {| result := Some [ ("name", PStr "Corner Practice") ] |}.

(** The details of "p2" have no geometry; the others are clinics. *)
Definition second_is_unmapped (id : string) : outcome place_details :=
  if id =? "p2" then inr unmapped else all_clinics id.

Definition file_missing : pyexn :=
  Raised "FileNotFoundError" "[Errno 2] No such file or directory: 'Training.csv'".

Definition table_columns : list string :=
  ["itching"; "skin_rash"; "continuous_sneezing"; "headache"; "prognosis";
   "Unnamed: 133"].

(** A model that rejects the shape of the row. *)
Definition shape_error : pyexn :=
  Raised "ValueError" "X has 4 features, but the model is expecting 132 features as input.".

Definition broken_model : classifier := fun _ => inl shape_error.

(** The first five of [six_found]. *)
Definition five_found : places_result :=
  {| results := Some [found "p1"; found "p2"; found "p3"; found "p4";
                      found "p5"] |}.

Definition new_delhi : string := "Dermatologist in New Delhi".

(** Five places kept, the second without a geometry. *)
Definition patchy_provider : gmaps_client :=
  provider (inr six_found) second_is_unmapped.

(** The state of the page after its [try] block, for that provider. *)
Definition patchy_state : App.astate :=
  Eval vm_compute in
    snd (App.process sample_model patchy_provider vocabulary
           ["itching"; "skin_rash"] "New Delhi" App.start).

(** Every fetch answers with details whose geometry has no location. *)
Definition unlocated_provider : gmaps_client :=
  provider (inr six_found) (fun _ => inr unlocated).

Definition nameless_provider : gmaps_client :=
  provider (inr first_is_nameless) all_clinics.

Definition key_missing : pyexn :=
  Raised "KeyError" "'GOOGLE_API_KEY'".

(** The state in which the run of the page ends for [nameless_provider]. *)
Definition nameless_state : App.astate :=
  Eval vm_compute in
    snd (App.main lenient (Some sample_model) (Some nameless_provider)
           vocabulary ["itching"] "New Delhi" true App.start).

(** Streamlit, when it refuses a button whose key is on the page already
    and takes every other widget. *)
Definition duplicate_key (key : string) : pyexn :=
  Raised "DuplicateWidgetID"
    ("There are multiple widgets with the same key='" ++ key ++ "'.").

Definition has_key (key : string) (u : App.ui) : bool :=
  match u with
  | App.st_button _ k => k =? key
  | _ => false
  end.

Definition unique_keys : App.streamlit :=
  fun pg u =>
    match u with
    | App.st_button _ key =>
        if existsb (has_key key) pg then Some (duplicate_key key) else None
    | _ => None
    end.

(** The search answers with the same place twice; no fetch brings details. *)
Definition twice_provider : gmaps_client :=
  provider (inr {| results := Some [found "p1"; found "p1"] |})
    (fun _ => inr {| result := None |}).

(** The state in which the run of the page ends for [twice_provider]. *)
Definition twice_state : App.astate :=
  Eval vm_compute in
    snd (App.main unique_keys (Some sample_model) (Some twice_provider)
           vocabulary ["itching"] "New Delhi" true App.start).

(** The entry the endpoint builds for an open clinic. *)
Definition open_clinic_entry : pydict :=
  Eval vm_compute in
    match Web.doctor_entry "p1" open_clinic with
    | inr (PDict entry) => entry
    | _ => []
    end.

End MoreSamples.

(** * Properties *)

(** ** Dicts *)

Module DictFacts.

Section Facts.
Context {V : Type}.
Implicit Types (d : dict V) (k : string) (v : V).

Lemma dict_get_set d k v k' :
  dict_get (dict_set d k v) k' = if k =? k' then Some v else dict_get d k'.
Proof.
  induction d as [|[k0 v0] d IH]; simpl.
  - destruct (k =? k'); reflexivity.
  - destruct (String.eqb_spec k0 k) as [->|Hk0]; simpl.
    + destruct (k =? k'); reflexivity.
    + rewrite IH. destruct (String.eqb_spec k0 k') as [->|Hk0'];
        [|reflexivity].
      destruct (String.eqb_spec k k'); [congruence|reflexivity].
Qed.

Lemma dict_get_In_keys d k :
  dict_contains d k = true <-> In k (dict_keys d).
Proof.
  unfold dict_contains, dict_keys.
  induction d as [|[k0 v0] d IH]; simpl.
  - split; [discriminate|tauto].
  - destruct (String.eqb_spec k0 k) as [->|Hne].
    + split; auto.
    + rewrite IH. split; [auto|]. intros [H|H]; [congruence|exact H].
Qed.

Lemma dict_contains_false d k :
  dict_contains d k = false <-> ~ In k (dict_keys d).
Proof.
  rewrite <- dict_get_In_keys. destruct (dict_contains d k); split;
    congruence.
Qed.

(** A store at a key the dict holds keeps the keys and their order. *)
Lemma dict_keys_set_present d k v :
  In k (dict_keys d) -> dict_keys (dict_set d k v) = dict_keys d.
Proof.
  unfold dict_keys.
  induction d as [|[k0 v0] d IH]; simpl; [tauto|].
  intros Hin. destruct (String.eqb_spec k0 k) as [->|Hne]; simpl.
  - reflexivity.
  - f_equal. apply IH. destruct Hin; [congruence|assumption].
Qed.

(** A store at a new key appends it. *)
Lemma dict_keys_set_absent d k v :
  ~ In k (dict_keys d) -> dict_keys (dict_set d k v) = dict_keys d ++ [k].
Proof.
  unfold dict_keys.
  induction d as [|[k0 v0] d IH]; simpl; [reflexivity|].
  intros Hnin. destruct (String.eqb_spec k0 k) as [->|Hne]; simpl.
  - tauto.
  - f_equal. apply IH. tauto.
Qed.

Lemma dict_get_some_In d k v :
  dict_get d k = Some v -> In (k, v) d.
Proof.
  induction d as [|[k0 v0] d IH]; simpl; [discriminate|].
  destruct (String.eqb_spec k0 k) as [->|Hne].
  - intros [= ->]. now left.
  - intros H. right. now apply IH.
Qed.

Lemma dict_get_none_keys d k :
  dict_get d k = None <-> ~ In k (dict_keys d).
Proof.
  rewrite <- dict_contains_false. unfold dict_contains.
  destruct (dict_get d k); split; congruence.
Qed.

(** A store adds at most its key. *)
Lemma dict_keys_set_In d x v k :
  In k (dict_keys (dict_set d x v)) -> In k (dict_keys d) \/ k = x.
Proof.
  destruct (in_dec string_dec x (dict_keys d)) as [Hin|Hnin].
  - rewrite dict_keys_set_present by assumption. auto.
  - rewrite dict_keys_set_absent by assumption. intros H.
    apply in_app_or in H. destruct H as [H|[H|[]]]; auto.
Qed.

End Facts.

End DictFacts.
Import DictFacts.

(** ** The feature encoding *)

Module Encoding.

Lemma zero_input_from (acc : dict Z) (symptoms : list string) :
  NoDup (dict_keys acc ++ symptoms) ->
  let d := fold_left (fun d symptom => dict_set d symptom 0%Z) symptoms acc in
  dict_keys d = dict_keys acc ++ symptoms
  /\ forall k, dict_get d k =
       if existsb (String.eqb k) symptoms then Some 0%Z else dict_get acc k.
Proof.
  revert acc. induction symptoms as [|x xs IH]; intros acc Hnd; simpl.
  - rewrite app_nil_r. split; reflexivity.
  - assert (Hx : ~ In x (dict_keys acc)).
    { apply NoDup_remove_2 in Hnd. intros Hin. apply Hnd.
      apply in_or_app. now left. }
    assert (Hnd' : NoDup (dict_keys (dict_set acc x 0%Z) ++ xs)).
    { rewrite dict_keys_set_absent by assumption.
      rewrite <- app_assoc. exact Hnd. }
    destruct (IH _ Hnd') as [Hk Hg]. split.
    + rewrite Hk, dict_keys_set_absent by assumption.
      now rewrite <- app_assoc.
    + intros k. rewrite Hg, dict_get_set.
      rewrite (String.eqb_sym k x).
      destruct (x =? k), (existsb (String.eqb k) xs); reflexivity.
Qed.

Lemma zero_input_keys (symptoms : list string) :
  NoDup symptoms -> dict_keys (zero_input symptoms) = symptoms.
Proof.
  intros Hnd. now destruct (zero_input_from [] symptoms Hnd) as [Hk _].
Qed.

Lemma zero_input_get (symptoms : list string) (k : string) :
  NoDup symptoms ->
  dict_get (zero_input symptoms) k =
    if existsb (String.eqb k) symptoms then Some 0%Z else None.
Proof.
  intros Hnd. destruct (zero_input_from [] symptoms Hnd) as [_ Hg].
  apply Hg.
Qed.

(** The marking loop keeps the keys and sets the requested ones to 1. *)
Lemma mark_from (acc : dict Z) (user_symptoms : list string) :
  let d := fold_left
    (fun d symptom => if dict_contains d symptom then dict_set d symptom 1%Z else d)
    user_symptoms acc in
  dict_keys d = dict_keys acc
  /\ forall k, dict_get d k =
       match dict_get acc k with
       | Some z => Some (if requested user_symptoms k then 1%Z else z)
       | None => None
       end.
Proof.
  revert acc. induction user_symptoms as [|x xs IH]; intros acc; simpl.
  - split; [reflexivity|]. intros k. now destruct (dict_get acc k).
  - destruct (IH (if dict_contains acc x then dict_set acc x 1%Z else acc))
      as [Hk Hg].
    destruct (dict_contains acc x) eqn:Hc.
    + split.
      * rewrite Hk. apply dict_keys_set_present. now apply dict_get_In_keys.
      * intros k. rewrite Hg, dict_get_set. unfold requested. simpl.
        rewrite (String.eqb_sym k x).
        destruct (String.eqb_spec x k) as [<-|Hne].
        -- unfold dict_contains in Hc. destruct (dict_get acc x); [|discriminate].
           simpl. now destruct (existsb (String.eqb x) xs).
        -- reflexivity.
    + split; [exact Hk|]. intros k. rewrite Hg. unfold requested. simpl.
      rewrite (String.eqb_sym k x).
      destruct (String.eqb_spec x k) as [<-|Hne]; [|reflexivity].
      unfold dict_contains in Hc. now destruct (dict_get acc x).
Qed.

Lemma existsb_eqb_In (k : string) (l : list string) :
  existsb (String.eqb k) l = true <-> In k l.
Proof.
  rewrite existsb_exists. split.
  - intros [x [Hin Heq]]. apply String.eqb_eq in Heq. now subst.
  - intros Hin. exists k. split; [assumption|apply String.eqb_refl].
Qed.

Lemma model_input_keys (symptoms user_symptoms : list string) :
  NoDup symptoms -> dict_keys (model_input symptoms user_symptoms) = symptoms.
Proof.
  intros Hnd. unfold model_input.
  destruct (mark_from (zero_input symptoms) user_symptoms) as [Hk _].
  rewrite Hk. now apply zero_input_keys.
Qed.

Lemma model_input_get (symptoms user_symptoms : list string) (k : string) :
  NoDup symptoms ->
  dict_get (model_input symptoms user_symptoms) k =
    if existsb (String.eqb k) symptoms
    then Some (if requested user_symptoms k then 1%Z else 0%Z)
    else None.
Proof.
  intros Hnd. unfold model_input.
  destruct (mark_from (zero_input symptoms) user_symptoms) as [_ Hg].
  rewrite Hg, zero_input_get by assumption.
  now destruct (existsb (String.eqb k) symptoms).
Qed.

(** The keys of the zeroed dict are vocabulary symptoms, duplicates or not. *)
Lemma zero_input_keys_incl (symptoms : list string) (acc : dict Z) (k : string) :
  In k (dict_keys (fold_left (fun d symptom => dict_set d symptom 0%Z) symptoms acc)) ->
  In k (dict_keys acc) \/ In k symptoms.
Proof.
  revert acc. induction symptoms as [|x xs IH]; intros acc; simpl; [auto|].
  intros H. apply IH in H. destruct H as [H|H]; [|auto].
  apply dict_keys_set_In in H. destruct H as [H| ->]; auto.
Qed.

(** The test of the marking loop reads the keys only, and the loop keeps
    them: a symptom that fails a test [p] true of every key is skipped. *)
Lemma mark_filter (p : string -> bool) (l : list string) (acc : dict Z) :
  (forall k, dict_contains acc k = true -> p k = true) ->
  fold_left
    (fun d symptom => if dict_contains d symptom then dict_set d symptom 1%Z else d)
    l acc =
  fold_left
    (fun d symptom => if dict_contains d symptom then dict_set d symptom 1%Z else d)
    (filter p l) acc.
Proof.
  revert acc. induction l as [|x xs IH]; intros acc Hp; simpl; [reflexivity|].
  destruct (dict_contains acc x) eqn:Hc.
  - rewrite (Hp _ Hc). simpl. rewrite Hc. apply IH.
    intros k Hk. apply Hp. apply dict_get_In_keys.
    apply dict_get_In_keys in Hk.
    rewrite dict_keys_set_present in Hk; [assumption|].
    now apply dict_get_In_keys.
  - destruct (p x); simpl; [rewrite Hc|]; now apply IH.
Qed.

(** A requested symptom outside the vocabulary changes nothing. *)
Lemma model_input_known (symptoms user_symptoms : list string) :
  model_input symptoms user_symptoms =
  model_input symptoms
    (filter (fun s => existsb (String.eqb s) symptoms) user_symptoms).
Proof.
  unfold model_input. apply mark_filter.
  intros k Hk. apply existsb_eqb_In.
  apply dict_get_In_keys in Hk. unfold zero_input in Hk.
  apply zero_input_keys_incl in Hk. destruct Hk as [[]|Hk]. exact Hk.
Qed.

(** The vocabulary has no duplicates when the columns of the table have
    none, and holds neither the label column nor an unnamed one. *)
Lemma symptoms_of_columns_NoDup (all_cols : list string) :
  NoDup all_cols -> NoDup (symptoms_of_columns all_cols).
Proof. apply NoDup_filter. Qed.

Lemma symptoms_of_columns_In (all_cols : list string) (col : string) :
  In col (symptoms_of_columns all_cols) <->
  In col all_cols /\ col <> "prognosis" /\ str_startswith col "Unnamed:" = false.
Proof.
  unfold symptoms_of_columns. rewrite filter_In, andb_true_iff, !negb_true_iff.
  destruct (String.eqb_spec col "prognosis"); intuition congruence.
Qed.

(** C1. For a vocabulary [symptoms] without duplicates and any list
    [user_symptoms] of requested symptoms (so also for each one with at
    least one element), the encoding step builds a vector with one entry per
    vocabulary symptom, in the order of the vocabulary; the entry of a
    vocabulary symptom is 1 when the request names it and 0 when it does
    not; and the requested symptoms outside the vocabulary are skipped: the
    vector is the one their removal gives.  The step is a total function,
    it raises nothing. *)
Theorem encode_vector (symptoms user_symptoms : list string) :
  NoDup symptoms ->
  dict_keys (model_input symptoms user_symptoms) = symptoms
  /\ length (model_input symptoms user_symptoms) = length symptoms
  /\ (forall symptom, In symptom symptoms ->
        dict_get (model_input symptoms user_symptoms) symptom =
          Some (if in_dec string_dec symptom user_symptoms then 1%Z else 0%Z))
  /\ (forall symptom, ~ In symptom symptoms ->
        dict_get (model_input symptoms user_symptoms) symptom = None)
  /\ model_input symptoms user_symptoms =
       model_input symptoms
         (filter (fun s => existsb (String.eqb s) symptoms) user_symptoms).
Proof.
  intros Hnd. split; [now apply model_input_keys|]. split.
  { rewrite <- (model_input_keys symptoms user_symptoms Hnd) at 2.
    unfold dict_keys. now rewrite length_map. }
  split; [|split].
  - intros symptom Hin. rewrite model_input_get by assumption.
    apply existsb_eqb_In in Hin. rewrite Hin. f_equal.
    unfold requested.
    destruct (in_dec string_dec symptom user_symptoms) as [Hreq|Hreq].
    + apply existsb_eqb_In in Hreq. now rewrite Hreq.
    + destruct (existsb (String.eqb symptom) user_symptoms) eqn:E;
        [|reflexivity].
      apply existsb_eqb_In in E. contradiction.
  - intros symptom Hnin. rewrite model_input_get by assumption.
    destruct (existsb (String.eqb symptom) symptoms) eqn:E; [|reflexivity].
    apply existsb_eqb_In in E. contradiction.
  - apply model_input_known.
Qed.

End Encoding.

(** ** The specialty resolver *)

Module Resolver.

Lemma specialty_map_keys_NoDup : NoDup (dict_keys specialty_map).
Proof.
  unfold specialty_map, dict_keys; simpl.
  repeat (constructor; [simpl; intuition discriminate|]). constructor.
Qed.

Lemma resolve_mapped (label specialist : string) :
  dict_get specialty_map label = Some specialist -> resolve label = specialist.
Proof. unfold resolve, dict_get_default. now intros ->. Qed.

Lemma resolve_unmapped (label : string) :
  ~ In label (dict_keys specialty_map) -> resolve label = "General Practitioner".
Proof.
  intros H. apply dict_get_none_keys in H.
  unfold resolve, dict_get_default. now rewrite H.
Qed.

(** The specialist is never the empty string. *)
Lemma resolve_nonempty (label : string) : str_truthy (resolve label) = true.
Proof.
  assert (Hall : Forall (fun kv => str_truthy (snd kv) = true) specialty_map)
    by (repeat constructor).
  unfold resolve, dict_get_default.
  destruct (dict_get specialty_map label) as [sp|] eqn:Hget; [|reflexivity].
  apply dict_get_some_In in Hget. rewrite Forall_forall in Hall.
  apply (Hall _ Hget).
Qed.

(** C5. Specialty resolution is a total function of the label: for a label
    that is a key of the static map it gives the specialist the map pairs
    with it (each key is paired once), "Migraine" gives "Neurologist", and a
    label that is no key gives the fallback "General Practitioner". *)
Theorem resolve_lookup (label : string) :
  (In label (dict_keys specialty_map) ->
     In (label, resolve label) specialty_map
     /\ forall specialist, In (label, specialist) specialty_map ->
          resolve label = specialist)
  /\ (~ In label (dict_keys specialty_map) ->
        resolve label = "General Practitioner")
  /\ resolve "Migraine" = "Neurologist"
  /\ resolve "Common Cold" = "General Practitioner".
Proof.
  split; [|split; [apply resolve_unmapped|split; reflexivity]].
  intros Hin.
  destruct (dict_get specialty_map label) as [sp|] eqn:Hget.
  - rewrite (resolve_mapped _ _ Hget). split.
    + now apply dict_get_some_In.
    + intros sp' Hin'. apply dict_get_some_In in Hget.
      pose proof specialty_map_keys_NoDup as Hnd.
      revert Hget Hin' Hnd. unfold dict_keys.
      generalize specialty_map as m.
      induction m as [|[k v] m IH]; simpl; [tauto|].
      intros H1 H2 Hnd. inversion Hnd as [|? ? Hk Hnd']; subst.
      destruct H1 as [H1|H1], H2 as [H2|H2].
      * congruence.
      * inversion H1; subst. exfalso. apply Hk.
        change label with (fst (label, sp')). now apply in_map.
      * inversion H2; subst. exfalso. apply Hk.
        change label with (fst (label, sp)). now apply in_map.
      * now apply IH.
  - apply dict_get_none_keys in Hget. contradiction.
Qed.

End Resolver.

(** ** The open-now status *)

Module OpenNow.

Lemma open_now_absent (details : pydict) :
  dict_get details "opening_hours" = None ->
  open_now_status details = inr status_unknown.
Proof. unfold open_now_status. now intros ->. Qed.

Lemma open_now_flag (details hours : pydict) (b : bool) :
  dict_get details "opening_hours" = Some (PDict hours) ->
  dict_get hours "open_now" = Some (PBool b) ->
  open_now_status details = inr (if b then status_open else status_closed).
Proof.
  unfold open_now_status. intros -> H. simpl.
  unfold dict_get_default. now rewrite H.
Qed.

(** With opening hours that do not say whether the place is open now, the
    default [False] of the lookup gives "closed". *)
Lemma open_now_default (details hours : pydict) :
  dict_get details "opening_hours" = Some (PDict hours) ->
  dict_get hours "open_now" = None ->
  open_now_status details = inr status_closed.
Proof.
  unfold open_now_status. intros -> H. simpl.
  unfold dict_get_default. now rewrite H.
Qed.

Lemma open_now_range (details : pydict) (st : string) :
  open_now_status details = inr st ->
  (st = status_open \/ st = status_closed) /\ dict_get details "opening_hours" <> None
  \/ st = status_unknown /\ dict_get details "opening_hours" = None.
Proof.
  unfold open_now_status.
  destruct (dict_get details "opening_hours") as [oh|].
  - destruct oh; simpl; try discriminate.
    intros [= <-]. left. split; [|discriminate].
    destruct (truthy _); auto.
  - intros [= <-]. now right.
Qed.

Lemma doctor_entry_inv (id : string) (details : pydict) (entry : pyval) :
  Web.doctor_entry id details = inr entry ->
  exists st name_plus location,
    open_now_status details = inr st
    /\ py_replace_space (dict_get_default details "name" (PStr "")) = inr name_plus
    /\ py_get (dict_get_default details "geometry" (PDict [])) "location" (PDict [])
       = inr location
    /\ entry = PDict
        [ ("name", dict_get_default details "name" (PStr "N/A"));
          ("address", dict_get_default details "formatted_address"
                        (PStr "Address not available"));
          ("phone", dict_get_default details "international_phone_number"
                      (PStr "Phone not available"));
          ("website", dict_get_default details "website" PNone);
          ("rating", dict_get_default details "rating" (PStr "N/A"));
          ("open_now_status", PStr st);
          ("gmaps_url", PStr (Web.gmaps_url name_plus id));
          ("location", location) ].
Proof.
  unfold Web.doctor_entry, rbind.
  destruct (open_now_status details) as [e|st]; [discriminate|].
  destruct (py_replace_space _) as [e|name_plus]; [discriminate|].
  destruct (py_get _ _ _) as [e|location]; [discriminate|].
  intros [= <-]. now exists st, name_plus, location.
Qed.

(** The opening hours as the code reads them: a dict gives "open" or
    "closed" by the truth value of its "open_now", [False] when it has none. *)
Lemma open_now_hours (details hours : pydict) :
  dict_get details "opening_hours" = Some (PDict hours) ->
  open_now_status details
    = inr (if truthy (dict_get_default hours "open_now" (PBool false))
           then status_open else status_closed).
Proof. unfold open_now_status. now intros ->. Qed.

(** The card of a candidate shows the status of its details before it draws
    a button: the line is on the page in every outcome of the card, and a
    status that raises is the outcome of the card. *)
Lemma card_shows_status (widgets : App.streamlit) (id : string)
    (details : pydict) (s s' : App.astate) (r : outcome unit) :
  App.card widgets {| place_id := Some id; Ext.details := Some details |} s
    = (r, s') ->
  match open_now_status details with
  | inr st =>
      In (App.st_write
            [App.Lit "**"; App.Val (dict_get_default details "rating" (PStr "N/A"));
             App.Lit "** ⭐ | "; App.Lit st]) (App.page s')
  | inl e => r = inl e
  end.
Proof.
  unfold App.card, App.draw.
  unfold candidate_place_id, bind, of_outcome, App.show, get, raise, modify.
  cbn [place_id Ext.details].
  destruct (open_now_status details) as [e|st]; [now intros [= <- _]|].
  cbn [App.page App.with_page].
  destruct (truthy (dict_get_default details "website" PNone));
    cbn [App.page App.with_page];
    (match goal with
     | |- context [widgets ?pg ?u] => destruct (widgets pg u) as [e1|]
     end;
     [intros [= _ <-]; cbn [App.page App.with_page]; rewrite !in_app_iff;
      simpl; tauto|]);
    cbn [App.page App.with_page];
    (destruct (py_replace_space (dict_get_default details "name" (PStr "N/A")))
       as [e|name_plus];
     [intros [= _ <-]; cbn [App.page App.with_page]; rewrite !in_app_iff;
      simpl; tauto|]);
    cbn [App.page App.with_page];
    (match goal with
     | |- context [widgets ?pg ?u] => destruct (widgets pg u) as [e2|]
     end;
     intros [= _ <-]; cbn [App.page App.with_page]; rewrite !in_app_iff;
     simpl; tauto).
Qed.

(** C9, as the code has it.  The open-now status of a candidate has three
    values.  It is "unknown" when the details carry no opening hours, and in
    that case only.  When they carry opening hours, it is "open" or "closed"
    by the truth value the hours hold under "open_now": "open" for [true],
    "closed" for [false], and "closed" as well when the hours hold no
    "open_now" at all, by the default [False] of the lookup.  The entry the
    Flask endpoint emits for the candidate carries this status, and the card
    of the Streamlit page shows it before it draws a button. *)
Theorem open_now_tri_state (details : pydict) :
  (forall hours,
      dict_get details "opening_hours" = Some (PDict hours) ->
      open_now_status details
        = inr (if truthy (dict_get_default hours "open_now" (PBool false))
               then status_open else status_closed))
  /\ (forall hours b,
        dict_get details "opening_hours" = Some (PDict hours) ->
        dict_get hours "open_now" = Some (PBool b) ->
        open_now_status details = inr (if b then status_open else status_closed))
  /\ (forall hours,
        dict_get details "opening_hours" = Some (PDict hours) ->
        dict_get hours "open_now" = None ->
        open_now_status details = inr status_closed)
  /\ (dict_get details "opening_hours" = None ->
        open_now_status details = inr status_unknown)
  /\ (forall st, open_now_status details = inr st ->
        (st = status_open \/ st = status_closed \/ st = status_unknown)
        /\ (st = status_unknown <-> dict_get details "opening_hours" = None))
  /\ (forall id entry, Web.doctor_entry id details = inr (PDict entry) ->
        exists st, open_now_status details = inr st
                   /\ dict_get entry "open_now_status" = Some (PStr st))
  /\ (forall widgets id s r s',
        App.card widgets {| place_id := Some id; Ext.details := Some details |} s
          = (r, s') ->
        match open_now_status details with
        | inr st =>
            In (App.st_write
                  [App.Lit "**";
                   App.Val (dict_get_default details "rating" (PStr "N/A"));
                   App.Lit "** ⭐ | "; App.Lit st]) (App.page s')
        | inl e => r = inl e
        end).
Proof.
  split; [apply open_now_hours|]. split; [apply open_now_flag|].
  split; [apply open_now_default|]. split; [apply open_now_absent|].
  split; [|split; [|intros widgets id s r s'; apply card_shows_status]].
  - intros st H. apply open_now_range in H.
    destruct H as [[[-> | ->] Hsome]|[-> Hnone]].
    + split; [auto|]. split; [discriminate|]. intros; contradiction.
    + split; [auto|]. split; [discriminate|]. intros; contradiction.
    + split; [auto|]. split; auto.
  - intros id entry H. apply doctor_entry_inv in H.
    destruct H as (st & name_plus & location & Hst & _ & _ & Heq).
    exists st. split; [assumption|]. injection Heq as ->. reflexivity.
Qed.

End OpenNow.

(** ** The Flask endpoint *)

Module WebFacts.
Import Web.

Lemma logged_nil (s : wstate) : logged s [] = s.
Proof. destruct s. unfold logged; simpl. now rewrite app_nil_r. Qed.

Lemma logged_logged (s : wstate) (cs cs' : list gcall) :
  logged (logged s cs) cs' = logged s (cs ++ cs').
Proof. unfold logged; simpl. now rewrite app_assoc. Qed.

Lemma bind_inr {S A B} (m : M S A) (k : A -> M S B) s a s1 :
  m s = (inr a, s1) -> bind m k s = k a s1.
Proof. unfold bind. now intros ->. Qed.

Lemma bind_inl {S A B} (m : M S A) (k : A -> M S B) s e s1 :
  m s = (inl e, s1) -> bind m k s = (inl e, s1).
Proof. unfold bind. now intros ->. Qed.

(** One turn of the loop, case by case. *)
Lemma enrich_one_eq (gmaps : gmaps_client) (acc : list pyval)
    (doctor : candidate) (s : wstate) :
  enrich_one gmaps acc doctor s =
  match place_id doctor with
  | None => (inl (KeyError "place_id"), s)
  | Some id =>
      match gm_place gmaps (calls s) id fields with
      | inl e => (inl e, logged s [CallPlace id fields])
      | inr pd =>
          match doctor_entry id (details_of pd) with
          | inl e => (inl e, logged s [CallPlace id fields])
          | inr entry => (inr (acc ++ [entry]), logged s [CallPlace id fields])
          end
      end
  end.
Proof.
  unfold enrich_one, candidate_place_id, bind, of_outcome, place, ret; simpl.
  destruct (place_id doctor) as [id|]; [|reflexivity].
  destruct (gm_place gmaps (calls s) id fields) as [e|pd]; [reflexivity|].
  fold (details_of pd).
  destruct (doctor_entry id (details_of pd)); reflexivity.
Qed.

(** A run of the loop that ends well has built one entry per candidate, in
    their order, and issued their fetches in that order. *)
Lemma enrich_sound (gmaps : gmaps_client) (doctors_list : list candidate) :
  forall acc s out s',
    enrich gmaps acc doctors_list s = (inr out, s') ->
    exists entries,
      out = acc ++ entries
      /\ enriched gmaps (calls s) doctors_list entries
      /\ s' = logged s (fetch_calls (candidate_ids doctors_list)).
Proof.
  induction doctors_list as [|doctor rest IH]; intros acc s out s'; simpl.
  - unfold ret. intros [= <- <-]. exists []. rewrite app_nil_r, logged_nil.
    repeat split. constructor.
  - unfold bind at 1. rewrite enrich_one_eq.
    destruct (place_id doctor) as [id|] eqn:Hid; [|discriminate].
    destruct (gm_place gmaps (calls s) id fields) as [e|pd] eqn:Hpd;
      [discriminate|].
    destruct (doctor_entry id (details_of pd)) as [e|entry] eqn:Hentry;
      [discriminate|].
    intros H. apply IH in H. destruct H as (entries & -> & Henr & ->).
    exists (entry :: entries). rewrite <- app_assoc. simpl.
    split; [reflexivity|]. split.
    + econstructor; eassumption.
    + now rewrite logged_logged.
Qed.

Lemma enrich_complete (gmaps : gmaps_client) (doctors_list : list candidate) :
  forall acc s entries,
    enriched gmaps (calls s) doctors_list entries ->
    enrich gmaps acc doctors_list s =
      (inr (acc ++ entries), logged s (fetch_calls (candidate_ids doctors_list))).
Proof.
  induction doctors_list as [|doctor rest IH]; intros acc s entries Henr;
    inversion Henr as [|? ? ? id pd entry entries' Hid Hpd Hentry Hrest]; subst;
    simpl.
  - unfold ret. now rewrite app_nil_r, logged_nil.
  - unfold bind at 1. rewrite enrich_one_eq, Hid, Hpd, Hentry.
    rewrite (IH _ _ entries') by exact Hrest.
    now rewrite logged_logged, <- app_assoc.
Qed.

(** A fetch that raises ends the loop with its exception, whatever was
    enriched before it. *)
Lemma enrich_raise (gmaps : gmaps_client) (before : list candidate) :
  forall acc s entries doctor after id e,
    enriched gmaps (calls s) before entries ->
    place_id doctor = Some id ->
    gm_place gmaps (calls s ++ fetch_calls (candidate_ids before)) id fields
      = inl e ->
    enrich gmaps acc (before ++ doctor :: after) s =
      (inl e, logged s (fetch_calls (candidate_ids before ++ [id]))).
Proof.
  induction before as [|d rest IH]; intros acc s entries doctor after id e Henr Hid He;
    inversion Henr as [|? ? ? id' pd entry entries' Hid' Hpd Hentry Hrest]; subst;
    simpl in *.
  - unfold bind at 1. rewrite enrich_one_eq, Hid.
    rewrite app_nil_r in He. now rewrite He.
  - unfold bind at 1. rewrite enrich_one_eq, Hid', Hpd, Hentry.
    rewrite Hid' in He. simpl in He.
    rewrite (IH _ _ entries' doctor after id e); simpl; try assumption.
    + now rewrite logged_logged.
    + rewrite <- app_assoc. exact He.
Qed.

Lemma enriched_length gmaps log doctors_list entries :
  enriched gmaps log doctors_list entries ->
  length entries = length doctors_list.
Proof. induction 1; simpl; congruence. Qed.

(** The entry at a position is built for the candidate at that position. *)
Lemma enriched_nth gmaps log doctors_list entries :
  enriched gmaps log doctors_list entries ->
  forall i doctor,
    nth_error doctors_list i = Some doctor ->
    exists id pd entry,
      place_id doctor = Some id
      /\ gm_place gmaps
           (log ++ fetch_calls (candidate_ids (firstn i doctors_list))) id fields
         = inr pd
      /\ doctor_entry id (details_of pd) = inr entry
      /\ nth_error entries i = Some entry.
Proof.
  induction 1 as [|log d rest id pd entry entries Hid Hpd Hentry Hrest IH];
    intros i doctor Hnth.
  - destruct i; discriminate.
  - destruct i as [|i]; simpl in *.
    + injection Hnth as <-. exists id, pd, entry.
      rewrite app_nil_r. auto.
    + destruct (IH _ _ Hnth) as (id' & pd' & entry' & H1 & H2 & H3 & H4).
      exists id', pd', entry'. rewrite Hid. simpl.
      rewrite <- app_assoc in H2. auto.
Qed.

Lemma candidate_ids_all gmaps log doctors_list entries :
  enriched gmaps log doctors_list entries ->
  map place_id doctors_list = map Some (candidate_ids doctors_list).
Proof.
  induction 1 as [|log d rest id pd entry entries Hid Hpd Hentry Hrest IH];
    simpl; [reflexivity|].
  rewrite Hid. simpl. now f_equal.
Qed.

(** The [try] block on a request that fails the check of line 72. *)
Lemma predict_body_incomplete model gmaps symptoms data s :
  complete data = false ->
  predict_body model gmaps symptoms data s =
    (inr ([("error", PStr "Missing symptoms or location.")], 400%Z), s).
Proof.
  unfold complete, predict_body, user_symptoms_of, user_location_of.
  intros H. apply andb_false_iff in H.
  destruct H as [H|H]; rewrite H; simpl; [reflexivity|].
  now rewrite orb_true_r.
Qed.

(** The [try] block on a request that passes it, stage by stage. *)
Lemma predict_body_complete model gmaps symptoms data s :
  complete data = true ->
  predict_body model gmaps symptoms data s =
    match model (model_input symptoms (user_symptoms_of data)) with
    | inl e => (inl e, s)
    | inr prediction =>
        let query := query_of (resolve prediction) (user_location_of data) in
        match gm_places gmaps (calls s) query "doctor" with
        | inl e => (inl e, logged s [CallPlaces query "doctor"])
        | inr pr =>
            match enrich gmaps [] (capped pr)
                    (logged s [CallPlaces query "doctor"]) with
            | (inl e, s') => (inl e, s')
            | (inr entries, s') => (inr (success_body prediction entries, 200%Z), s')
            end
        end
    end.
Proof.
  unfold complete, predict_body. fold (user_symptoms_of data).
  fold (user_location_of data).
  intros H. apply andb_true_iff in H. destruct H as [H1 H2].
  rewrite H1, H2. cbn [negb orb].
  unfold bind at 1. unfold of_outcome.
  destruct (model _) as [e|prediction]; [reflexivity|].
  unfold bind at 1. unfold places at 1.
  cbn [calls_of log_call wstate_log].
  fold (logged s [CallPlaces (query_of (resolve prediction) (user_location_of data)) "doctor"]).
  destruct (gm_places gmaps _ _ _) as [e|pr]; [reflexivity|].
  fold (capped pr). unfold bind.
  destruct (enrich gmaps [] (capped pr) _) as [[e|entries] s']; reflexivity.
Qed.

(** [predict] with its resources loaded: the handler turns the exception of
    the [try] block into the error response. *)
Lemma predict_loaded model gmaps symptoms data s :
  predict (Some model) (Some gmaps) symptoms data s =
    match predict_body model gmaps symptoms data s with
    | (inr r, s') => (inr r, s')
    | (inl e, s') =>
        (inr ([("error", PStr (str_exn e))], 500%Z),
         {| calls := calls s';
            stdout := stdout s' ++
              [("An error occurred during prediction: " ++ str_exn e)%string] |})
    end.
Proof.
  unfold predict, try_except.
  destruct (predict_body model gmaps symptoms data s) as [[e|r] s'];
    reflexivity.
Qed.

(** The endpoint always answers: no exception leaves [predict]. *)
Lemma predict_answers model gmaps symptoms data s :
  exists r s', predict model gmaps symptoms data s = (inr r, s').
Proof.
  destruct model as [model|], gmaps as [gmaps|];
    try (unfold predict, ret; eauto; fail).
  rewrite predict_loaded.
  destruct (predict_body model gmaps symptoms data s) as [[e|r] s']; eauto.
Qed.

(** A raising stage gives the error body alone, with status 500. *)
Lemma predict_raise model gmaps symptoms data s e s' :
  predict_body model gmaps symptoms data s = (inl e, s') ->
  fst (predict (Some model) (Some gmaps) symptoms data s) =
    inr ([("error", PStr (str_exn e))], 500%Z).
Proof. intros H. now rewrite predict_loaded, H. Qed.

(** What a response with status 200 says of the run. *)
Lemma predict_success model gmaps symptoms data s body s' :
  predict (Some model) (Some gmaps) symptoms data s = (inr (body, 200%Z), s') ->
  exists prediction pr entries,
    complete data = true
    /\ model (model_input symptoms (user_symptoms_of data)) = inr prediction
    /\ gm_places gmaps (calls s)
         (query_of (resolve prediction) (user_location_of data)) "doctor" = inr pr
    /\ enriched gmaps
         (calls s ++ [CallPlaces (query_of (resolve prediction) (user_location_of data)) "doctor"])
         (capped pr) entries
    /\ body = success_body prediction entries
    /\ s' = logged s
             (CallPlaces (query_of (resolve prediction) (user_location_of data)) "doctor"
              :: fetch_calls (candidate_ids (capped pr))).
Proof.
  rewrite predict_loaded.
  destruct (complete data) eqn:Hc.
  - rewrite predict_body_complete by assumption.
    destruct (model _) as [e|prediction] eqn:Hm; [discriminate|].
    cbv zeta.
    destruct (gm_places gmaps _ _ _) as [e|pr] eqn:Hpr; [discriminate|].
    destruct (enrich gmaps [] (capped pr) _) as [[e|entries] s1] eqn:Hen;
      [discriminate|].
    intros [= <- <-]. apply enrich_sound in Hen.
    destruct Hen as (entries' & -> & Henr & ->). simpl in *.
    exists prediction, pr, entries'. rewrite logged_logged.
    repeat split; assumption.
  - rewrite predict_body_incomplete by assumption. discriminate.
Qed.

End WebFacts.

(** ** The Streamlit front-end *)

Module AppFacts.
Import App.

(** *** What a computation adds to the page *)

Section Emits.
Variable P : ui -> Prop.

Lemma emits_ret {A} (a : A) : emits P (ret a).
Proof.
  intros s r s' [= <- <-]. exists []. now rewrite app_nil_r.
Qed.

Lemma emits_of_outcome {A} (o : outcome A) : emits P (of_outcome o).
Proof.
  intros s r s' [= <- <-]. exists []. now rewrite app_nil_r.
Qed.

Lemma emits_get : emits P (@get astate).
Proof.
  intros s r s' [= <- <-]. exists []. now rewrite app_nil_r.
Qed.

Lemma emits_bind {A B} (m : M astate A) (k : A -> M astate B) :
  emits P m -> (forall a, emits P (k a)) -> emits P (bind m k).
Proof.
  intros Hm Hk s r s'. unfold bind.
  destruct (m s) as [[e|a] s1] eqn:E.
  - intros [= <- <-]. exact (Hm _ _ _ E).
  - intros H. destruct (Hm _ _ _ E) as (new1 & Hp1 & Hf1).
    destruct (Hk a _ _ _ H) as (new2 & Hp2 & Hf2).
    exists (new1 ++ new2). rewrite Hp2, Hp1, app_assoc. split; [reflexivity|].
    apply Forall_app. now split.
Qed.

Lemma emits_try {A} (m : M astate A) (h : pyexn -> M astate A) :
  emits P m -> (forall e, emits P (h e)) -> emits P (try_except m h).
Proof.
  intros Hm Hh s r s'. unfold try_except.
  destruct (m s) as [[e|a] s1] eqn:E.
  - intros H. destruct (Hm _ _ _ E) as (new1 & Hp1 & Hf1).
    destruct (Hh e _ _ _ H) as (new2 & Hp2 & Hf2).
    exists (new1 ++ new2). rewrite Hp2, Hp1, app_assoc. split; [reflexivity|].
    apply Forall_app. now split.
  - intros [= <- <-]. exact (Hm _ _ _ E).
Qed.

Lemma emits_show (u : ui) : P u -> emits P (show u).
Proof.
  intros Hu s r s' [= <- <-]. exists [u]. split; [reflexivity|].
  now constructor.
Qed.

Lemma emits_draw (widgets : streamlit) (u : ui) :
  P u -> emits P (draw widgets u).
Proof.
  intros Hu s r s'. unfold draw, bind, get, raise, show, modify.
  destruct (widgets (page s) u); intros [= <- <-].
  - exists []. now rewrite app_nil_r.
  - exists [u]. split; [reflexivity|]. now constructor.
Qed.

Lemma emits_silent (f : astate -> astate) :
  (forall s, page (f s) = page s) -> emits P (modify f).
Proof.
  intros Hf s r s' [= <- <-]. exists []. now rewrite app_nil_r, Hf.
Qed.

Lemma emits_places gmaps query type : emits P (places gmaps query type).
Proof.
  intros s r s' [= <- <-]. exists []. now rewrite app_nil_r.
Qed.

Lemma emits_place gmaps id fs : emits P (place gmaps id fs).
Proof.
  intros s r s' [= <- <-]. exists []. now rewrite app_nil_r.
Qed.

Lemma emits_for_each {A} (xs : list A) (body : A -> M astate unit) :
  (forall x, emits P (body x)) -> emits P (for_each xs body).
Proof.
  intros Hb. induction xs as [|x xs IH]; simpl.
  - apply emits_ret.
  - apply emits_bind; [apply Hb|]. intros _. exact IH.
Qed.

End Emits.

Create HintDb emits.
#[local] Hint Resolve emits_ret emits_of_outcome emits_get emits_places
  emits_place : emits.

(** One step of a proof that a computation emits [P]: split the sequence,
    discharge the silent steps, leave [P u] for each [show u]. *)
Ltac emits_step :=
  match goal with
  | |- emits _ (bind _ _) => apply emits_bind; [|intros]
  | |- emits _ (try_except _ _) => apply emits_try; [|intros]
  | |- emits _ (for_each _ _) => apply emits_for_each; intros
  | |- emits _ (show _) => apply emits_show
  | |- emits _ (draw _ _) => apply emits_draw
  | |- emits _ (set_prediction _) => apply emits_silent; reflexivity
  | |- emits _ (set_specialist _) => apply emits_silent; reflexivity
  | |- emits _ (set_doctors_list _) => apply emits_silent; reflexivity
  | |- emits _ (set_map_data_list _) => apply emits_silent; reflexivity
  | |- emits _ (if ?b then _ else _) => destruct b
  | |- emits _ (match ?o with Some _ => _ | None => _ end) => destruct o
  | |- emits _ (let '(_, _) := ?x in _) => destruct x
  | |- emits _ _ => solve [auto with emits]
  end.

Lemma enrich_one_emits P gmaps i doctor : emits P (enrich_one gmaps i doctor).
Proof. unfold enrich_one. repeat emits_step. Qed.

Lemma process_emits (P : ui -> Prop) model gmaps symptoms user_symptoms user_location :
  (forall body, P (st_write body)) ->
  (forall label state, P (status_update label state)) ->
  emits P (process model gmaps symptoms user_symptoms user_location).
Proof.
  intros Hw Hs. unfold process.
  repeat (emits_step; try apply enrich_one_emits); auto.
Qed.

Lemma card_emits (P : ui -> Prop) widgets doctor :
  (forall body, P (st_write body)) ->
  (forall body, P (st_markdown body)) ->
  (forall label url, P (st_link_button label url)) ->
  (forall label key, P (st_button label key)) ->
  emits P (card widgets doctor).
Proof.
  intros Hw Hm Hl Hb. unfold card. repeat emits_step; auto.
Qed.

(** With a symptom selected, a run never shows the symptom warning. *)
Lemma results_no_symptom_warning widgets model gmaps symptoms user_symptoms
    user_location find_doctor_button :
  list_truthy user_symptoms = true ->
  emits (fun u => u <> symptom_warning)
    (results widgets model gmaps symptoms user_symptoms user_location find_doctor_button).
Proof.
  intros HS. unfold results. rewrite HS. cbn [negb].
  destruct find_doctor_button; [|emits_step; discriminate].
  destruct (negb (str_truthy user_location)); [emits_step; discriminate|].
  repeat emits_step; try discriminate.
  - apply process_emits; discriminate.
  - unfold on_error. repeat emits_step; discriminate.
  - unfold display. repeat emits_step; try discriminate.
    apply card_emits; discriminate.
Qed.

(** *** The checks of lines 106 to 109 *)

Lemma results_no_symptoms widgets model gmaps symptoms user_location s :
  results widgets model gmaps symptoms [] user_location true s =
    (inr tt, with_page (page s ++ [symptom_warning]) s).
Proof. reflexivity. Qed.

Lemma results_no_location widgets model gmaps symptoms user_symptoms s :
  list_truthy user_symptoms = true ->
  results widgets model gmaps symptoms user_symptoms "" true s =
    (inr tt, with_page (page s ++ [location_warning]) s).
Proof. unfold results. now intros ->. Qed.

(** Past the checks, a run is the [try] block from the cleared state, its
    handler, and the display step. *)
Lemma results_run widgets model gmaps symptoms user_symptoms user_location s :
  list_truthy user_symptoms = true ->
  str_truthy user_location = true ->
  results widgets model gmaps symptoms user_symptoms user_location true s =
    (try_except (process model gmaps symptoms user_symptoms user_location)
       on_error ;;; display widgets) (cleared s).
Proof.
  unfold results. intros -> ->. reflexivity.
Qed.

(** *** The enrichment loop *)

Lemma list_store_middle {A} (done rest : list A) (old new : A) :
  list_store (done ++ old :: rest) (length done) new = done ++ new :: rest.
Proof. induction done as [|y done IH]; simpl; [reflexivity|now rewrite IH]. Qed.

(** A turn of the loop that ends well. *)
Lemma enrich_one_ok gmaps i doctor s s' :
  enrich_one gmaps i doctor s = (inr tt, s') ->
  exists id pd,
    place_id doctor = Some id
    /\ gm_place gmaps (calls s) id fields = inr pd
    /\ doctors_list s' =
         list_store (doctors_list s) i
           {| place_id := Some id; details := Some (details_of pd) |}
    /\ calls s' = calls s ++ [CallPlace id fields]
    /\ page s' = page s
    /\ prediction s' = prediction s
    /\ specialist s' = specialist s.
Proof.
  unfold enrich_one, candidate_place_id, bind, of_outcome, place, get,
    set_doctors_list, set_map_data_list, modify, ret.
  cbn [calls_of log_call astate_log].
  destruct (place_id doctor) as [id|]; [|discriminate].
  destruct (gm_place gmaps (calls s) id fields) as [e|pd] eqn:Hpd;
    [discriminate|].
  fold (details_of pd).
  destruct (dict_get (details_of pd) "geometry") as [geometry|].
  - destruct (py_getitem geometry "location") as [e|location]; [discriminate|].
    destruct (py_getitem location "lat") as [e|lat]; [discriminate|].
    destruct (py_getitem location "lng") as [e|lng]; [discriminate|].
    intros [= <-]. exists id, pd. cbn. auto 10.
  - intros [= <-]. exists id, pd. cbn. auto 10.
Qed.

(** The loop, from a list whose first candidates are done. *)
Lemma enrich_loop gmaps (rest : list candidate) :
  forall done s s',
    doctors_list s = done ++ rest ->
    for_each (enumerate_from (length done) rest)
      (fun '(i, doctor) => enrich_one gmaps i doctor) s = (inr tt, s') ->
    exists stored,
      doctors_list s' = done ++ stored
      /\ fetched gmaps (calls s) rest stored
      /\ calls s' = calls s ++ fetch_calls (candidate_ids rest)
      /\ page s' = page s
      /\ prediction s' = prediction s
      /\ specialist s' = specialist s.
Proof.
  induction rest as [|doctor rest IH]; intros done s s' Hl; simpl.
  - intros [= <-]. exists []. simpl.
    repeat split; try assumption; [constructor|now rewrite app_nil_r].
  - unfold bind at 1.
    destruct (enrich_one gmaps (length done) doctor s) as [[e|[]] s1] eqn:E;
      [discriminate|].
    apply enrich_one_ok in E.
    destruct E as (id & pd & Hid & Hpd & Hdl & Hc & Hp & Hpr & Hsp).
    rewrite Hl, list_store_middle in Hdl.
    intros H.
    specialize (IH (done ++ [{| place_id := Some id; details := Some (details_of pd) |}]) s1 s').
    rewrite length_app, Nat.add_1_r, <- app_assoc in IH.
    destruct (IH Hdl H) as (stored & H1 & H2 & H3 & H4 & H5 & H6).
    exists ({| place_id := Some id; details := Some (details_of pd) |} :: stored).
    rewrite H1, <- app_assoc, H3, H4, H5, H6, Hc, Hp, Hpr, Hsp, Hid.
    simpl. rewrite <- app_assoc. repeat split; try reflexivity.
    econstructor; try eassumption. now rewrite <- Hc.
Qed.

Lemma fetched_length gmaps log doctors_list stored :
  fetched gmaps log doctors_list stored -> length stored = length doctors_list.
Proof. induction 1; simpl; congruence. Qed.

Lemma fetched_ids gmaps log doctors_list stored :
  fetched gmaps log doctors_list stored ->
  map place_id stored = map place_id doctors_list.
Proof. induction 1; simpl; congruence. Qed.

Lemma capped_length pr : (length (capped pr) <= 5)%nat.
Proof. unfold capped. apply firstn_le_length. Qed.

(** A [try] block that ends well has run the three stages and stored the
    details of every kept candidate, in the order of the search. *)
Lemma process_ok model gmaps symptoms user_symptoms user_location s s' :
  process model gmaps symptoms user_symptoms user_location s = (inr tt, s') ->
  exists prediction_ pr,
    model (model_input symptoms user_symptoms) = inr prediction_
    /\ gm_places gmaps (calls s) (query_of (resolve prediction_) user_location)
         "doctor" = inr pr
    /\ prediction s' = Some prediction_
    /\ specialist s' = Some (resolve prediction_)
    /\ fetched gmaps
         (calls s ++ [CallPlaces (query_of (resolve prediction_) user_location) "doctor"])
         (capped pr) (doctors_list s')
    /\ calls s' =
         calls s ++ CallPlaces (query_of (resolve prediction_) user_location) "doctor"
                    :: fetch_calls (candidate_ids (capped pr)).
Proof.
  unfold process.
  unfold bind at 1. unfold show at 1, modify at 1.
  unfold bind at 1. unfold of_outcome at 1.
  destruct (model (model_input symptoms user_symptoms)) as [e|p] eqn:Hm;
    [discriminate|].
  unfold bind at 1, set_prediction at 1, modify at 1.
  unfold bind at 1, show at 1, modify at 1.
  unfold bind at 1, set_specialist at 1, modify at 1.
  unfold bind at 1, show at 1, modify at 1.
  unfold bind at 1, places at 1.
  cbn [calls_of log_call astate_log calls with_page with_prediction
       with_specialist with_calls page prediction specialist].
  destruct (gm_places gmaps (calls s) _ "doctor") as [e|pr] eqn:Hpr;
    [discriminate|].
  fold (capped pr).
  unfold bind at 1, set_doctors_list at 1, modify at 1.
  unfold bind at 1.
  match goal with
  | |- context [for_each _ _ ?st] => destruct (for_each (enumerate_from 0 (capped pr))
      (fun '(i, doctor) => enrich_one gmaps i doctor) st) as [[e|[]] s1] eqn:E
  end; [discriminate|].
  apply (enrich_loop gmaps (capped pr) []) in E; [|reflexivity].
  destruct E as (stored & H1 & H2 & H3 & H4 & H5 & H6).
  unfold show, modify. intros [= <-].
  exists p, pr. cbn in *. rewrite H1, H3, H5, H6.
  rewrite <- app_assoc. auto 10.
Qed.

(** *** Two runs in full *)

(** The search answers with no candidate. *)
Lemma results_none_found widgets model gmaps symptoms user_symptoms user_location s
    prediction_ pr :
  list_truthy user_symptoms = true ->
  str_truthy user_location = true ->
  model (model_input symptoms user_symptoms) = inr prediction_ ->
  str_truthy prediction_ = true ->
  gm_places gmaps (calls s) (query_of (resolve prediction_) user_location)
    "doctor" = inr pr ->
  capped pr = [] ->
  results widgets model gmaps symptoms user_symptoms user_location true s =
    (inr tt,
     {| calls := calls s ++
                 [CallPlaces (query_of (resolve prediction_) user_location) "doctor"];
        page := page s ++ progress prediction_ user_location
                ++ [status_update "Analysis Complete!" "complete"]
                ++ headline prediction_ ++ [no_doctors_warning];
        prediction := Some prediction_;
        specialist := Some (resolve prediction_);
        doctors_list := [];
        map_data_list := [] |}).
Proof.
  intros HS HL Hm Hp Hpr Hcap. rewrite results_run by assumption.
  unfold process, try_except, bind, show, set_prediction, set_specialist,
    set_doctors_list, modify, of_outcome, places, cleared.
  cbn [calls_of log_call astate_log calls with_page with_prediction
       with_specialist with_calls with_doctors_list page prediction
       specialist doctors_list map_data_list].
  rewrite Hm.
  cbn [calls_of log_call astate_log calls with_page with_prediction
       with_specialist with_calls with_doctors_list page prediction
       specialist doctors_list map_data_list].
  rewrite Hpr. fold (capped pr). rewrite Hcap.
  cbn [for_each enumerate_from ret].
  unfold display, bind, get, show, modify.
  cbn [calls_of log_call astate_log calls with_page with_prediction
       with_specialist with_calls with_doctors_list page prediction
       specialist doctors_list map_data_list opt_truthy opt_text].
  rewrite Hp, Resolver.resolve_nonempty.
  cbn [andb list_truthy negb with_page calls page prediction specialist
       doctors_list map_data_list].
  unfold progress, headline, no_doctors_warning.
  repeat rewrite <- app_assoc. reflexivity.
Qed.

(** The search raises. *)
Lemma results_search_raises widgets model gmaps symptoms user_symptoms user_location s
    prediction_ e :
  list_truthy user_symptoms = true ->
  str_truthy user_location = true ->
  model (model_input symptoms user_symptoms) = inr prediction_ ->
  str_truthy prediction_ = true ->
  gm_places gmaps (calls s) (query_of (resolve prediction_) user_location)
    "doctor" = inl e ->
  results widgets model gmaps symptoms user_symptoms user_location true s =
    (inr tt,
     {| calls := calls s ++
                 [CallPlaces (query_of (resolve prediction_) user_location) "doctor"];
        page := page s ++ progress prediction_ user_location
                ++ [status_update "Error processing request" "error";
                    st_error ("An error occurred: " ++ str_exn e)]
                ++ headline prediction_ ++ [no_doctors_warning];
        prediction := Some prediction_;
        specialist := Some (resolve prediction_);
        doctors_list := [];
        map_data_list := [] |}).
Proof.
  intros HS HL Hm Hp Hpr. rewrite results_run by assumption.
  unfold process, try_except, bind, show, set_prediction, set_specialist,
    set_doctors_list, modify, of_outcome, places, cleared.
  cbn [calls_of log_call astate_log calls with_page with_prediction
       with_specialist with_calls with_doctors_list page prediction
       specialist doctors_list map_data_list].
  rewrite Hm.
  cbn [calls_of log_call astate_log calls with_page with_prediction
       with_specialist with_calls with_doctors_list page prediction
       specialist doctors_list map_data_list].
  rewrite Hpr.
  unfold on_error, display, bind, get, show, modify.
  cbn [calls_of log_call astate_log calls with_page with_prediction
       with_specialist with_calls with_doctors_list page prediction
       specialist doctors_list map_data_list opt_truthy opt_text].
  rewrite Hp, Resolver.resolve_nonempty.
  cbn [andb list_truthy negb with_page calls page prediction specialist
       doctors_list map_data_list].
  unfold progress, headline, no_doctors_warning.
  repeat rewrite <- app_assoc. reflexivity.
Qed.

(** The classifier raises: the display step shows nothing. *)
Lemma results_model_raises widgets model gmaps symptoms user_symptoms user_location s e :
  list_truthy user_symptoms = true ->
  str_truthy user_location = true ->
  model (model_input symptoms user_symptoms) = inl e ->
  results widgets model gmaps symptoms user_symptoms user_location true s =
    (inr tt,
     {| calls := calls s;
        page := page s ++
                [ st_status "Finding recommendations...";
                  st_write [Lit "Analyzing your symptoms..."];
                  status_update "Error processing request" "error";
                  st_error ("An error occurred: " ++ str_exn e) ];
        prediction := None;
        specialist := None;
        doctors_list := [];
        map_data_list := [] |}).
Proof.
  intros HS HL Hm. rewrite results_run by assumption.
  unfold process, try_except, bind, show, modify, of_outcome, cleared.
  cbn [calls page prediction specialist doctors_list map_data_list with_page].
  rewrite Hm.
  unfold on_error, display, bind, get, show, modify.
  cbn [calls page prediction specialist doctors_list map_data_list with_page
       opt_truthy andb ret].
  repeat rewrite <- app_assoc. reflexivity.
Qed.

End AppFacts.

(** ** The enrichment of the candidates *)

Module Enrichment.
Import Web WebFacts AppFacts.

Lemma placeholder_entry_bare (id : string) :
  doctor_entry id [] = inr (placeholder_entry id).
Proof. reflexivity. Qed.

(** C4. A successful request has one entry per kept candidate, in the order
    of the search.  For the Flask endpoint: the list under "doctors" is as
    long as the capped list of candidates, so at most five long; the entry
    at each position is built from the fetch of the candidate at that
    position and carries its place id; and the fetches were issued one
    after the other in the order of the candidates, so no fetch completes
    out of turn.  For the Streamlit front-end: after a [try] block that ends
    well, [doctors_list], which the display step walks in order, holds the
    kept candidates in the order of the search, each with its own place id
    and the details of its own fetch. *)
Theorem enrichment_keeps_order (model : classifier) (gmaps : gmaps_client)
    (symptoms : list string) :
  (forall data s body s',
     predict (Some model) (Some gmaps) symptoms data s = (inr (body, 200%Z), s') ->
     exists prediction pr entries,
       let query := query_of (resolve prediction) (user_location_of data) in
       model (model_input symptoms (user_symptoms_of data)) = inr prediction
       /\ gm_places gmaps (calls s) query "doctor" = inr pr
       /\ dict_get body "doctors" = Some (PList entries)
       /\ length entries = length (capped pr)
       /\ (length entries <= 5)%nat
       /\ enriched gmaps (calls s ++ [CallPlaces query "doctor"]) (capped pr) entries
       /\ (forall i doctor, nth_error (capped pr) i = Some doctor ->
             exists id name entry,
               place_id doctor = Some id
               /\ nth_error entries i = Some (PDict entry)
               /\ dict_get entry "gmaps_url" = Some (PStr (gmaps_url name id)))
       /\ calls s' = calls s ++ CallPlaces query "doctor"
                               :: fetch_calls (candidate_ids (capped pr)))
  /\ (forall user_symptoms user_location s s',
        App.process model gmaps symptoms user_symptoms user_location s
          = (inr tt, s') ->
        exists prediction pr,
          let query := query_of (resolve prediction) user_location in
          model (model_input symptoms user_symptoms) = inr prediction
          /\ gm_places gmaps (App.calls s) query "doctor" = inr pr
          /\ length (App.doctors_list s') = length (capped pr)
          /\ (length (App.doctors_list s') <= 5)%nat
          /\ map place_id (App.doctors_list s') = map place_id (capped pr)
          /\ fetched gmaps (App.calls s ++ [CallPlaces query "doctor"])
               (capped pr) (App.doctors_list s')
          /\ App.calls s' = App.calls s ++ CallPlaces query "doctor"
                                          :: fetch_calls (candidate_ids (capped pr))).
Proof.
  split.
  - intros data s body s' H. apply predict_success in H.
    destruct H as (prediction & pr & entries & Hc & Hm & Hpr & Henr & -> & ->).
    exists prediction, pr, entries. cbv zeta.
    pose proof (enriched_length _ _ _ _ Henr) as Hlen.
    split; [assumption|].
    split; [assumption|]. split; [reflexivity|]. split; [assumption|].
    split; [rewrite Hlen; apply capped_length|]. split; [assumption|].
    split; [|reflexivity].
    intros i doctor Hnth.
    destruct (enriched_nth _ _ _ _ Henr _ _ Hnth)
      as (id & pd & entry & Hid & _ & Hentry & Hnth').
    apply OpenNow.doctor_entry_inv in Hentry.
    destruct Hentry as (st & name & location & _ & _ & _ & ->).
    exists id, name. eexists. split; [assumption|]. split; [eassumption|].
    reflexivity.
  - intros user_symptoms user_location s s' H. apply process_ok in H.
    destruct H as (prediction & pr & Hm & Hpr & _ & _ & Hf & Hcalls).
    exists prediction, pr. cbv zeta.
    pose proof (fetched_length _ _ _ _ Hf) as Hlen.
    split; [assumption|].
    split; [assumption|]. split; [assumption|].
    split; [rewrite Hlen; apply capped_length|].
    split; [now apply fetched_ids in Hf|]. split; assumption.
Qed.

(** Only a string has [replace]. *)
Lemma py_replace_space_str (v : pyval) (name_plus : string) :
  py_replace_space v = inr name_plus -> exists name, v = PStr name.
Proof. destruct v; try discriminate. eauto. Qed.

(** C10, as the code has it.  In a successful response of the Flask
    endpoint the list under "doctors" has one entry per kept candidate, and
    the entry at each position is a dict with the eight keys of lines 107 to
    114, built from the details of the fetch of the candidate at that
    position.  "name" is a string, the name of the details or "N/A", and
    "open_now_status" is the status string of the details: these two are
    never [None].  "address", "phone" and "rating" hold what the details
    hold under "formatted_address", "international_phone_number" and
    "rating", whatever it is, and the placeholder ("Address not available",
    "Phone not available", "N/A") when the details have no such key: such
    a field is [None] exactly when the provider sent [null] for it.
    "website" is the website of the details or [None]; "location" is the
    location of the geometry, the empty dict when there is none. *)
Theorem doctor_fields_present (model : classifier) (gmaps : gmaps_client)
    (symptoms : list string) (data : request) (s s' : wstate) (body : pydict) :
  predict (Some model) (Some gmaps) symptoms data s = (inr (body, 200%Z), s') ->
  exists prediction pr entries,
    let query := query_of (resolve prediction) (user_location_of data) in
    let log := calls s ++ [CallPlaces query "doctor"] in
    model (model_input symptoms (user_symptoms_of data)) = inr prediction
    /\ gm_places gmaps (calls s) query "doctor" = inr pr
    /\ dict_get body "doctors" = Some (PList entries)
    /\ length entries = length (capped pr)
    /\ forall i doctor,
         nth_error (capped pr) i = Some doctor ->
         exists id pd entry name status location,
           place_id doctor = Some id
           /\ gm_place gmaps
                (log ++ fetch_calls (candidate_ids (firstn i (capped pr))))
                id fields = inr pd
           /\ nth_error entries i = Some (PDict entry)
           /\ dict_keys entry = entry_keys
           /\ dict_get entry "name" = Some (PStr name)
           /\ dict_get_default (details_of pd) "name" (PStr "N/A") = PStr name
           /\ dict_get entry "open_now_status" = Some (PStr status)
           /\ open_now_status (details_of pd) = inr status
           /\ dict_get entry "address"
              = Some (dict_get_default (details_of pd) "formatted_address"
                        (PStr "Address not available"))
           /\ dict_get entry "phone"
              = Some (dict_get_default (details_of pd) "international_phone_number"
                        (PStr "Phone not available"))
           /\ dict_get entry "rating"
              = Some (dict_get_default (details_of pd) "rating" (PStr "N/A"))
           /\ (forall source placeholder,
                 dict_get_default (details_of pd) source (PStr placeholder) = PNone
                 <-> dict_get (details_of pd) source = Some PNone)
           /\ dict_get entry "website"
              = Some (dict_get_default (details_of pd) "website" PNone)
           /\ dict_get entry "location" = Some location
           /\ py_get (dict_get_default (details_of pd) "geometry" (PDict []))
                "location" (PDict []) = inr location.
Proof.
  intros H. apply predict_success in H.
  destruct H as (prediction & pr & entries & Hc & Hm & Hpr & Henr & -> & ->).
  exists prediction, pr, entries. cbv zeta.
  split; [assumption|]. split; [assumption|]. split; [reflexivity|].
  split; [now apply enriched_length in Henr|].
  intros i doctor Hnth.
  destruct (enriched_nth _ _ _ _ Henr _ _ Hnth)
    as (id & pd & entry & Hid & Hpd & Hentry & Hnth').
  apply OpenNow.doctor_entry_inv in Hentry.
  destruct Hentry as (st & name_plus & location & Hst & Hname & Hloc & ->).
  assert (Hstr : exists name,
            dict_get_default (details_of pd) "name" (PStr "N/A") = PStr name).
  { unfold dict_get_default in *.
    destruct (dict_get (details_of pd) "name") as [v|].
    - exact (py_replace_space_str _ _ Hname).
    - eauto. }
  destruct Hstr as [name Hstr].
  exists id, pd. eexists. exists name, st, location.
  split; [assumption|]. split; [assumption|]. split; [eassumption|].
  split; [reflexivity|]. split; [cbn; now rewrite Hstr|].
  split; [assumption|]. split; [reflexivity|]. split; [assumption|].
  split; [reflexivity|]. split; [reflexivity|]. split; [reflexivity|].
  split; [|split; [reflexivity|split; [reflexivity|assumption]]].
  intros source placeholder. unfold dict_get_default.
  destruct (dict_get (details_of pd) source) as [v|].
  - split; congruence.
  - split; discriminate.
Qed.

(** C2, as the code has it.  On a request that passed the input check, was
    classified and whose search answered: (a) a detail fetch that raises,
    after any number of fetches that went well, fails the whole request:
    the answer is status 500 with the text of the exception under "error"
    and nothing else; (b) when every fetch answers, the request succeeds
    with one entry per candidate, and a candidate whose fetch answered
    without a "result" has, at its position, the entry made of placeholders
    only, while every other entry is built from the details of its own
    fetch. *)
Theorem fetch_failure_policy (model : classifier) (gmaps : gmaps_client)
    (symptoms : list string) (data : request) (s : wstate)
    (prediction : string) (pr : places_result) :
  let query := query_of (resolve prediction) (user_location_of data) in
  let log := calls s ++ [CallPlaces query "doctor"] in
  complete data = true ->
  model (model_input symptoms (user_symptoms_of data)) = inr prediction ->
  gm_places gmaps (calls s) query "doctor" = inr pr ->
  (forall before doctor after entries id e,
     capped pr = before ++ doctor :: after ->
     enriched gmaps log before entries ->
     place_id doctor = Some id ->
     gm_place gmaps (log ++ fetch_calls (candidate_ids before)) id fields = inl e ->
     fst (predict (Some model) (Some gmaps) symptoms data s)
       = inr ([("error", PStr (str_exn e))], 500%Z))
  /\ (forall entries,
        enriched gmaps log (capped pr) entries ->
        fst (predict (Some model) (Some gmaps) symptoms data s)
          = inr (success_body prediction entries, 200%Z)
        /\ length entries = length (capped pr)
        /\ forall i doctor id,
             nth_error (capped pr) i = Some doctor ->
             place_id doctor = Some id ->
             gm_place gmaps
               (log ++ fetch_calls (candidate_ids (firstn i (capped pr)))) id fields
               = inr {| result := None |} ->
             nth_error entries i = Some (placeholder_entry id)).
Proof.
  intros query log Hc Hm Hpr. split.
  - intros before doctor after entries id e Hcap Henr Hid He.
    apply predict_raise with
      (s' := logged (logged s [CallPlaces query "doctor"])
               (fetch_calls (candidate_ids before ++ [id]))).
    rewrite predict_body_complete by assumption.
    rewrite Hm. cbv zeta. fold query. rewrite Hpr, Hcap.
    now rewrite (enrich_raise gmaps before [] _ entries doctor after id e).
  - intros entries Henr. split; [|split].
    + rewrite predict_loaded, predict_body_complete by assumption.
      rewrite Hm. cbv zeta. fold query. rewrite Hpr.
      now rewrite (enrich_complete gmaps (capped pr) [] _ entries).
    + now apply enriched_length in Henr.
    + intros i doctor id Hnth Hid Hbare.
      destruct (enriched_nth _ _ _ _ Henr _ _ Hnth)
        as (id' & pd & entry & Hid' & Hpd & Hentry & Hnth').
      rewrite Hid in Hid'. injection Hid' as <-.
      fold log in Hpd. rewrite Hbare in Hpd. injection Hpd as <-.
      rewrite Hnth'. f_equal.
      unfold details_of in Hentry. simpl in Hentry.
      rewrite placeholder_entry_bare in Hentry. now injection Hentry.
Qed.

End Enrichment.

(** ** Rejected requests, failed stages, empty searches *)

Module Failures.
Import WebFacts AppFacts Samples.

(** A request without symptoms, or without a location, gets the one answer
    of line 73, and the state stays as it was. *)
Lemma predict_rejects model gmaps symptoms data s :
  complete data = false ->
  Web.predict (Some model) (Some gmaps) symptoms data s = (inr missing_input, s).
Proof.
  intros H. now rewrite predict_loaded, predict_body_incomplete.
Qed.

(** A request with both is answered with status 200 or 500. *)
Lemma predict_not_rejected model gmaps symptoms data s r s' :
  complete data = true ->
  Web.predict (Some model) (Some gmaps) symptoms data s = (inr r, s') ->
  snd r = 200%Z \/ snd r = 500%Z.
Proof.
  intros Hc. rewrite predict_loaded, predict_body_complete by assumption.
  destruct (model _) as [e|prediction]; [intros [= <- <-]; now right|].
  cbv zeta. destruct (gm_places gmaps _ _ _) as [e|pr];
    [intros [= <- <-]; now right|].
  destruct (Web.enrich gmaps [] (capped pr) _) as [[e|entries] s1];
    intros [= <- <-]; auto.
Qed.

(** C3, at a failing input of the Streamlit front-end.  The classifier
    answers "Fungal infection" and the search times out: the page shows the
    error and, after it, the predicted condition, the specialist and the
    warning that no doctor was found, whatever Streamlit does with widgets.
    When instead the third detail fetch times out, the page shows the error
    and, Streamlit taking their buttons, the cards of the candidates, the
    unfetched ones with placeholders. *)
Theorem streamlit_shows_results_after_error (widgets : App.streamlit) :
  App.page (snd (App.results widgets sample_model
                   (provider (inl timeout) all_clinics)
                   vocabulary ["itching"] "New Delhi" true App.start))
  = [ App.st_status "Finding recommendations...";
      App.st_write [App.Lit "Analyzing your symptoms..."];
      App.st_write [App.Lit "Identifying the right specialist..."];
      App.st_write [App.Lit "Searching for Dermatologists near New Delhi..."];
      App.status_update "Error processing request" "error";
      App.st_error "An error occurred: The request timed out.";
      App.st_success "**Predicted Condition:** Fungal infection";
      App.st_balloons;
      App.st_markdown [App.Lit "### Recommended Specialist: **Dermatologist**"];
      App.st_divider;
      App.st_subheader "Top 5 Dermatologists near you:";
      no_doctors_warning ]
  /\ (let page :=
        App.page (snd (App.results lenient sample_model
                         (provider (inr six_found) third_times_out)
                         vocabulary ["itching"] "New Delhi" true App.start)) in
      In (App.st_error "An error occurred: The request timed out.") page
      /\ In (App.st_success "**Predicted Condition:** Fungal infection") page
      /\ In (App.st_markdown [App.Lit "#### "; App.Val (PStr "Skin Care p1")]) page
      /\ In (App.st_markdown [App.Lit "#### "; App.Val (PStr "N/A")]) page
      /\ In (App.st_button "Website N/A" "web_na_p5") page).
Proof.
  split; [vm_compute; reflexivity|].
  cbv zeta. vm_compute. intuition.
Qed.

(** The Flask endpoint, for its part, answers a raising stage with the error
    alone: the classifier, the search or a fetch. *)
Lemma flask_error_alone model gmaps symptoms data s e s' :
  Web.predict_body model gmaps symptoms data s = (inl e, s') ->
  exists body s'',
    Web.predict (Some model) (Some gmaps) symptoms data s = (inr (body, 500%Z), s'')
    /\ error_only body
    /\ dict_get body "predicted_disease" = None
    /\ dict_get body "specialist" = None
    /\ dict_get body "doctors" = None.
Proof.
  intros H. rewrite predict_loaded, H. do 2 eexists. split; [reflexivity|].
  split; [now eexists|]. repeat split.
Qed.

(** C6, as the code has it.  A request whose location is empty ends at the
    input check and issues no call to the provider.  The Streamlit
    front-end shows one warning and nothing else: "Please enter your
    location." when a symptom is selected, and the symptom warning when none
    is, the symptom check coming first.  The Flask endpoint has no error of
    its own for the location: it answers with status 400 and "Missing
    symptoms or location.", leaving its state as it was, which is also its
    answer to a request without symptoms. *)
Theorem empty_location_stops_early (widgets : App.streamlit)
    (model : classifier) (gmaps : gmaps_client) (symptoms : list string) :
  (forall data s,
     user_location_of data = "" ->
     Web.predict (Some model) (Some gmaps) symptoms data s = (inr missing_input, s))
  /\ (forall data s,
        user_symptoms_of data = [] ->
        Web.predict (Some model) (Some gmaps) symptoms data s
          = (inr missing_input, s))
  /\ (forall user_symptoms s,
        list_truthy user_symptoms = true ->
        App.results widgets model gmaps symptoms user_symptoms "" true s =
          (inr tt, App.with_page (App.page s ++ [location_warning]) s))
  /\ (forall user_symptoms s,
        App.results widgets model gmaps symptoms user_symptoms "" true s =
          (inr tt,
           App.with_page
             (App.page s ++
                [if list_truthy user_symptoms then location_warning
                 else symptom_warning]) s))
  /\ (forall user_symptoms s,
        App.calls (snd (App.results widgets model gmaps symptoms user_symptoms
                          "" true s))
          = App.calls s).
Proof.
  assert (Happ : forall user_symptoms s,
    App.results widgets model gmaps symptoms user_symptoms "" true s =
      (inr tt,
       App.with_page
         (App.page s ++
            [if list_truthy user_symptoms then location_warning
             else symptom_warning]) s)).
  { intros user_symptoms s. destruct (list_truthy user_symptoms) eqn:E.
    - now apply results_no_location.
    - destruct user_symptoms; [apply results_no_symptoms|discriminate]. }
  split; [|split; [|split; [|split]]].
  - intros data s Hloc. apply predict_rejects. unfold complete.
    rewrite Hloc. apply andb_false_r.
  - intros data s Hsym. apply predict_rejects. unfold complete.
    now rewrite Hsym.
  - intros user_symptoms s HS. now apply results_no_location.
  - exact Happ.
  - intros user_symptoms s. now rewrite Happ.
Qed.

(** C7, as the code has it.  The Streamlit front-end shows "Please select at
    least one symptom.", and nothing else, when no symptom is selected, and
    never shows it when one is.  The Flask endpoint answers a request
    without symptoms with status 400 and "Missing symptoms or location.",
    which is also its answer to a request without a location; a request
    with symptoms and a location is never answered with status 400.  The
    encoding itself is a total function. *)
Theorem symptom_check (widgets : App.streamlit) (model : classifier)
    (gmaps : gmaps_client) (symptoms : list string) :
  (forall user_location s,
     App.results widgets model gmaps symptoms [] user_location true s =
       (inr tt, App.with_page (App.page s ++ [symptom_warning]) s))
  /\ (forall user_symptoms user_location find_doctor_button s r s',
        user_symptoms <> [] ->
        App.results widgets model gmaps symptoms user_symptoms user_location
          find_doctor_button s = (r, s') ->
        exists new, App.page s' = App.page s ++ new /\ ~ In symptom_warning new)
  /\ (forall data s,
        user_symptoms_of data = [] \/ user_location_of data = "" ->
        Web.predict (Some model) (Some gmaps) symptoms data s
          = (inr missing_input, s))
  /\ (forall data s r s',
        user_symptoms_of data <> [] ->
        user_location_of data <> "" ->
        Web.predict (Some model) (Some gmaps) symptoms data s = (inr r, s') ->
        snd r <> 400%Z).
Proof.
  split; [intros; apply results_no_symptoms|]. split; [|split].
  - intros user_symptoms user_location btn s r s' HS H.
    assert (HS' : list_truthy user_symptoms = true)
      by (destruct user_symptoms; [contradiction|reflexivity]).
    destruct (results_no_symptom_warning widgets model gmaps symptoms user_symptoms
                user_location btn HS' _ _ _ H) as (new & Hp & Hall).
    exists new. split; [assumption|]. rewrite Forall_forall in Hall.
    intros Hin. exact (Hall _ Hin eq_refl).
  - intros data s H. apply predict_rejects. unfold complete.
    destruct H as [-> | ->]; [reflexivity|apply andb_false_r].
  - intros data s r s' HS HL H.
    assert (Hc : complete data = true).
    { unfold complete, str_truthy.
      destruct (user_symptoms_of data); [contradiction|].
      destruct (String.eqb_spec (user_location_of data) ""); [contradiction|].
      reflexivity. }
    destruct (predict_not_rejected _ _ _ _ _ _ _ Hc H) as [-> | ->];
      discriminate.
Qed.

(** C8, as the code has it.  When the search answers with no candidate the
    request succeeds.  The Flask endpoint answers with status 200 and the
    three keys "predicted_disease", "specialist" and "doctors", the last one
    the empty list.  The Streamlit front-end, for a classifier label that is
    not empty, completes its status box, shows the prediction and the
    specialist and then the warning that no doctor was found; it shows no
    error, and the lists of doctors and of map points are empty. *)
Theorem empty_search_is_success (widgets : App.streamlit) (model : classifier)
    (gmaps : gmaps_client) (symptoms : list string) (prediction : string)
    (pr : places_result) :
  capped pr = [] ->
  (forall data s,
     complete data = true ->
     model (model_input symptoms (user_symptoms_of data)) = inr prediction ->
     gm_places gmaps (Web.calls s)
       (query_of (resolve prediction) (user_location_of data)) "doctor" = inr pr ->
     Web.predict (Some model) (Some gmaps) symptoms data s =
       (inr ([ ("predicted_disease", PStr prediction);
               ("specialist", PStr (resolve prediction));
               ("doctors", PList []) ], 200%Z),
        logged s [CallPlaces (query_of (resolve prediction) (user_location_of data))
                    "doctor"]))
  /\ (forall user_symptoms user_location s,
        list_truthy user_symptoms = true ->
        str_truthy user_location = true ->
        model (model_input symptoms user_symptoms) = inr prediction ->
        str_truthy prediction = true ->
        gm_places gmaps (App.calls s) (query_of (resolve prediction) user_location)
          "doctor" = inr pr ->
        exists s',
          App.results widgets model gmaps symptoms user_symptoms user_location
            true s = (inr tt, s')
          /\ App.page s' =
               App.page s ++ progress prediction user_location
               ++ [App.status_update "Analysis Complete!" "complete"]
               ++ headline prediction ++ [no_doctors_warning]
          /\ existsb is_error
               (progress prediction user_location
                ++ [App.status_update "Analysis Complete!" "complete"]
                ++ headline prediction ++ [no_doctors_warning]) = false
          /\ App.doctors_list s' = []
          /\ App.map_data_list s' = []).
Proof.
  intros Hcap. split.
  - intros data s Hc Hm Hpr.
    rewrite predict_loaded, predict_body_complete by assumption.
    rewrite Hm. cbv zeta. rewrite Hpr, Hcap. reflexivity.
  - intros user_symptoms user_location s HS HL Hm Hp Hpr.
    eexists. split; [now apply (results_none_found _ _ _ _ _ _ _ prediction pr)|].
    repeat split.
Qed.

End Failures.

(** ** The statements at sample runs *)

Module Runs.
Import Samples.

Ltac nodup_strings :=
  repeat (constructor; [simpl; intuition discriminate|]); constructor.

(** C1 at the sample vocabulary, for a request that names one symptom of
    the vocabulary and one outside it. *)
Lemma encode_vector_witness :
  NoDup vocabulary
  /\ dict_keys (model_input vocabulary ["headache"; "fever"]) = vocabulary
  /\ length (model_input vocabulary ["headache"; "fever"]) = 4%nat
  /\ dict_get (model_input vocabulary ["headache"; "fever"]) "headache" = Some 1%Z
  /\ dict_get (model_input vocabulary ["headache"; "fever"]) "itching" = Some 0%Z
  /\ dict_get (model_input vocabulary ["headache"; "fever"]) "fever" = None.
Proof.
  assert (Hnd : NoDup vocabulary) by (unfold vocabulary; nodup_strings).
  destruct (Encoding.encode_vector vocabulary ["headache"; "fever"] Hnd)
    as (Hkeys & Hlen & Hin & Hout & _).
  split; [exact Hnd|]. split; [exact Hkeys|]. split; [exact Hlen|].
  split; [|split].
  - rewrite (Hin "headache") by (simpl; tauto). reflexivity.
  - rewrite (Hin "itching") by (simpl; tauto). reflexivity.
  - apply Hout. simpl. intuition discriminate.
Defined.

(** C5 at a mapped and at an unmapped label. *)
Lemma resolve_lookup_witness :
  In "Migraine" (dict_keys specialty_map)
  /\ resolve "Migraine" = "Neurologist"
  /\ ~ In "Common Cold" (dict_keys specialty_map)
  /\ resolve "Common Cold" = "General Practitioner".
Proof.
  assert (Hin : In "Migraine" (dict_keys specialty_map)) by (simpl; tauto).
  assert (Hout : ~ In "Common Cold" (dict_keys specialty_map))
    by (simpl; intuition discriminate).
  destruct (Resolver.resolve_lookup "Migraine") as (Hmapped & _ & _ & _).
  destruct (Resolver.resolve_lookup "Common Cold") as (_ & Hunmapped & _ & _).
  split; [exact Hin|]. split.
  - apply (proj2 (Hmapped Hin)). simpl. tauto.
  - split; [exact Hout|exact (Hunmapped Hout)].
Defined.

(** C9 does not hold of the code.  The details carry opening hours that
    hold no "open_now": the provider gave no boolean, and the status is
    "closed", in the entry of the Flask endpoint too. *)
Lemma closed_without_a_flag :
  dict_get unflagged "opening_hours"
    = Some (PDict [("weekday_text", PList [PStr "Monday: 9:00 AM - 5:00 PM"])])
  /\ dict_get [("weekday_text", PList [PStr "Monday: 9:00 AM - 5:00 PM"])]
       "open_now" = None
  /\ open_now_status unflagged = inr status_closed
  /\ exists entry,
       Web.doctor_entry "p1" unflagged = inr (PDict entry)
       /\ dict_get entry "open_now_status" = Some (PStr "🔴 Closed").
Proof.
  split; [reflexivity|]. split; [reflexivity|]. split; [reflexivity|].
  eexists. split; reflexivity.
Qed.

(** The amended C9 at the details of an open clinic, at opening hours
    without "open_now" and at empty details. *)
Lemma open_now_tri_state_witness :
  dict_get open_clinic "opening_hours" = Some (PDict [("open_now", PBool true)])
  /\ open_now_status open_clinic = inr status_open
  /\ open_now_status unflagged = inr status_closed
  /\ dict_get ([] : pydict) "opening_hours" = None
  /\ open_now_status [] = inr status_unknown.
Proof.
  destruct (OpenNow.open_now_tri_state open_clinic) as (_ & Hflag & _).
  destruct (OpenNow.open_now_tri_state unflagged) as (_ & _ & Hdefault & _).
  destruct (OpenNow.open_now_tri_state []) as (_ & _ & _ & Habsent & _).
  split; [reflexivity|]. split.
  - exact (Hflag [("open_now", PBool true)] true eq_refl eq_refl).
  - split; [exact (Hdefault _ eq_refl eq_refl)|].
    split; [reflexivity|exact (Habsent eq_refl)].
Defined.

(** The sample request, answered. *)
Lemma good_run_eq :
  Web.predict (Some sample_model) (Some good_provider) vocabulary
    (ask ["itching"; "skin_rash"] "New Delhi") Web.start = good_run.
Proof. vm_compute. reflexivity. Qed.

(** C4 at the sample request: six places found, five kept, five entries in
    the order of the search, in both front-ends. *)
Lemma enrichment_keeps_order_witness :
  Web.predict (Some sample_model) (Some good_provider) vocabulary
    (ask ["itching"; "skin_rash"] "New Delhi") Web.start
    = (inr (good_body, 200%Z), good_state)
  /\ (exists entries,
        dict_get good_body "doctors" = Some (PList entries)
        /\ length entries = 5%nat
        /\ enriched good_provider
             [CallPlaces "Dermatologist in New Delhi" "doctor"]
             (map found five_ids) entries
        /\ Web.calls good_state =
             CallPlaces "Dermatologist in New Delhi" "doctor" :: fetch_calls five_ids)
  /\ (exists s',
        App.process sample_model good_provider vocabulary
          ["itching"; "skin_rash"] "New Delhi" App.start = (inr tt, s')
        /\ map place_id (App.doctors_list s') = map Some five_ids
        /\ length (App.doctors_list s') = 5%nat).
Proof.
  assert (Hrun : Web.predict (Some sample_model) (Some good_provider) vocabulary
            (ask ["itching"; "skin_rash"] "New Delhi") Web.start
            = (inr (good_body, 200%Z), good_state)) by (vm_compute; reflexivity).
  destruct (Enrichment.enrichment_keeps_order sample_model good_provider vocabulary)
    as [Hweb Happ].
  split; [exact Hrun|]. split.
  - destruct (Hweb _ _ _ _ Hrun)
      as (prediction & pr & entries & Hm & Hpr & Hd & Hlen & _ & Henr & _ & Hcalls).
    vm_compute in Hm. injection Hm as <-.
    simpl in Hpr. injection Hpr as <-.
    exists entries. split; [exact Hd|]. split; [exact Hlen|].
    split; [exact Henr|reflexivity].
  - destruct (App.process sample_model good_provider vocabulary
                ["itching"; "skin_rash"] "New Delhi" App.start) as [[e|[]] s']
      eqn:Hproc; [vm_compute in Hproc; discriminate|].
    exists s'. split; [reflexivity|].
    destruct (Happ _ _ _ _ Hproc)
      as (prediction & pr & _ & Hpr & Hlen & _ & Hids & _).
    simpl in Hpr. injection Hpr as <-. split; assumption.
Defined.

(** C10 does not hold of the code.  The provider sends the address of a
    place as [null]: the endpoint answers with status 200, and the entry of
    the place holds [None] under "address", not the placeholder. *)
Lemma null_address_is_passed_on :
  dict_get (details_of null_address) "formatted_address" = Some PNone
  /\ exists entry,
       fst (Web.predict (Some sample_model) (Some null_provider) vocabulary
              (ask ["itching"; "skin_rash"] "New Delhi") Web.start)
         = inr (success_body "Fungal infection" [PDict entry], 200%Z)
       /\ dict_get entry "address" = Some PNone.
Proof.
  split; [reflexivity|]. eexists. split; [vm_compute; reflexivity|reflexivity].
Qed.

(** The amended C10 at the sample request: the first entry is built from
    the fetch of the first place found. *)
Lemma doctor_fields_present_witness :
  Web.predict (Some sample_model) (Some good_provider) vocabulary
    (ask ["itching"; "skin_rash"] "New Delhi") Web.start
    = (inr (good_body, 200%Z), good_state)
  /\ exists entries entry,
       dict_get good_body "doctors" = Some (PList entries)
       /\ length entries = 5%nat
       /\ nth_error entries 0 = Some (PDict entry)
       /\ dict_keys entry = entry_keys
       /\ dict_get entry "name" = Some (PStr "Skin Care p1")
       /\ dict_get entry "address" = Some (PStr "12 Ring Road, New Delhi")
       /\ dict_get entry "open_now_status" = Some (PStr status_open).
Proof.
  assert (Hrun : Web.predict (Some sample_model) (Some good_provider) vocabulary
            (ask ["itching"; "skin_rash"] "New Delhi") Web.start
            = (inr (good_body, 200%Z), good_state)) by (vm_compute; reflexivity).
  split; [exact Hrun|].
  destruct (Enrichment.doctor_fields_present _ _ _ _ _ _ _ Hrun)
    as (prediction & pr & entries & Hm & Hpr & Hd & Hlen & Hall).
  vm_compute in Hm. injection Hm as <-.
  simpl in Hpr. injection Hpr as <-.
  destruct (Hall 0%nat (found "p1") eq_refl)
    as (id & pd & entry & name & status & location & Hid & Hpd & Hnth & Hkeys
        & Hname & Hstr & Hstatus & Hst & Haddr & _).
  injection Hid as <-. simpl in Hpd. injection Hpd as <-.
  vm_compute in Hstr. injection Hstr as <-.
  vm_compute in Hst. injection Hst as <-.
  exists entries, entry. split; [exact Hd|]. split; [exact Hlen|].
  split; [exact Hnth|]. split; [exact Hkeys|]. split; [exact Hname|].
  split; [exact Haddr|exact Hstatus].
Defined.

(** C2 does not hold of the code.  One of five detail fetches, the third,
    fails with a timeout, which is no authentication or quota error, and the
    other four answer: the endpoint answers with status 500 and the error
    alone; no candidate is in the output. *)
Lemma one_timeout_fails_the_request :
  map third_times_out five_ids
    = [all_clinics "p1"; all_clinics "p2"; inl timeout;
       all_clinics "p4"; all_clinics "p5"]
  /\ fst (Web.predict (Some sample_model) (Some flaky_provider) vocabulary
            (ask ["itching"; "skin_rash"] "New Delhi") Web.start)
     = inr ([("error", PStr "The request timed out.")], 500%Z).
Proof. split; vm_compute; reflexivity. Qed.

(** The amended C2 at the sample request: with a provider whose third fetch
    times out, and with one whose third fetch answers without a result. *)
Lemma fetch_failure_policy_witness :
  complete (ask ["itching"; "skin_rash"] "New Delhi") = true
  /\ sample_model (model_input vocabulary ["itching"; "skin_rash"])
     = inr "Fungal infection"
  /\ fst (Web.predict (Some sample_model) (Some flaky_provider) vocabulary
            (ask ["itching"; "skin_rash"] "New Delhi") Web.start)
     = inr ([("error", PStr (str_exn timeout))], 500%Z)
  /\ exists entries,
       fst (Web.predict (Some sample_model) (Some bare_provider) vocabulary
              (ask ["itching"; "skin_rash"] "New Delhi") Web.start)
         = inr (success_body "Fungal infection" entries, 200%Z)
       /\ length entries = 5%nat
       /\ nth_error entries 2 = Some (placeholder_entry "p3").
Proof.
  assert (Hc : complete (ask ["itching"; "skin_rash"] "New Delhi") = true)
    by reflexivity.
  assert (Hm : sample_model
                 (model_input vocabulary
                    (user_symptoms_of (ask ["itching"; "skin_rash"] "New Delhi")))
               = inr "Fungal infection") by reflexivity.
  split; [exact Hc|]. split; [exact Hm|]. split.
  - destruct (Enrichment.fetch_failure_policy sample_model flaky_provider
                vocabulary (ask ["itching"; "skin_rash"] "New Delhi") Web.start
                "Fungal infection" six_found Hc Hm eq_refl) as [Hraise _].
    eapply (Hraise [found "p1"; found "p2"] (found "p3")
              [found "p4"; found "p5"] _ "p3" timeout); try reflexivity.
    eapply enriched_cons; [reflexivity|reflexivity|reflexivity|].
    eapply enriched_cons; [reflexivity|reflexivity|reflexivity|].
    apply enriched_nil.
  - destruct (Enrichment.fetch_failure_policy sample_model bare_provider
                vocabulary (ask ["itching"; "skin_rash"] "New Delhi") Web.start
                "Fungal infection" six_found Hc Hm eq_refl) as [_ Hbare].
    assert (Henr : { entries | enriched bare_provider
                       (Web.calls Web.start ++ search_log)
                       (map found five_ids) entries }).
    { eexists.
      repeat (eapply enriched_cons; [reflexivity|reflexivity|reflexivity|]).
      apply enriched_nil. }
    destruct Henr as [entries Henr].
    destruct (Hbare entries Henr) as (Hok & Hlen & Hnth).
    exists entries. split; [exact Hok|]. split; [exact Hlen|].
    exact (Hnth 2%nat (found "p3") "p3" eq_refl eq_refl eq_refl).
Defined.

(** C6 does not hold of the code.  The Flask endpoint answers a request
    with symptoms and an empty location as it answers a request with a
    location and no symptoms: status 400 and one message for both, the key
    "error" alone.  No answer of the endpoint names the location as what
    is missing. *)
Lemma empty_location_answer_not_distinct :
  fst (Web.predict (Some sample_model) (Some good_provider) vocabulary
         (ask ["itching"; "skin_rash"] "") Web.start)
    = inr ([("error", PStr "Missing symptoms or location.")], 400%Z)
  /\ Web.predict (Some sample_model) (Some good_provider) vocabulary
       (ask ["itching"; "skin_rash"] "") Web.start
     = Web.predict (Some sample_model) (Some good_provider) vocabulary
         (ask [] "New Delhi") Web.start.
Proof. split; reflexivity. Qed.

(** The amended C6 at a request with a symptom and an empty location. *)
Lemma empty_location_stops_early_witness :
  user_location_of (ask ["itching"] "") = ""
  /\ Web.predict (Some sample_model) (Some good_provider) vocabulary
       (ask ["itching"] "") Web.start
     = (inr missing_input, Web.start)
  /\ App.results lenient sample_model good_provider vocabulary ["itching"] ""
       true App.start
     = (inr tt, App.with_page [location_warning] App.start)
  /\ App.results lenient sample_model good_provider vocabulary [] "" true
       App.start
     = (inr tt, App.with_page [symptom_warning] App.start).
Proof.
  destruct (Failures.empty_location_stops_early lenient sample_model
              good_provider vocabulary) as (Hweb & _ & Hloc & Happ & _).
  split; [reflexivity|]. split; [|split].
  - exact (Hweb (ask ["itching"] "") Web.start eq_refl).
  - exact (Hloc ["itching"] App.start eq_refl).
  - exact (Happ [] App.start).
Defined.

(** C7 does not hold of the code.  The Flask endpoint gives a request
    without symptoms and a request with a symptom but without a location the
    same answer: the error for missing symptoms is no kind of its own, and a
    request with a non-empty symptom set gets it too. *)
Lemma missing_symptoms_answer_not_distinct :
  fst (Web.predict (Some sample_model) (Some good_provider) vocabulary
         (ask [] "New Delhi") Web.start)
    = inr ([("error", PStr "Missing symptoms or location.")], 400%Z)
  /\ fst (Web.predict (Some sample_model) (Some good_provider) vocabulary
            (ask ["itching"] "") Web.start)
     = inr ([("error", PStr "Missing symptoms or location.")], 400%Z).
Proof. split; reflexivity. Qed.

(** The amended C7 at requests without and with a symptom. *)
Lemma symptom_check_witness :
  App.results lenient sample_model good_provider vocabulary [] "New Delhi" true App.start
    = (inr tt, App.with_page [symptom_warning] App.start)
  /\ (exists new,
        App.page (snd (App.results lenient sample_model good_provider vocabulary
                         ["itching"] "New Delhi" true App.start)) = new
        /\ ~ In symptom_warning new)
  /\ Web.predict (Some sample_model) (Some good_provider) vocabulary
       (ask [] "New Delhi") Web.start
     = (inr missing_input, Web.start)
  /\ Web.predict (Some sample_model) (Some good_provider) vocabulary
       (ask ["itching"; "skin_rash"] "New Delhi") Web.start
     = (inr (good_body, 200%Z), good_state)
  /\ snd (good_body, 200%Z) <> 400%Z.
Proof.
  assert (Hrun : Web.predict (Some sample_model) (Some good_provider) vocabulary
            (ask ["itching"; "skin_rash"] "New Delhi") Web.start
            = (inr (good_body, 200%Z), good_state)) by (vm_compute; reflexivity).
  destruct (Failures.symptom_check lenient sample_model good_provider vocabulary)
    as (Hnone & Hsome & Hweb & Hstatus).
  split; [exact (Hnone "New Delhi" App.start)|]. split; [|split].
  - destruct (App.results lenient sample_model good_provider vocabulary
                ["itching"] "New Delhi" true App.start) as [r s'] eqn:Happ.
    assert (Hne : ["itching"] <> []) by discriminate.
    destruct (Hsome _ _ _ _ _ _ Hne Happ) as (new & Hpage & Hnot).
    exists new. split; [exact Hpage|exact Hnot].
  - exact (Hweb (ask [] "New Delhi") Web.start (or_introl eq_refl)).
  - split; [exact Hrun|].
    assert (HS : user_symptoms_of (ask ["itching"; "skin_rash"] "New Delhi") <> [])
      by discriminate.
    assert (HL : user_location_of (ask ["itching"; "skin_rash"] "New Delhi") <> "")
      by discriminate.
    exact (Hstatus _ _ _ _ HS HL Hrun).
Defined.

(** C8 does not hold of the code.  When the search finds nothing, the body
    of the Flask answer holds the three keys of every successful answer and
    no other: no list of map points and no indicator of empty results. *)
Lemma flask_empty_search_body :
  fst (Web.predict (Some sample_model) (Some empty_provider) vocabulary
         (ask ["itching"; "skin_rash"] "New Delhi") Web.start)
    = inr (empty_body, 200%Z)
  /\ dict_keys empty_body = ["predicted_disease"; "specialist"; "doctors"]
  /\ dict_get empty_body "map_points" = None.
Proof. repeat split. Qed.

(** The amended C8 at the sample request, with a search that finds nothing. *)
Lemma empty_search_is_success_witness :
  capped none_found = []
  /\ Web.predict (Some sample_model) (Some empty_provider) vocabulary
       (ask ["itching"; "skin_rash"] "New Delhi") Web.start
     = (inr (empty_body, 200%Z), logged Web.start search_log)
  /\ exists s',
       App.results lenient sample_model empty_provider vocabulary
         ["itching"; "skin_rash"] "New Delhi" true App.start = (inr tt, s')
       /\ App.page s' =
            progress "Fungal infection" "New Delhi"
            ++ [App.status_update "Analysis Complete!" "complete"]
            ++ headline "Fungal infection" ++ [no_doctors_warning]
       /\ App.doctors_list s' = []
       /\ App.map_data_list s' = [].
Proof.
  assert (Hcap : capped none_found = []) by reflexivity.
  destruct (Failures.empty_search_is_success lenient sample_model empty_provider
              vocabulary "Fungal infection" none_found Hcap) as [Hweb Happ].
  split; [exact Hcap|]. split.
  - exact (Hweb (ask ["itching"; "skin_rash"] "New Delhi") Web.start
             eq_refl eq_refl eq_refl).
  - destruct (Happ ["itching"; "skin_rash"] "New Delhi" App.start
                eq_refl eq_refl eq_refl eq_refl eq_refl)
      as (s' & Hrun & Hpage & _ & Hdoctors & Hmap).
    exists s'. split; [exact Hrun|]. split; [exact Hpage|].
    split; [exact Hdoctors|exact Hmap].
Defined.

End Runs.

(** ** More on the Flask endpoint *)

Module WebMore.
Import Web WebFacts.

(** The loop in any outcome: it fetched the first candidates, one call each,
    and nothing else. *)
Lemma enrich_calls (gmaps : gmaps_client) (doctors_list : list candidate) :
  forall acc s r s',
    enrich gmaps acc doctors_list s = (r, s') ->
    exists ids,
      s' = logged s (fetch_calls ids)
      /\ (length ids <= length doctors_list)%nat
      /\ (forall out, r = inr out ->
            length out = (length acc + length doctors_list)%nat).
Proof.
  induction doctors_list as [|doctor rest IH]; intros acc s r s'; simpl.
  - intros [= <- <-]. exists []. rewrite logged_nil. repeat split; auto.
    intros out [= <-]. now rewrite Nat.add_0_r.
  - unfold bind at 1. rewrite enrich_one_eq.
    destruct (place_id doctor) as [id|].
    + destruct (gm_place gmaps (calls s) id fields) as [e|pd].
      * intros [= <- <-]. exists [id]. simpl. repeat split; [lia|discriminate].
      * destruct (doctor_entry id (details_of pd)) as [e|entry].
        -- intros [= <- <-]. exists [id]. simpl.
           repeat split; [lia|discriminate].
        -- intros H. apply IH in H. destruct H as (ids & -> & Hlen & Hout).
           exists (id :: ids). rewrite logged_logged. simpl.
           repeat split; [lia|]. intros out Hr. rewrite (Hout _ Hr).
           rewrite length_app. simpl. lia.
    + intros [= <- <-]. exists []. rewrite logged_nil.
      repeat split; [simpl; lia|discriminate].
Qed.

(** X1. The endpoint answers every request: no exception leaves [predict].
    The answer is one of four.  Status 200 with exactly the keys
    "predicted_disease", "specialist" and "doctors", at most five doctors,
    nothing printed.  Status 400 with the message of line 73 alone, the state
    untouched.  Status 500 with "Backend server is not configured correctly."
    alone, the state untouched, when the model or the client is not loaded.
    Status 500 with the text of a caught exception alone, and one printed
    line that carries the same text. *)
Theorem predict_answer_shapes (model : option classifier)
    (gmaps : option gmaps_client) (symptoms : list string) (data : request)
    (s : wstate) :
  exists body status s',
    predict model gmaps symptoms data s = (inr (body, status), s')
    /\ ((status = 200%Z
         /\ (exists prediction entries,
               body = success_body prediction entries
               /\ (length entries <= 5)%nat)
         /\ stdout s' = stdout s)
        \/ (status = 400%Z /\ body = fst missing_input /\ s' = s)
        \/ (status = 500%Z
            /\ (model = None \/ gmaps = None)
            /\ body = [("error", PStr "Backend server is not configured correctly.")]
            /\ s' = s)
        \/ (status = 500%Z
            /\ exists e,
                 body = [("error", PStr (str_exn e))]
                 /\ stdout s' = stdout s ++
                      [("An error occurred during prediction: " ++ str_exn e)%string])).
Proof.
  destruct model as [model|]; [destruct gmaps as [gmaps|]|].
  - rewrite predict_loaded. destruct (complete data) eqn:Hc.
    + rewrite predict_body_complete by assumption.
      destruct (model _) as [e|prediction].
      { do 3 eexists. split; [reflexivity|]. do 3 right.
        split; [reflexivity|]. now exists e. }
      cbv zeta. destruct (gm_places gmaps _ _ _) as [e|pr].
      { do 3 eexists. split; [reflexivity|]. do 3 right.
        split; [reflexivity|]. now exists e. }
      destruct (enrich gmaps [] (capped pr) _) as [[e|entries] s1] eqn:Hen.
      * apply enrich_calls in Hen. destruct Hen as (ids & -> & _ & _).
        do 3 eexists. split; [reflexivity|]. do 3 right.
        split; [reflexivity|]. now exists e.
      * apply enrich_calls in Hen. destruct Hen as (ids & -> & _ & Hout).
        do 3 eexists. split; [reflexivity|]. left.
        split; [reflexivity|]. split; [|reflexivity].
        exists prediction, entries. split; [reflexivity|].
        rewrite (Hout _ eq_refl). simpl. apply AppFacts.capped_length.
    + rewrite predict_body_incomplete by assumption.
      do 3 eexists. split; [reflexivity|]. right. left. auto.
  - do 3 eexists. split; [reflexivity|]. right. right. left. auto.
  - do 3 eexists. split; [reflexivity|]. right. right. left. auto.
Qed.


(** The loop stops at the first turn that raises. *)
Lemma enrich_stops (gmaps : gmaps_client) (before : list candidate) :
  forall acc s entries doctor after e s1,
    enriched gmaps (calls s) before entries ->
    enrich_one gmaps (acc ++ entries) doctor
      (logged s (fetch_calls (candidate_ids before))) = (inl e, s1) ->
    enrich gmaps acc (before ++ doctor :: after) s = (inl e, s1).
Proof.
  induction before as [|d rest IH]; intros acc s entries doctor after e s1 Henr;
    inversion Henr as [|? ? ? id pd entry entries' Hid Hpd Hentry Hrest]; subst;
    simpl.
  - rewrite app_nil_r, logged_nil. intros H. unfold bind at 1. now rewrite H.
  - rewrite Hid. simpl. intros H.
    unfold bind at 1. rewrite enrich_one_eq, Hid, Hpd, Hentry.
    apply (IH _ _ entries'); [exact Hrest|].
    rewrite logged_logged, <- app_assoc. exact H.
Qed.

(** The answer to a request whose [try] block raises, with the state. *)
Lemma predict_caught model gmaps symptoms data s e s' :
  predict_body model gmaps symptoms data s = (inl e, s') ->
  predict (Some model) (Some gmaps) symptoms data s =
    (inr ([("error", PStr (str_exn e))], 500%Z),
     {| calls := calls s';
        stdout := stdout s' ++
          [("An error occurred during prediction: " ++ str_exn e)%string] |}).
Proof. intros H. now rewrite predict_loaded, H. Qed.

(** X3. The enrichment stops at the first candidate that fails after its
    fetch was issued, because the fetch raised or because the entry could
    not be built from its details: the request is answered with status 500
    and the text of the exception, the log ends with the fetch of that
    candidate, and no candidate after it is fetched. *)
Theorem failing_fetch_stops_the_loop (model : classifier) (gmaps : gmaps_client)
    (symptoms : list string) (data : request) (s : wstate)
    (prediction : string) (pr : places_result)
    (before after : list candidate) (doctor : candidate)
    (entries : list pyval) (id : string) (e : pyexn) :
  let query := query_of (resolve prediction) (user_location_of data) in
  let log := calls s ++ [CallPlaces query "doctor"] in
  let log' := log ++ fetch_calls (candidate_ids before) in
  complete data = true ->
  model (model_input symptoms (user_symptoms_of data)) = inr prediction ->
  gm_places gmaps (calls s) query "doctor" = inr pr ->
  capped pr = before ++ doctor :: after ->
  enriched gmaps log before entries ->
  place_id doctor = Some id ->
  (gm_place gmaps log' id fields = inl e
   \/ exists pd, gm_place gmaps log' id fields = inr pd
                 /\ doctor_entry id (details_of pd) = inl e) ->
  predict (Some model) (Some gmaps) symptoms data s =
    (inr ([("error", PStr (str_exn e))], 500%Z),
     {| calls := calls s ++ CallPlaces query "doctor"
                            :: fetch_calls (candidate_ids before ++ [id]);
        stdout := stdout s ++
          [("An error occurred during prediction: " ++ str_exn e)%string] |}).
Proof.
  intros query log log' Hc Hm Hpr Hcap Henr Hid Hfail.
  rewrite (predict_caught model gmaps symptoms data s e
             (logged s (CallPlaces query "doctor"
                        :: fetch_calls (candidate_ids before ++ [id])))).
  - reflexivity.
  - rewrite predict_body_complete by assumption.
    rewrite Hm. cbv zeta. fold query. rewrite Hpr, Hcap.
    rewrite (enrich_stops gmaps before [] _ entries doctor after e
               (logged s (CallPlaces query "doctor"
                          :: fetch_calls (candidate_ids before ++ [id]))));
      [reflexivity|exact Henr|].
    rewrite enrich_one_eq, Hid. simpl calls. fold log. fold log'.
    assert (Hlog : logged
              (logged (logged s [CallPlaces query "doctor"])
                 (fetch_calls (candidate_ids before))) [CallPlace id fields]
            = logged s (CallPlaces query "doctor"
                        :: fetch_calls (candidate_ids before ++ [id]))).
    { rewrite !logged_logged. unfold fetch_calls. rewrite map_app. reflexivity. }
    destruct Hfail as [He|(pd & Hpd & He)].
    + now rewrite He, Hlog.
    + now rewrite Hpd, He, Hlog.
Qed.

(** X4. A search result without a "place_id" fails the request with the
    [KeyError] of the lookup: the answer is status 500 with the text
    "'place_id'", the candidates before it were fetched, and neither it nor
    any candidate after it is. *)
Theorem missing_place_id_fails_the_request (model : classifier)
    (gmaps : gmaps_client) (symptoms : list string) (data : request)
    (s : wstate) (prediction : string) (pr : places_result)
    (before after : list candidate) (doctor : candidate)
    (entries : list pyval) :
  let query := query_of (resolve prediction) (user_location_of data) in
  complete data = true ->
  model (model_input symptoms (user_symptoms_of data)) = inr prediction ->
  gm_places gmaps (calls s) query "doctor" = inr pr ->
  capped pr = before ++ doctor :: after ->
  enriched gmaps (calls s ++ [CallPlaces query "doctor"]) before entries ->
  place_id doctor = None ->
  predict (Some model) (Some gmaps) symptoms data s =
    (inr ([("error", PStr "'place_id'")], 500%Z),
     {| calls := calls s ++ CallPlaces query "doctor"
                            :: fetch_calls (candidate_ids before);
        stdout := stdout s ++
          ["An error occurred during prediction: 'place_id'"] |}).
Proof.
  intros query Hc Hm Hpr Hcap Henr Hid.
  rewrite (predict_caught model gmaps symptoms data s (KeyError "place_id")
             (logged s (CallPlaces query "doctor"
                        :: fetch_calls (candidate_ids before)))).
  - reflexivity.
  - rewrite predict_body_complete by assumption.
    rewrite Hm. cbv zeta. fold query. rewrite Hpr, Hcap.
    rewrite (enrich_stops gmaps before [] _ entries doctor after
               (KeyError "place_id")
               (logged s (CallPlaces query "doctor"
                          :: fetch_calls (candidate_ids before))));
      [reflexivity|exact Henr|].
    rewrite enrich_one_eq, Hid. now rewrite logged_logged.
Qed.

(** X20. The endpoint never looks past the fifth search result: two clients
    that fetch alike and whose searches agree on what they raise and on the
    first five results are answered alike, in the response and in the calls
    issued. *)
Theorem results_past_the_fifth_are_ignored (model : classifier)
    (gmaps gmaps' : gmaps_client) (symptoms : list string) (data : request)
    (s : wstate) :
  (forall log id fs, gm_place gmaps log id fs = gm_place gmaps' log id fs) ->
  (forall log query type,
     match gm_places gmaps log query type, gm_places gmaps' log query type with
     | inr pr, inr pr' => capped pr = capped pr'
     | inl e, inl e' => e = e'
     | _, _ => False
     end) ->
  predict (Some model) (Some gmaps) symptoms data s
    = predict (Some model) (Some gmaps') symptoms data s.
Proof.
  intros Hplace Hplaces.
  assert (Hone : forall acc doctor st,
            enrich_one gmaps acc doctor st = enrich_one gmaps' acc doctor st).
  { intros. rewrite !enrich_one_eq.
    destruct (place_id doctor); [|reflexivity]. now rewrite Hplace. }
  assert (Hloop : forall l acc st, enrich gmaps acc l st = enrich gmaps' acc l st).
  { induction l as [|d l IH]; intros acc st; simpl; [reflexivity|].
    unfold bind. rewrite Hone.
    destruct (enrich_one gmaps' acc d st) as [[e|acc'] st']; [reflexivity|].
    apply IH. }
  rewrite !predict_loaded. destruct (complete data) eqn:Hc.
  - rewrite !predict_body_complete by assumption.
    destruct (model _) as [e|prediction]; [reflexivity|]. cbv zeta.
    specialize (Hplaces (calls s)
                  (query_of (resolve prediction) (user_location_of data)) "doctor").
    destruct (gm_places gmaps _ _ _) as [e|pr],
             (gm_places gmaps' _ _ _) as [e'|pr']; try contradiction.
    + now subst.
    + now rewrite Hplaces, Hloop.
  - now rewrite !predict_body_incomplete.
Qed.

(** X22. The endpoint answers with status 200 exactly when the request has
    symptoms and a location, the classifier gives a label, the search
    answers, and every kept candidate has a place id, a fetch that answers
    and details from which an entry can be built. *)
Theorem predict_succeeds_iff (model : classifier) (gmaps : gmaps_client)
    (symptoms : list string) (data : request) (s : wstate) :
  (exists body s',
     predict (Some model) (Some gmaps) symptoms data s = (inr (body, 200%Z), s'))
  <-> (complete data = true
       /\ exists prediction pr entries,
            model (model_input symptoms (user_symptoms_of data)) = inr prediction
            /\ gm_places gmaps (calls s)
                 (query_of (resolve prediction) (user_location_of data)) "doctor"
               = inr pr
            /\ enriched gmaps
                 (calls s ++
                  [CallPlaces (query_of (resolve prediction) (user_location_of data))
                     "doctor"])
                 (capped pr) entries).
Proof.
  split.
  - intros (body & s' & H). apply predict_success in H.
    destruct H as (prediction & pr & entries & Hc & Hm & Hpr & Henr & _ & _).
    split; [exact Hc|]. now exists prediction, pr, entries.
  - intros (Hc & prediction & pr & entries & Hm & Hpr & Henr).
    rewrite predict_loaded, predict_body_complete by assumption.
    rewrite Hm. cbv zeta. rewrite Hpr.
    rewrite (enrich_complete gmaps (capped pr) [] _ entries) by exact Henr.
    do 2 eexists. reflexivity.
Qed.

End WebMore.

(** ** More on the encoding and the resolver *)

Module EncodingMore.
Import Encoding.

Lemma dict_set_keys_NoDup {V} (d : dict V) (k : string) (v : V) :
  NoDup (dict_keys d) -> NoDup (dict_keys (dict_set d k v)).
Proof.
  intros Hnd. destruct (in_dec string_dec k (dict_keys d)) as [Hin|Hnin].
  - now rewrite dict_keys_set_present.
  - rewrite dict_keys_set_absent by assumption.
    apply NoDup_app; [assumption|repeat constructor; simpl; tauto|].
    intros x Hx [<-|[]]. contradiction.
Qed.

(** Two dicts with the same keys in the same order, none twice, and the
    same value under each key are the same dict. *)
Lemma dict_ext {V} (d d' : dict V) :
  NoDup (dict_keys d) ->
  dict_keys d = dict_keys d' ->
  (forall k, dict_get d k = dict_get d' k) ->
  d = d'.
Proof.
  revert d'. induction d as [|[k v] d IH]; intros [|[k' v'] d'] Hnd Hk Hg;
    try discriminate; [reflexivity|].
  simpl in Hk. injection Hk as <- Hk.
  inversion Hnd as [|? ? Hnin Hnd']; subst.
  pose proof (Hg k) as Hkk. simpl in Hkk. rewrite String.eqb_refl in Hkk.
  injection Hkk as <-. f_equal. apply IH; [assumption|assumption|].
  intros k0. specialize (Hg k0). simpl in Hg.
  destruct (String.eqb_spec k k0) as [Heq|Hne]; [subst k0|exact Hg].
  assert (Hnin' : ~ In k (dict_keys d')) by (unfold dict_keys in *; now rewrite <- Hk).
  apply dict_get_none_keys in Hnin. apply dict_get_none_keys in Hnin'.
  now rewrite Hnin, Hnin'.
Qed.

Lemma zero_input_any (symptoms : list string) :
  forall acc : dict Z,
    NoDup (dict_keys acc) ->
    let d := fold_left (fun d symptom => dict_set d symptom 0%Z) symptoms acc in
    NoDup (dict_keys d)
    /\ forall k, dict_get d k =
         if existsb (String.eqb k) symptoms then Some 0%Z else dict_get acc k.
Proof.
  induction symptoms as [|x xs IH]; intros acc Hnd; simpl.
  - split; [assumption|reflexivity].
  - destruct (IH (dict_set acc x 0%Z) (dict_set_keys_NoDup _ _ _ Hnd))
      as [Hnd' Hg].
    split; [exact Hnd'|]. intros k. rewrite Hg, dict_get_set.
    rewrite (String.eqb_sym k x).
    destruct (x =? k), (existsb (String.eqb k) xs); reflexivity.
Qed.

(** The row, key by key, for any vocabulary. *)
Lemma model_input_lookup (symptoms user_symptoms : list string) (k : string) :
  dict_get (model_input symptoms user_symptoms) k =
    if existsb (String.eqb k) symptoms
    then Some (if requested user_symptoms k then 1%Z else 0%Z)
    else None.
Proof.
  unfold model_input.
  destruct (mark_from (zero_input symptoms) user_symptoms) as [_ Hg].
  rewrite Hg. unfold zero_input.
  destruct (zero_input_any symptoms [] (NoDup_nil _)) as [_ Hz].
  rewrite Hz. simpl. now destruct (existsb (String.eqb k) symptoms).
Qed.

Lemma model_input_keys_any (symptoms user_symptoms : list string) :
  dict_keys (model_input symptoms user_symptoms) = dict_keys (zero_input symptoms)
  /\ NoDup (dict_keys (model_input symptoms user_symptoms)).
Proof.
  unfold model_input.
  destruct (mark_from (zero_input symptoms) user_symptoms) as [Hk _].
  rewrite Hk. split; [reflexivity|].
  apply (zero_input_any symptoms [] (NoDup_nil _)).
Qed.

Lemma requested_In (user_symptoms : list string) (k : string) :
  requested user_symptoms k = true <-> In k user_symptoms.
Proof. apply existsb_eqb_In. Qed.

(** X7. The label column and the unnamed columns of the table are never
    features: whatever the columns and whatever the request names, also
    "prognosis" itself, the encoded row has no entry for such a column, and
    every entry it has is for a column of the table. *)
Theorem label_column_is_never_encoded (all_cols user_symptoms : list string)
    (col : string) :
  (not_a_symptom col = true ->
   dict_get (model_input (symptoms_of_columns all_cols) user_symptoms) col = None)
  /\ (In col (dict_keys (model_input (symptoms_of_columns all_cols) user_symptoms)) ->
      In col all_cols /\ not_a_symptom col = false).
Proof.
  assert (Hiff : existsb (String.eqb col) (symptoms_of_columns all_cols) = true
                 <-> In col all_cols /\ not_a_symptom col = false).
  { rewrite existsb_eqb_In, symptoms_of_columns_In. unfold not_a_symptom.
    rewrite orb_false_iff. split.
    - intros (H1 & H2 & H3). split; [assumption|]. split; [|assumption].
      now apply String.eqb_neq.
    - intros (H1 & H2 & H3). split; [assumption|]. split; [|assumption].
      now apply String.eqb_neq. }
  split.
  - intros Hnot. rewrite model_input_lookup.
    destruct (existsb (String.eqb col) (symptoms_of_columns all_cols));
      [|reflexivity].
    destruct (proj1 Hiff eq_refl) as [_ E]. congruence.
  - intros Hin. apply Hiff. apply dict_get_In_keys in Hin.
    unfold dict_contains in Hin. rewrite model_input_lookup in Hin.
    destruct (existsb (String.eqb col) (symptoms_of_columns all_cols));
      [reflexivity|discriminate].
Qed.

(** The row depends on the request only through the set of symptoms it
    names. *)
Lemma model_input_same_set (symptoms user_symptoms user_symptoms' : list string) :
  (forall x, In x user_symptoms <-> In x user_symptoms') ->
  model_input symptoms user_symptoms = model_input symptoms user_symptoms'.
Proof.
  intros Hset.
  destruct (model_input_keys_any symptoms user_symptoms) as [Hk Hnd].
  destruct (model_input_keys_any symptoms user_symptoms') as [Hk' _].
  apply dict_ext; [exact Hnd|congruence|].
  intros k. rewrite !model_input_lookup.
  destruct (existsb (String.eqb k) symptoms); [|reflexivity].
  assert (Hreq : requested user_symptoms k = requested user_symptoms' k).
  { destruct (requested user_symptoms k) eqn:E, (requested user_symptoms' k) eqn:E';
      try reflexivity.
    - apply requested_In in E. apply Hset in E. apply requested_In in E.
      congruence.
    - apply requested_In in E'. apply Hset in E'. apply requested_In in E'.
      congruence. }
  now rewrite Hreq.
Qed.

(** X8. The order in which the request lists its symptoms and the
    repetition of a symptom do not matter: two requests that name the same
    symptoms give the same row, the same answer of the Flask endpoint and
    the same run of the Streamlit page. *)
Theorem encoding_ignores_order_and_repeats (model : classifier)
    (gmaps : gmaps_client) (symptoms user_symptoms user_symptoms' : list string) :
  (forall x, In x user_symptoms <-> In x user_symptoms') ->
  model_input symptoms user_symptoms = model_input symptoms user_symptoms'
  /\ (forall location s,
        Web.predict (Some model) (Some gmaps) symptoms
          {| Web.req_symptoms := Some user_symptoms; Web.req_location := location |} s
        = Web.predict (Some model) (Some gmaps) symptoms
            {| Web.req_symptoms := Some user_symptoms'; Web.req_location := location |} s)
  /\ (forall widgets user_location find_doctor_button s,
        App.results widgets model gmaps symptoms user_symptoms user_location
          find_doctor_button s
        = App.results widgets model gmaps symptoms user_symptoms' user_location
            find_doctor_button s).
Proof.
  intros Hset.
  pose proof (model_input_same_set symptoms _ _ Hset) as Hrow.
  assert (Htruthy : list_truthy user_symptoms = list_truthy user_symptoms').
  { destruct user_symptoms as [|x l], user_symptoms' as [|x' l']; try reflexivity.
    - destruct (proj2 (Hset x') (or_introl eq_refl)).
    - destruct (proj1 (Hset x) (or_introl eq_refl)). }
  split; [exact Hrow|]. split.
  - intros location s. unfold Web.predict, Web.predict_body.
    cbn [Web.req_symptoms Web.req_location]. now rewrite Hrow, Htruthy.
  - intros widgets user_location find_doctor_button s.
    unfold App.results, App.process. now rewrite Hrow, Htruthy.
Qed.

(** X9. The row is all zeros exactly when the request names no symptom of
    the vocabulary.  Such a request is not refused: the row goes to the
    classifier like any other. *)
Theorem unknown_symptoms_give_the_zero_row (symptoms user_symptoms : list string) :
  (forall x, In x user_symptoms -> ~ In x symptoms)
  <-> model_input symptoms user_symptoms = zero_input symptoms.
Proof.
  split.
  - intros Hnone. rewrite model_input_known.
    assert (Hf : filter (fun s => existsb (String.eqb s) symptoms) user_symptoms = []).
    { induction user_symptoms as [|x l IH]; [reflexivity|]. simpl.
      destruct (existsb (String.eqb x) symptoms) eqn:E.
      - apply existsb_eqb_In in E. destruct (Hnone x (or_introl eq_refl) E).
      - apply IH. intros y Hy. apply Hnone. now right. }
    now rewrite Hf.
  - intros Heq x Hx Hin.
    assert (H1 : dict_get (model_input symptoms user_symptoms) x = Some 1%Z).
    { rewrite model_input_lookup.
      apply existsb_eqb_In in Hin. rewrite Hin.
      apply requested_In in Hx. now rewrite Hx. }
    rewrite Heq in H1. change (zero_input symptoms) with (model_input symptoms []) in H1.
    rewrite model_input_lookup in H1.
    destruct (existsb (String.eqb x) symptoms); discriminate.
Qed.

(** X15. A label resolves to one of seven specialists, whatever the label,
    and each of the seven is the specialist of some label. *)
Theorem resolve_range (label : string) :
  In (resolve label) specialists
  /\ forall specialist, In specialist specialists ->
       exists label', resolve label' = specialist.
Proof.
  split.
  - assert (Hall : forallb (fun kv => existsb (String.eqb (snd kv)) specialists)
                     specialty_map = true) by (vm_compute; reflexivity).
    rewrite forallb_forall in Hall.
    unfold resolve, dict_get_default.
    destruct (dict_get specialty_map label) as [sp|] eqn:Hget.
    + apply dict_get_some_In in Hget.
      apply existsb_eqb_In. apply (Hall _ Hget).
    + apply existsb_eqb_In. vm_compute. reflexivity.
  - intros specialist Hin. unfold specialists in Hin.
    destruct Hin as [<-|[<-|[<-|[<-|[<-|[<-|[<-|[]]]]]]]].
    + exists "Acne". reflexivity.
    + exists "Allergy". reflexivity.
    + exists "GERD". reflexivity.
    + exists "Pneumonia". reflexivity.
    + exists "Migraine". reflexivity.
    + exists "Heart attack". reflexivity.
    + exists "Malaria". reflexivity.
Qed.

End EncodingMore.

(** ** More on the entry of a doctor *)

Module EntryMore.
Import Web.

Lemma chars_replace (old new : ascii) (s : string) :
  chars (str_replace old new s)
  = map (fun c => if Ascii.eqb c old then new else c) (chars s).
Proof. induction s as [|c s IH]; simpl; [reflexivity|now rewrite IH]. Qed.

Lemma length_chars (s : string) : length (chars s) = String.length s.
Proof. induction s as [|c s IH]; simpl; [reflexivity|now rewrite IH]. Qed.

Lemma replace_space_clean (s : string) :
  ~ In " "%char (chars (str_replace " " "+" s))
  /\ String.length (str_replace " " "+" s) = String.length s.
Proof.
  split.
  - rewrite chars_replace, in_map_iff. intros (c & Hc & _).
    destruct (Ascii.eqb_spec c " "%char) as [Heq|Hne]; [discriminate|].
    now subst.
  - now rewrite <- !length_chars, chars_replace, length_map.
Qed.

(** X5. An entry can be built from the details of a fetch exactly when the
    opening hours, if present, are a dict, the name, if present, is a
    string, and the geometry, if present, is a dict.  Otherwise building it
    raises the [AttributeError] of the missing method, "get" or "replace",
    which the endpoint turns into the error response. *)
Theorem doctor_entry_succeeds_iff (id : string) (details : pydict) :
  ((exists entry, doctor_entry id details = inr entry)
   <-> absent_or is_dict details "opening_hours"
       /\ absent_or is_str details "name"
       /\ absent_or is_dict details "geometry")
  /\ (forall e, doctor_entry id details = inl e ->
        exists ty, e = AttributeError ty "get"
                   \/ e = AttributeError ty "replace").
Proof.
  unfold doctor_entry, open_now_status, rbind, absent_or, dict_get_default.
  destruct (dict_get details "opening_hours") as [oh|];
    destruct (dict_get details "name") as [name|];
    destruct (dict_get details "geometry") as [geometry|];
    try destruct oh; try destruct name; try destruct geometry; simpl;
    (split;
     [ split;
       [ intros [entry H]; try discriminate; auto
       | intros (H1 & H2 & H3); try discriminate; eexists; reflexivity ]
     | intros e H; try discriminate; injection H as <-;
       eexists; (left; reflexivity) || (right; reflexivity) ]).
Qed.

(** X6. The link to the map in an entry is the fixed prefix, the name of
    the place with every space turned into "+" and nothing else changed,
    and the place id: no space of the name reaches the link.  Without a
    name the link has an empty query. *)
Theorem map_link_of_an_entry (id : string) (details entry : pydict) :
  doctor_entry id details = inr (PDict entry) ->
  exists query,
    dict_get entry "gmaps_url"
      = Some (PStr ("https://www.google.com/maps/search/?api=1&query=" ++ query
                    ++ "&query_place_id=" ++ id))
    /\ ~ In " "%char (chars query)
    /\ (forall name, dict_get details "name" = Some (PStr name) ->
          chars query
          = map (fun c => if Ascii.eqb c " " then "+"%char else c) (chars name))
    /\ (dict_get details "name" = None -> query = "").
Proof.
  intros H. apply OpenNow.doctor_entry_inv in H.
  destruct H as (st & name_plus & location & _ & Hname & _ & Heq).
  injection Heq as ->. exists name_plus. split; [reflexivity|].
  unfold dict_get_default, py_replace_space in Hname.
  destruct (dict_get details "name") as [v|].
  - destruct v; try discriminate. injection Hname as <-.
    split; [apply replace_space_clean|]. split; [|discriminate].
    intros name [= <-]. apply chars_replace.
  - injection Hname as <-. split; [simpl; tauto|]. split; [discriminate|].
    reflexivity.
Qed.

End EntryMore.

(** ** More on the Streamlit page *)

Module AppMore.
Import App AppFacts.

(** *** Computations that call nothing *)

Lemma quiet_ret {A} (a : A) : quiet (ret a).
Proof. now intros s r s' [= <- <-]. Qed.

Lemma quiet_of_outcome {A} (o : outcome A) : quiet (of_outcome o).
Proof. now intros s r s' [= <- <-]. Qed.

Lemma quiet_get : quiet (@get astate).
Proof. now intros s r s' [= <- <-]. Qed.

Lemma quiet_modify (f : astate -> astate) :
  (forall s, calls (f s) = calls s) -> quiet (modify f).
Proof. intros Hf s r s' [= <- <-]. apply Hf. Qed.

Lemma quiet_show (u : ui) : quiet (show u).
Proof. now apply quiet_modify. Qed.

Lemma quiet_draw (widgets : streamlit) (u : ui) : quiet (draw widgets u).
Proof.
  intros s r s'. unfold draw, bind, get, raise, show, modify.
  destruct (widgets (page s) u); now intros [= <- <-].
Qed.

Lemma quiet_bind {A B} (m : M astate A) (k : A -> M astate B) :
  quiet m -> (forall a, quiet (k a)) -> quiet (bind m k).
Proof.
  intros Hm Hk s r s'. unfold bind.
  destruct (m s) as [[e|a] s1] eqn:E.
  - intros [= <- <-]. exact (Hm _ _ _ E).
  - intros H. rewrite (Hk a _ _ _ H). exact (Hm _ _ _ E).
Qed.

Lemma quiet_for_each {A} (xs : list A) (body : A -> M astate unit) :
  (forall x, quiet (body x)) -> quiet (for_each xs body).
Proof.
  intros Hb. induction xs as [|x xs IH]; simpl.
  - apply quiet_ret.
  - apply quiet_bind; [apply Hb|]. intros _. exact IH.
Qed.

Ltac quiet_step :=
  match goal with
  | |- quiet (bind _ _) => apply quiet_bind; [|intros]
  | |- quiet (for_each _ _) => apply quiet_for_each; intros
  | |- quiet (show _) => apply quiet_show
  | |- quiet (draw _ _) => apply quiet_draw
  | |- quiet (ret _) => apply quiet_ret
  | |- quiet (of_outcome _) => apply quiet_of_outcome
  | |- quiet get => apply quiet_get
  | |- quiet (if ?b then _ else _) => destruct b
  end.

Lemma card_quiet widgets doctor : quiet (card widgets doctor).
Proof. unfold card. repeat quiet_step. Qed.

Lemma display_quiet widgets : quiet (display widgets).
Proof. unfold display. repeat quiet_step. apply card_quiet. Qed.

Lemma on_error_quiet e : quiet (on_error e).
Proof. unfold on_error. repeat quiet_step. Qed.

(** *** The calls of the [try] block *)

(** A turn of the loop, in any outcome: at most the fetch of its candidate. *)
Lemma enrich_one_calls gmaps i doctor s r s' :
  enrich_one gmaps i doctor s = (r, s') ->
  (place_id doctor = None /\ calls s' = calls s)
  \/ (exists id, place_id doctor = Some id
                 /\ calls s' = calls s ++ [CallPlace id fields]).
Proof.
  unfold enrich_one, candidate_place_id, bind, of_outcome, place, get,
    set_doctors_list, set_map_data_list, modify, ret.
  cbn [calls_of log_call astate_log].
  destruct (place_id doctor) as [id|]; [|intros [= <- <-]; now left].
  right. exists id. split; [reflexivity|]. revert H.
  destruct (gm_place gmaps (calls s) id fields) as [e|pd];
    [now intros [= <- <-]|].
  destruct (dict_get _ "geometry") as [geometry|]; [|now intros [= <- <-]].
  destruct (py_getitem geometry "location") as [e|location];
    [now intros [= <- <-]|].
  destruct (py_getitem location "lat") as [e|lat]; [now intros [= <- <-]|].
  destruct (py_getitem location "lng") as [e|lng]; now intros [= <- <-].
Qed.

Lemma enrich_loop_calls gmaps (rest : list candidate) :
  forall i s r s',
    for_each (enumerate_from i rest)
      (fun '(i, doctor) => enrich_one gmaps i doctor) s = (r, s') ->
    exists ids,
      calls s' = calls s ++ fetch_calls ids
      /\ (length ids <= length rest)%nat.
Proof.
  induction rest as [|doctor rest IH]; intros i s r s'; simpl.
  - intros [= <- <-]. exists []. simpl. now rewrite app_nil_r.
  - unfold bind at 1.
    destruct (enrich_one gmaps i doctor s) as [[e|[]] s1] eqn:E.
    + intros [= <- <-]. apply enrich_one_calls in E.
      destruct E as [[_ ->]|(id & _ & ->)].
      * exists []. simpl. rewrite app_nil_r. split; [reflexivity|lia].
      * exists [id]. simpl. split; [reflexivity|lia].
    + intros H. apply IH in H. destruct H as (ids & -> & Hlen).
      apply enrich_one_calls in E. destruct E as [[_ ->]|(id & _ & ->)].
      * exists ids. split; [reflexivity|lia].
      * exists (id :: ids). rewrite <- app_assoc. simpl.
        split; [reflexivity|lia].
Qed.

(** The [try] block, in any outcome: nothing called unless the classifier
    gave a label, then the search and at most five fetches. *)
Lemma process_calls model gmaps symptoms user_symptoms user_location s r s' :
  process model gmaps symptoms user_symptoms user_location s = (r, s') ->
  calls s' = calls s
  \/ exists prediction_ ids,
       model (model_input symptoms user_symptoms) = inr prediction_
       /\ calls s' = calls s ++
            CallPlaces (query_of (resolve prediction_) user_location) "doctor"
            :: fetch_calls ids
       /\ (length ids <= 5)%nat.
Proof.
  unfold process.
  unfold bind at 1. unfold show at 1, modify at 1.
  unfold bind at 1. unfold of_outcome at 1.
  destruct (model (model_input symptoms user_symptoms)) as [e|p] eqn:Hm;
    [intros [= <- <-]; now left|].
  unfold bind at 1, set_prediction at 1, modify at 1.
  unfold bind at 1, show at 1, modify at 1.
  unfold bind at 1, set_specialist at 1, modify at 1.
  unfold bind at 1, show at 1, modify at 1.
  unfold bind at 1, places at 1.
  cbn [calls_of log_call astate_log calls with_page with_prediction
       with_specialist with_calls page prediction specialist].
  intros H. right. exists p. revert H.
  destruct (gm_places gmaps (calls s) _ "doctor") as [e|pr] eqn:Hpr.
  { intros [= <- <-]. exists []. simpl. repeat split; lia. }
  fold (capped pr).
  unfold bind at 1, set_doctors_list at 1, modify at 1.
  unfold bind at 1.
  match goal with
  | |- context [for_each _ _ ?st] =>
      destruct (for_each (enumerate_from 0 (capped pr))
                  (fun '(i, doctor) => enrich_one gmaps i doctor) st)
        as [[e|[]] s1] eqn:E
  end;
    apply enrich_loop_calls in E; destruct E as (ids & Hcalls & Hlen);
    cbn in Hcalls; pose proof (capped_length pr) as Hcap.
  - intros [= <- <-]. exists ids. rewrite Hcalls, <- app_assoc.
    repeat split; try reflexivity; lia.
  - unfold show, modify. intros [= <- <-]. exists ids. cbn.
    rewrite Hcalls, <- app_assoc. repeat split; try reflexivity; lia.
Qed.

Lemma results_calls widgets model gmaps symptoms user_symptoms user_location
    find_doctor_button s r s' :
  results widgets model gmaps symptoms user_symptoms user_location
    find_doctor_button s = (r, s') ->
  calls s' = calls s
  \/ (find_doctor_button = true
      /\ list_truthy user_symptoms = true
      /\ str_truthy user_location = true
      /\ exists prediction_ ids,
           model (model_input symptoms user_symptoms) = inr prediction_
           /\ calls s' = calls s ++
                CallPlaces (query_of (resolve prediction_) user_location) "doctor"
                :: fetch_calls ids
           /\ (length ids <= 5)%nat).
Proof.
  destruct find_doctor_button; [|intros [= <- <-]; now left].
  destruct (list_truthy user_symptoms) eqn:HS.
  2:{ unfold results. rewrite HS. intros [= <- <-]. now left. }
  destruct (str_truthy user_location) eqn:HL.
  2:{ unfold results. rewrite HS, HL. intros [= <- <-]. now left. }
  rewrite results_run by assumption.
  unfold bind at 1, try_except.
  destruct (process model gmaps symptoms user_symptoms user_location (cleared s))
    as [[e|[]] s1] eqn:Hp.
  - destruct (on_error e s1) as [[e'|[]] s2] eqn:He.
    + intros [= <- <-]. apply on_error_quiet in He. rewrite He.
      apply process_calls in Hp. destruct Hp as [Hp|Hp]; [now left|].
      right. auto.
    + intros Hd. apply display_quiet in Hd. rewrite Hd.
      apply on_error_quiet in He. rewrite He.
      apply process_calls in Hp. destruct Hp as [Hp|Hp]; [now left|].
      right. auto.
  - intros Hd. apply display_quiet in Hd. rewrite Hd.
    apply process_calls in Hp. destruct Hp as [Hp|Hp]; [now left|].
    right. auto.
Qed.

(** X16. A run of the page costs at most six calls to the provider.
    Nothing is called unless the model, a non-empty vocabulary and the client
    are loaded, the button was pressed, a symptom is selected, a location is
    entered and the classifier gave a label; then one search is issued, for
    "<specialist> in <location>" with the type "doctor", and after it at most
    five detail fetches.  The display step calls nothing. *)
Theorem page_call_budget (widgets : streamlit) (model : option classifier)
    (gmaps : option gmaps_client) (symptoms user_symptoms : list string)
    (user_location : string) (find_doctor_button : bool) (s : astate) :
  exists new,
    calls (snd (main widgets model gmaps symptoms user_symptoms user_location
                  find_doctor_button s)) = calls s ++ new
    /\ (length new <= 6)%nat
    /\ (new = []
        \/ exists classify client prediction_ ids,
             model = Some classify
             /\ gmaps = Some client
             /\ list_truthy symptoms = true
             /\ find_doctor_button = true
             /\ list_truthy user_symptoms = true
             /\ str_truthy user_location = true
             /\ classify (model_input symptoms user_symptoms) = inr prediction_
             /\ new = CallPlaces (query_of (resolve prediction_) user_location)
                        "doctor" :: fetch_calls ids
             /\ (length ids <= 5)%nat).
Proof.
  assert (Hnone : forall x : outcome unit * astate,
            calls (snd x) = calls s ->
            exists new, calls (snd x) = calls s ++ new
              /\ (length new <= 6)%nat
              /\ (new = []
        \/ exists classify client prediction_ ids,
             model = Some classify
             /\ gmaps = Some client
             /\ list_truthy symptoms = true
             /\ find_doctor_button = true
             /\ list_truthy user_symptoms = true
             /\ str_truthy user_location = true
             /\ classify (model_input symptoms user_symptoms) = inr prediction_
             /\ new = CallPlaces (query_of (resolve prediction_) user_location)
                        "doctor" :: fetch_calls ids
             /\ (length ids <= 5)%nat)).
  { intros x Hx. exists []. rewrite app_nil_r. repeat split; auto. simpl; lia. }
  unfold main.
  destruct model as [classify|]; [|destruct (list_truthy symptoms), gmaps;
                                    apply Hnone; reflexivity].
  destruct (list_truthy symptoms) eqn:HV;
    [|destruct gmaps; apply Hnone; reflexivity].
  destruct gmaps as [client|]; [|apply Hnone; reflexivity].
  destruct (results widgets classify client symptoms user_symptoms
              user_location find_doctor_button s) as [r s'] eqn:Hrun.
  apply results_calls in Hrun.
  destruct Hrun as [Hsame|(Hb & HS & HL & p & ids & Hm & Hcalls & Hlen)].
  - apply (Hnone (r, s')). exact Hsame.
  - eexists. split; [exact Hcalls|]. split.
    + simpl. unfold fetch_calls. rewrite length_map. lia.
    + right. exists classify, client, p, ids. auto 12.
Qed.

(** X10. When the classifier raises, the page shows the status box, the
    first progress line, the error state of the box and the error message
    with the text of the exception, and nothing of a result: no call was
    issued and the variables of the results stay cleared. *)
Theorem classifier_error_shows_no_result (widgets : streamlit)
    (model : classifier) (gmaps : gmaps_client)
    (symptoms user_symptoms : list string)
    (user_location : string) (s : astate) (e : pyexn) :
  list_truthy user_symptoms = true ->
  str_truthy user_location = true ->
  model (model_input symptoms user_symptoms) = inl e ->
  exists s',
    results widgets model gmaps symptoms user_symptoms user_location true s
      = (inr tt, s')
    /\ page s' = page s ++
         [ st_status "Finding recommendations...";
           st_write [Lit "Analyzing your symptoms..."];
           status_update "Error processing request" "error";
           st_error ("An error occurred: " ++ str_exn e) ]
    /\ calls s' = calls s
    /\ prediction s' = None
    /\ doctors_list s' = [].
Proof.
  intros HS HL Hm. eexists.
  rewrite (results_model_raises widgets model gmaps symptoms user_symptoms
             user_location s e HS HL Hm).
  split; [reflexivity|]. repeat split.
Qed.

(** X11. When the search raises after the classifier gave a label that is
    not empty, the page shows the error and then, all the same, the
    predicted condition, the specialist and the warning that no doctor was
    found; one call was issued, the search. *)
Theorem search_error_still_shows_the_prediction (widgets : streamlit)
    (model : classifier) (gmaps : gmaps_client)
    (symptoms user_symptoms : list string)
    (user_location : string) (s : astate) (prediction_ : string) (e : pyexn) :
  list_truthy user_symptoms = true ->
  str_truthy user_location = true ->
  model (model_input symptoms user_symptoms) = inr prediction_ ->
  str_truthy prediction_ = true ->
  gm_places gmaps (calls s) (query_of (resolve prediction_) user_location)
    "doctor" = inl e ->
  exists s',
    results widgets model gmaps symptoms user_symptoms user_location true s
      = (inr tt, s')
    /\ page s' = page s ++ progress prediction_ user_location
         ++ [ status_update "Error processing request" "error";
              st_error ("An error occurred: " ++ str_exn e) ]
         ++ headline prediction_ ++ [no_doctors_warning]
    /\ calls s' = calls s ++
         [CallPlaces (query_of (resolve prediction_) user_location) "doctor"].
Proof.
  intros HS HL Hm Hp Hpr. eexists.
  rewrite (results_search_raises widgets model gmaps symptoms user_symptoms
             user_location s prediction_ e HS HL Hm Hp Hpr).
  split; [reflexivity|]. split; reflexivity.
Qed.

(** X14. When the first kept search result has no "place_id", the [try]
    block raises the [KeyError] before any fetch and the page shows it as an
    error; the display step then walks the same list, looks the key up
    again outside the [try] block, and the [KeyError] leaves the run
    uncaught, after the predicted condition and the specialist were shown. *)
Theorem nameless_candidate_escapes_the_handler (widgets : streamlit)
    (model : classifier) (gmaps : gmaps_client)
    (symptoms user_symptoms : list string)
    (user_location : string) (s : astate) (prediction_ : string)
    (pr : places_result) (doctor : candidate) (rest : list candidate) :
  list_truthy user_symptoms = true ->
  str_truthy user_location = true ->
  model (model_input symptoms user_symptoms) = inr prediction_ ->
  str_truthy prediction_ = true ->
  gm_places gmaps (calls s) (query_of (resolve prediction_) user_location)
    "doctor" = inr pr ->
  capped pr = doctor :: rest ->
  place_id doctor = None ->
  exists s',
    results widgets model gmaps symptoms user_symptoms user_location true s
      = (inl (KeyError "place_id"), s')
    /\ page s' = page s ++ progress prediction_ user_location
         ++ [ status_update "Error processing request" "error";
              st_error "An error occurred: 'place_id'" ]
         ++ headline prediction_
    /\ calls s' = calls s ++
         [CallPlaces (query_of (resolve prediction_) user_location) "doctor"]
    /\ doctors_list s' = doctor :: rest.
Proof.
  intros HS HL Hm Hp Hpr Hcap Hid. rewrite results_run by assumption.
  unfold process, try_except, bind, show, set_prediction, set_specialist,
    set_doctors_list, modify, of_outcome, places, cleared.
  cbn [calls_of log_call astate_log calls with_page with_prediction
       with_specialist with_calls with_doctors_list page prediction
       specialist doctors_list map_data_list].
  rewrite Hm.
  cbn [calls_of log_call astate_log calls with_page with_prediction
       with_specialist with_calls with_doctors_list page prediction
       specialist doctors_list map_data_list].
  rewrite Hpr. fold (capped pr). rewrite Hcap.
  cbn [for_each enumerate_from].
  unfold enrich_one, candidate_place_id, bind, of_outcome. rewrite Hid.
  unfold on_error, display, bind, get, show, modify.
  cbn [calls_of log_call astate_log calls with_page with_prediction
       with_specialist with_calls with_doctors_list page prediction
       specialist doctors_list map_data_list opt_truthy opt_text].
  rewrite Hp, Resolver.resolve_nonempty.
  cbn [andb list_truthy negb with_page calls page prediction specialist
       doctors_list map_data_list for_each].
  unfold card, candidate_place_id, bind, of_outcome. rewrite Hid.
  eexists. split; [reflexivity|].
  cbn [calls page doctors_list].
  unfold progress, headline. repeat rewrite <- app_assoc.
  repeat split.
Qed.

(** *** What can leave the page uncaught *)

Section RaisesOnly.
Variable P : pyexn -> Prop.

Lemma ro_ret {A} (a : A) : raises_only P (ret a).
Proof. intros s e s' H. discriminate. Qed.

Lemma ro_get : raises_only P (@get astate).
Proof. intros s e s' H. discriminate. Qed.

Lemma ro_modify (f : astate -> astate) : raises_only P (modify f).
Proof. intros s e s' H. discriminate. Qed.

Lemma ro_of_outcome {A} (o : outcome A) :
  (forall e, o = inl e -> P e) -> raises_only P (of_outcome o).
Proof. intros Ho s e s' [= -> _]. now apply Ho. Qed.

Lemma ro_bind {A B} (m : M astate A) (k : A -> M astate B) :
  raises_only P m -> (forall a, raises_only P (k a)) -> raises_only P (bind m k).
Proof.
  intros Hm Hk s e s'. unfold bind.
  destruct (m s) as [[e1|a] s1] eqn:E.
  - intros [= <- <-]. exact (Hm _ _ _ E).
  - apply Hk.
Qed.

Lemma ro_draw (widgets : streamlit) (u : ui) :
  (forall pg e, widgets pg u = Some e -> P e) -> raises_only P (draw widgets u).
Proof.
  intros Hu s e s'. unfold draw, bind, get, raise, show, modify.
  destruct (widgets (page s) u) as [e1|] eqn:E; [|discriminate].
  intros [= <- _]. exact (Hu _ _ E).
Qed.

(** A [try] lets out what its handler raises, and nothing of its body. *)
Lemma ro_try {A} (m : M astate A) (h : pyexn -> M astate A) :
  (forall e, raises_only P (h e)) -> raises_only P (try_except m h).
Proof.
  intros Hh s e s'. unfold try_except.
  destruct (m s) as [[e1|a] s1]; [apply Hh|discriminate].
Qed.

Lemma ro_for_each {A} (xs : list A) (body : A -> M astate unit) :
  (forall x, raises_only P (body x)) -> raises_only P (for_each xs body).
Proof.
  intros Hb. induction xs as [|x xs IH]; simpl.
  - apply ro_ret.
  - apply ro_bind; [apply Hb|]. intros _. exact IH.
Qed.

End RaisesOnly.

Ltac ro_step :=
  match goal with
  | |- raises_only _ (bind _ _) => apply ro_bind; [|intros]
  | |- raises_only _ (try_except _ _) => apply ro_try; intros
  | |- raises_only _ (for_each _ _) => apply ro_for_each; intros
  | |- raises_only _ (show _) => apply ro_modify
  | |- raises_only _ (set_prediction _) => apply ro_modify
  | |- raises_only _ (set_specialist _) => apply ro_modify
  | |- raises_only _ (set_doctors_list _) => apply ro_modify
  | |- raises_only _ (set_map_data_list _) => apply ro_modify
  | |- raises_only _ (ret _) => apply ro_ret
  | |- raises_only _ get => apply ro_get
  | |- raises_only _ (if ?b then _ else _) => destruct b
  end.

(** A widget lets out what Streamlit raises for it. *)
Lemma draw_raises widgets (u : ui) :
  is_widget u = true ->
  raises_only (fun e => malformed e \/ refused widgets e) (draw widgets u).
Proof.
  intros Hu. apply ro_draw. intros pg e He. right. now exists pg, u.
Qed.

Lemma card_raises widgets doctor :
  raises_only (fun e => malformed e \/ refused widgets e) (card widgets doctor).
Proof.
  unfold card.
  repeat ro_step; try (now apply draw_raises);
    apply ro_of_outcome; intros e He; left.
  - left. unfold candidate_place_id in He.
    destruct (place_id doctor); [discriminate|now injection He as <-].
  - right. unfold open_now_status, rbind in He.
    destruct (dict_get _ "opening_hours") as [oh|]; [|discriminate].
    destruct oh; simpl in He; try discriminate; injection He as <-;
      eexists; left; reflexivity.
  - right. unfold py_replace_space in He.
    destruct (dict_get_default _ "name" _); try discriminate;
      injection He as <-; eexists; right; reflexivity.
Qed.

(** X23. No exception of the classifier or of the provider leaves a run of
    the page: the handler of the [try] block takes them all and raises
    nothing itself.  What leaves a run uncaught comes from the display step
    alone.  It is either raised by the code of a card, drawn of a search
    result without "place_id", of opening hours that are no dict or of a
    name that is no string, or it is what Streamlit raised for a link
    button, a keyed button or the map. *)
Theorem what_leaves_a_run_uncaught (widgets : streamlit)
    (model : option classifier)
    (gmaps : option gmaps_client) (symptoms user_symptoms : list string)
    (user_location : string) (find_doctor_button : bool)
    (s s' : astate) (e : pyexn) :
  main widgets model gmaps symptoms user_symptoms user_location
    find_doctor_button s = (inl e, s') ->
  (malformed e \/ refused widgets e)
  /\ exists classify client,
       model = Some classify /\ gmaps = Some client
       /\ find_doctor_button = true
       /\ list_truthy user_symptoms = true
       /\ str_truthy user_location = true
       /\ exists s1, display widgets s1 = (inl e, s').
Proof.
  unfold main.
  destruct model as [classify|]; [|destruct (list_truthy symptoms), gmaps;
                                    discriminate].
  destruct (list_truthy symptoms); [|destruct gmaps; discriminate].
  destruct gmaps as [client|]; [|discriminate].
  destruct find_doctor_button; [|discriminate].
  destruct (list_truthy user_symptoms) eqn:HS;
    [|unfold results; rewrite HS; discriminate].
  destruct (str_truthy user_location) eqn:HL;
    [|unfold results; rewrite HS, HL; discriminate].
  rewrite results_run by assumption.
  unfold bind at 1.
  destruct (try_except _ _ (cleared s)) as [[e1|[]] s1] eqn:Htry.
  - exfalso. revert Htry.
    apply (ro_try (fun _ => False)). intros e0. unfold on_error.
    repeat ro_step.
  - intros Hd. split.
    + revert Hd. generalize s1 e s'.
      change (raises_only (fun e => malformed e \/ refused widgets e)
                (display widgets)).
      unfold display.
      repeat ro_step; try (now apply draw_raises). apply card_raises.
    + exists classify, client. repeat split. now exists s1.
Qed.

(** *** The map points *)

(** A turn of the loop that ends well added the point of its candidate. *)
Lemma enrich_one_points gmaps i doctor s s' :
  enrich_one gmaps i doctor s = (inr tt, s') ->
  exists id pd,
    place_id doctor = Some id
    /\ gm_place gmaps (calls s) id fields = inr pd
    /\ doctors_list s' =
         list_store (doctors_list s) i
           {| place_id := Some id; details := Some (details_of pd) |}
    /\ map_data_list s' = map_data_list s ++ point_of (details_of pd)
    /\ length (point_of (details_of pd))
       = (if has_geometry (details_of pd) then 1 else 0)%nat.
Proof.
  unfold enrich_one, candidate_place_id, bind, of_outcome, place, get,
    set_doctors_list, set_map_data_list, modify, ret.
  cbn [calls_of log_call astate_log].
  destruct (place_id doctor) as [id|]; [|discriminate].
  destruct (gm_place gmaps (calls s) id fields) as [e|pd] eqn:Hpd;
    [discriminate|].
  fold (details_of pd).
  destruct (dict_get (details_of pd) "geometry") as [geometry|] eqn:Hg.
  - destruct geometry as [| | | | |?|g]; try discriminate.
    unfold py_getitem at 1.
    destruct (dict_get g "location") as [location|] eqn:Hl; [|discriminate].
    destruct location as [| | | | |?|l]; try discriminate.
    unfold py_getitem.
    destruct (dict_get l "lat") as [lat|] eqn:Hlat; [|discriminate].
    destruct (dict_get l "lng") as [lng|] eqn:Hlng; [|discriminate].
    intros [= <-]. exists id, pd.
    unfold point_of, has_geometry, dict_contains.
    rewrite Hg, Hl, Hlat, Hlng. cbn. auto 10.
  - intros [= <-]. exists id, pd.
    unfold point_of, has_geometry, dict_contains. rewrite Hg.
    cbn. rewrite app_nil_r. auto 10.
Qed.

Lemma enrich_loop_points gmaps (rest : list candidate) :
  forall done s s',
    doctors_list s = done ++ rest ->
    for_each (enumerate_from (length done) rest)
      (fun '(i, doctor) => enrich_one gmaps i doctor) s = (inr tt, s') ->
    exists stored,
      doctors_list s' = done ++ stored
      /\ length stored = length rest
      /\ map_data_list s' =
           map_data_list s ++ flat_map (fun c => point_of (stored_details c)) stored
      /\ Forall (fun c => length (point_of (stored_details c))
                          = (if has_geometry (stored_details c) then 1 else 0)%nat)
           stored.
Proof.
  induction rest as [|doctor rest IH]; intros done s s' Hl; simpl.
  - intros [= <-]. exists []. simpl. rewrite !app_nil_r.
    rewrite app_nil_r in Hl. repeat split; [assumption|constructor].
  - unfold bind at 1.
    destruct (enrich_one gmaps (length done) doctor s) as [[e|[]] s1] eqn:E;
      [discriminate|].
    apply enrich_one_points in E.
    destruct E as (id & pd & Hid & Hpd & Hdl & Hmap & Hlen).
    rewrite Hl, list_store_middle in Hdl.
    intros H.
    specialize (IH (done ++ [{| place_id := Some id; details := Some (details_of pd) |}]) s1 s').
    rewrite length_app, Nat.add_1_r, <- app_assoc in IH.
    destruct (IH Hdl H) as (stored & H1 & H2 & H3 & H4).
    exists ({| place_id := Some id; details := Some (details_of pd) |} :: stored).
    rewrite H1, <- app_assoc, H3, Hmap, <- app_assoc. simpl.
    repeat split; [congruence|]. constructor; assumption.
Qed.

(** X12. After a [try] block that ends well, the list of map points holds,
    in the order of the search, one point for each kept candidate whose
    details carry a geometry and none for the others; the point has the
    name of the place, or "N/A", and the two coordinates of the location,
    the longitude under the key "lon". *)
Theorem map_points_follow_the_candidates (model : classifier)
    (gmaps : gmaps_client) (symptoms user_symptoms : list string)
    (user_location : string) (s s' : astate) :
  process model gmaps symptoms user_symptoms user_location s = (inr tt, s') ->
  map_data_list s' =
    map_data_list s ++ flat_map (fun c => point_of (stored_details c)) (doctors_list s')
  /\ Forall (fun c => length (point_of (stored_details c))
                      = (if has_geometry (stored_details c) then 1 else 0)%nat)
       (doctors_list s')
  /\ (length (map_data_list s') <= length (map_data_list s) + length (doctors_list s'))%nat
  /\ (length (doctors_list s') <= 5)%nat.
Proof.
  unfold process.
  unfold bind at 1. unfold show at 1, modify at 1.
  unfold bind at 1. unfold of_outcome at 1.
  destruct (model (model_input symptoms user_symptoms)) as [e|p];
    [discriminate|].
  unfold bind at 1, set_prediction at 1, modify at 1.
  unfold bind at 1, show at 1, modify at 1.
  unfold bind at 1, set_specialist at 1, modify at 1.
  unfold bind at 1, show at 1, modify at 1.
  unfold bind at 1, places at 1.
  cbn [calls_of log_call astate_log calls with_page with_prediction
       with_specialist with_calls page prediction specialist].
  destruct (gm_places gmaps (calls s) _ "doctor") as [e|pr]; [discriminate|].
  fold (capped pr).
  unfold bind at 1, set_doctors_list at 1, modify at 1.
  unfold bind at 1.
  match goal with
  | |- context [for_each _ _ ?st] =>
      destruct (for_each (enumerate_from 0 (capped pr))
                  (fun '(i, doctor) => enrich_one gmaps i doctor) st)
        as [[e|[]] s1] eqn:E
  end; [discriminate|].
  apply (enrich_loop_points gmaps (capped pr) []) in E; [|reflexivity].
  destruct E as (stored & H1 & H2 & H3 & H4).
  unfold show, modify. intros [= <-]. cbn in *.
  rewrite H1, H3. split; [reflexivity|]. split; [assumption|]. split.
  - rewrite length_app. apply Nat.add_le_mono_l.
    clear H1 H3 H2. induction H4 as [|c l Hc Hl IH]; simpl; [lia|].
    rewrite length_app, Hc. destruct (has_geometry (stored_details c)); lia.
  - rewrite H2. apply capped_length.
Qed.

(** X13. Details whose geometry has no "location" are read differently by
    the two front-ends.  The Flask entry falls back to the empty dict under
    "location".  The loop of the Streamlit page looks the key up without a
    default: it raises [KeyError] for "location", after the fetch was issued
    and the details were stored in the candidate, and no map point is
    added. *)
Theorem geometry_without_location (details geometry : pydict) :
  dict_get details "geometry" = Some (PDict geometry) ->
  dict_get geometry "location" = None ->
  (forall id entry,
     Web.doctor_entry id details = inr (PDict entry) ->
     dict_get entry "location" = Some (PDict []))
  /\ (forall gmaps i doctor id pd s,
        place_id doctor = Some id ->
        gm_place gmaps (calls s) id fields = inr pd ->
        details_of pd = details ->
        enrich_one gmaps i doctor s =
          (inl (KeyError "location"),
           with_doctors_list
             (list_store (doctors_list s) i
                {| place_id := Some id; Ext.details := Some details |})
             (app_logged s [CallPlace id fields]))).
Proof.
  intros Hg Hl. split.
  - intros id entry H. apply OpenNow.doctor_entry_inv in H.
    destruct H as (st & name_plus & location & _ & _ & Hloc & Heq).
    injection Heq as ->. unfold dict_get_default in Hloc.
    rewrite Hg in Hloc. simpl in Hloc. unfold dict_get_default in Hloc.
    rewrite Hl in Hloc. now injection Hloc as <-.
  - intros gmaps i doctor id pd s Hid Hpd Hdet.
    unfold enrich_one, candidate_place_id, bind, of_outcome, place, get,
      set_doctors_list, modify.
    cbn [calls_of log_call astate_log]. rewrite Hid, Hpd.
    fold (details_of pd). rewrite Hdet, Hg. unfold py_getitem. rewrite Hl.
    reflexivity.
Qed.

(** X21. What the Flask endpoint can list, the code of the Streamlit card
    can show: for details from which the endpoint builds an entry, the card
    of the candidate raises nothing of its own.  It shows the name, the
    rating, the open-now status, the address and the phone of that entry;
    then it draws the link to the website when the entry has one that is
    not empty, and a disabled button keyed by the place id otherwise; then
    the link to the map and an empty line.  It stops short only where
    Streamlit refuses one of the two buttons, with the exception of
    Streamlit and with what it had shown so far on the page. *)
Theorem card_shows_the_entry (widgets : streamlit) (id : string)
    (details entry : pydict) (s : astate) :
  Web.doctor_entry id details = inr (PDict entry) ->
  exists name address phone website rating status link,
    dict_get entry "name" = Some name
    /\ dict_get entry "address" = Some address
    /\ dict_get entry "phone" = Some phone
    /\ dict_get entry "website" = Some website
    /\ dict_get entry "rating" = Some rating
    /\ dict_get entry "open_now_status" = Some (PStr status)
    /\ let text := card_text name rating address phone status in
       let first :=
         if truthy website then st_link_button "Visit Website 🌐" website
         else st_button "Website N/A" ("web_na_" ++ id) in
       let second := st_link_button "View on Map 🗺️" (PStr link) in
       card widgets {| place_id := Some id; Ext.details := Some details |} s =
         match widgets (page s ++ text) first with
         | Some e => (inl e, with_page (page s ++ text) s)
         | None =>
             match widgets (page s ++ text ++ [first]) second with
             | Some e => (inl e, with_page (page s ++ text ++ [first]) s)
             | None =>
                 (inr tt,
                  with_page
                    (page s ++ text ++ [first; second; st_write [Lit ""]]) s)
             end
         end.
Proof.
  intros H. apply OpenNow.doctor_entry_inv in H.
  destruct H as (st & name_plus & location & Hst & Hname & _ & Heq).
  injection Heq as ->.
  assert (Hlink : exists link,
            py_replace_space (dict_get_default details "name" (PStr "N/A"))
            = inr link).
  { unfold dict_get_default in *. destruct (dict_get details "name") as [v|].
    - now exists name_plus.
    - eexists. reflexivity. }
  destruct Hlink as [link Hlink].
  exists (dict_get_default details "name" (PStr "N/A")),
    (dict_get_default details "formatted_address" (PStr "Address not available")),
    (dict_get_default details "international_phone_number"
       (PStr "Phone not available")),
    (dict_get_default details "website" PNone),
    (dict_get_default details "rating" (PStr "N/A")),
    st, (gmaps_url link id).
  do 6 (split; [reflexivity|]).
  cbv zeta. unfold card, draw, card_text.
  unfold candidate_place_id, bind, of_outcome, show, get, raise, modify.
  cbn [place_id Ext.details]. rewrite Hst.
  cbn [page with_page]. cbn [dict_get String.eqb Ascii.eqb Bool.eqb].
  repeat rewrite <- app_assoc. cbn [app].
  destruct (truthy (dict_get_default details "website" PNone)) eqn:Hw;
    cbv iota beta; cbn [page with_page];
    (match goal with
     | |- context [widgets ?pg ?u] => destruct (widgets pg u) as [e1|]
     end; [reflexivity|]);
    cbn [page with_page]; rewrite Hlink;
    repeat rewrite <- app_assoc; cbn [app page with_page];
    (match goal with
     | |- context [widgets ?pg ?u] => destruct (widgets pg u) as [e2|]
     end; [reflexivity|]);
    cbn [page with_page calls prediction specialist doctors_list map_data_list];
    repeat rewrite <- app_assoc; reflexivity.
Qed.

End AppMore.

(** ** The start-up and the home page *)

Module StartupFacts.
Import Startup.


(** The start-up prints its lines and hands the endpoint what it loaded. *)
Lemma serve_predict_eq client loaded read_csv data (s : Web.wstate) :
  serve_predict client loaded read_csv data s =
    Web.predict (loaded_or_none loaded) (loaded_or_none client)
      (vocabulary_of read_csv) data
      {| Web.calls := Web.calls s;
         Web.stdout := Web.stdout s ++ startup_lines client loaded read_csv |}.
Proof.
  unfold serve_predict, web_init_gmaps, web_load_model, web_load_symptoms,
    bind, ret, Web.print, modify, startup_lines.
  destruct s as [cs out].
  destruct client as [e1|g], loaded as [e2|m], read_csv as [e3|all_cols];
    cbn [Web.calls Web.stdout loaded_or_none vocabulary_of app];
    rewrite <- ?app_assoc, ?app_nil_r; reflexivity.
Qed.

(** X18. What a failed load does to the endpoint.  When the client or the
    model could not be loaded, every request, whatever it holds, is answered
    with status 500 and "Backend server is not configured correctly.", and
    nothing is called.  When only the table could not be read, the endpoint
    is not stopped: a complete request goes on against the empty
    vocabulary, so the row given to the classifier is empty. *)
Theorem failed_load_and_the_endpoint (client : outcome gmaps_client)
    (loaded : outcome classifier) (read_csv : outcome (list string))
    (data : Web.request) (s : Web.wstate) :
  (went_well client && went_well loaded = false ->
   serve_predict client loaded read_csv data s =
     (inr ([("error", PStr "Backend server is not configured correctly.")], 500%Z),
      {| Web.calls := Web.calls s;
         Web.stdout := Web.stdout s ++ startup_lines client loaded read_csv |}))
  /\ (forall gmaps model e,
        client = inr gmaps -> loaded = inr model -> read_csv = inl e ->
        serve_predict client loaded read_csv data s =
          Web.predict (Some model) (Some gmaps) [] data
            {| Web.calls := Web.calls s;
               Web.stdout := Web.stdout s ++
                 [("Error loading symptoms from Training.csv: " ++ str_exn e)%string] |}
        /\ model_input [] (user_symptoms_of data) = []).
Proof.
  split.
  - intros H. rewrite serve_predict_eq.
    destruct client as [e1|g], loaded as [e2|m]; try discriminate; reflexivity.
  - intros gmaps model e -> -> ->. split; [apply serve_predict_eq|].
    unfold model_input, zero_input. simpl.
    induction (user_symptoms_of data) as [|x l IH]; [reflexivity|exact IH].
Qed.

(** X19. A run of the script with a resource missing shows the error of
    each failed load, in the order of the loads, and after them exactly one
    start-up error, and nothing else: no widget, no result, no call, no
    variable set.  The start-up error names the model and the data when the
    model is missing or the vocabulary is empty, also when the client is
    missing too; it names the client only when the client alone is missing.
    With the three resources there, the run is the page itself and shows no
    start-up error. *)
Theorem page_needs_its_resources (widgets : App.streamlit)
    (client : outcome gmaps_client)
    (loaded : outcome classifier) (read_csv : outcome (list string))
    (user_symptoms : list string) (user_location : string)
    (find_doctor_button : bool) (s : App.astate) :
  (went_well loaded && list_truthy (vocabulary_of read_csv) && went_well client
     = false ->
   script widgets client loaded read_csv user_symptoms user_location
     find_doctor_button s
   = (inr tt,
      App.with_page
        (App.page s ++ load_errors client loaded read_csv
         ++ [App.st_error
               (if went_well loaded && list_truthy (vocabulary_of read_csv)
                then "Google Maps Client could not be initialized. Please check your API key in .streamlit/secrets.toml"
                else "Application could not be started. Please check model/data file paths.")])
        s))
  /\ (forall gmaps model all_cols,
        client = inr gmaps -> loaded = inr model -> read_csv = inr all_cols ->
        symptoms_of_columns all_cols <> [] ->
        load_errors client loaded read_csv = []
        /\ script widgets client loaded read_csv user_symptoms user_location
             find_doctor_button s
           = App.results widgets model gmaps (symptoms_of_columns all_cols)
               user_symptoms user_location find_doctor_button s).
Proof.
  split.
  - unfold script, init_gmaps, load_model, get_symptoms_list, App.main,
      load_errors, bind, ret, App.show, modify.
    destruct client as [e1|g], loaded as [e2|m], read_csv as [e3|all_cols];
      cbn [went_well vocabulary_of andb list_truthy];
      try destruct (is_file_not_found e2);
      try destruct (is_file_not_found e3);
      try (destruct (symptoms_of_columns all_cols) as [|x l]);
      cbn [went_well vocabulary_of andb list_truthy App.page App.with_page];
      intros H; try discriminate;
      cbn [App.page App.with_page App.calls app];
      repeat rewrite <- app_assoc; reflexivity.
  - intros gmaps model all_cols -> -> -> Hne. split; [reflexivity|].
    unfold script, init_gmaps, load_model, get_symptoms_list, App.main, bind, ret.
    destruct (symptoms_of_columns all_cols); [contradiction|reflexivity].
Qed.

End StartupFacts.

(** ** The further statements at sample runs *)

Module MoreRuns.
Import Samples MoreSamples.

(** X3 at the sample request, with a provider whose third fetch times
    out: the fetches of "p4" and "p5" are never issued. *)
Lemma failing_fetch_stops_the_loop_witness :
  complete (ask ["itching"; "skin_rash"] "New Delhi") = true
  /\ third_times_out "p3" = inl timeout
  /\ Web.predict (Some sample_model) (Some flaky_provider) vocabulary
       (ask ["itching"; "skin_rash"] "New Delhi") Web.start
     = (inr ([("error", PStr "The request timed out.")], 500%Z),
        {| Web.calls := CallPlaces new_delhi "doctor"
                        :: fetch_calls ["p1"; "p2"; "p3"];
           Web.stdout :=
             ["An error occurred during prediction: The request timed out."] |}).
Proof.
  split; [reflexivity|]. split; [reflexivity|].
  refine (WebMore.failing_fetch_stops_the_loop sample_model flaky_provider
            vocabulary (ask ["itching"; "skin_rash"] "New Delhi") Web.start
            "Fungal infection" six_found [found "p1"; found "p2"]
            [found "p4"; found "p5"] (found "p3") _ "p3" timeout
            eq_refl eq_refl eq_refl eq_refl _ eq_refl (or_introl eq_refl)).
  eapply enriched_cons; [reflexivity|reflexivity|reflexivity|].
  eapply enriched_cons; [reflexivity|reflexivity|reflexivity|].
  apply enriched_nil.
Defined.

(** X4 at the sample request, with a search whose second result has no
    place id. *)
Lemma missing_place_id_fails_the_request_witness :
  place_id nameless = None
  /\ Web.predict (Some sample_model)
       (Some (provider (inr second_is_nameless) all_clinics)) vocabulary
       (ask ["itching"; "skin_rash"] "New Delhi") Web.start
     = (inr ([("error", PStr "'place_id'")], 500%Z),
        {| Web.calls := CallPlaces new_delhi "doctor" :: fetch_calls ["p1"];
           Web.stdout := ["An error occurred during prediction: 'place_id'"] |}).
Proof.
  split; [reflexivity|].
  refine (WebMore.missing_place_id_fails_the_request sample_model
            (provider (inr second_is_nameless) all_clinics)
            vocabulary (ask ["itching"; "skin_rash"] "New Delhi") Web.start
            "Fungal infection" second_is_nameless [found "p1"]
            [found "p3"] nameless _
            eq_refl eq_refl eq_refl eq_refl _ eq_refl).
  eapply enriched_cons; [reflexivity|reflexivity|reflexivity|].
  apply enriched_nil.
Defined.

(** X6 at the details of a clinic whose name has a space. *)
Lemma map_link_of_an_entry_witness :
  Web.doctor_entry "p1" open_clinic = inr (PDict open_clinic_entry)
  /\ exists query,
       dict_get open_clinic_entry "gmaps_url"
         = Some (PStr ("https://www.google.com/maps/search/?api=1&query=" ++ query
                       ++ "&query_place_id=" ++ "p1"))
       /\ ~ In " "%char (chars query)
       /\ chars query = chars "Skin+Care".
Proof.
  assert (H : Web.doctor_entry "p1" open_clinic = inr (PDict open_clinic_entry))
    by reflexivity.
  split; [exact H|].
  destruct (EntryMore.map_link_of_an_entry "p1" open_clinic open_clinic_entry H)
    as (query & Hurl & Hclean & Hname & _).
  exists query. split; [exact Hurl|]. split; [exact Hclean|].
  exact (Hname "Skin Care" eq_refl).
Defined.

(** X7 at the columns of a table with its label column and an unnamed one. *)
Lemma label_column_is_never_encoded_witness :
  not_a_symptom "prognosis" = true
  /\ dict_get (model_input (symptoms_of_columns table_columns)
                 ["itching"; "prognosis"]) "prognosis" = None
  /\ not_a_symptom "Unnamed: 133" = true
  /\ dict_get (model_input (symptoms_of_columns table_columns)
                 ["Unnamed: 133"]) "Unnamed: 133" = None.
Proof.
  split; [reflexivity|]. split.
  - exact (proj1 (EncodingMore.label_column_is_never_encoded table_columns
                    ["itching"; "prognosis"] "prognosis") eq_refl).
  - split; [reflexivity|].
    exact (proj1 (EncodingMore.label_column_is_never_encoded table_columns
                    ["Unnamed: 133"] "Unnamed: 133") eq_refl).
Defined.

(** X8 at two requests that name the same two symptoms. *)
Lemma encoding_ignores_order_and_repeats_witness :
  (forall x, In x ["itching"; "headache"; "itching"] <-> In x ["headache"; "itching"])
  /\ model_input vocabulary ["itching"; "headache"; "itching"]
     = model_input vocabulary ["headache"; "itching"]
  /\ Web.predict (Some sample_model) (Some good_provider) vocabulary
       (ask ["itching"; "headache"; "itching"] "New Delhi") Web.start
     = Web.predict (Some sample_model) (Some good_provider) vocabulary
         (ask ["headache"; "itching"] "New Delhi") Web.start.
Proof.
  assert (Hset : forall x, In x ["itching"; "headache"; "itching"]
                           <-> In x ["headache"; "itching"])
    by (intros x; simpl; tauto).
  destruct (EncodingMore.encoding_ignores_order_and_repeats sample_model
              good_provider vocabulary _ _ Hset) as (Hrow & Hweb & _).
  split; [exact Hset|]. split; [exact Hrow|].
  exact (Hweb (Some "New Delhi") Web.start).
Defined.

(** X10 at a model that rejects the row. *)
Lemma classifier_error_shows_no_result_witness :
  broken_model (model_input vocabulary ["itching"]) = inl shape_error
  /\ exists s',
       App.results lenient broken_model good_provider vocabulary ["itching"]
         "New Delhi" true App.start = (inr tt, s')
       /\ App.page s' =
            [ App.st_status "Finding recommendations...";
              App.st_write [App.Lit "Analyzing your symptoms..."];
              App.status_update "Error processing request" "error";
              App.st_error ("An error occurred: " ++ str_exn shape_error) ]
       /\ App.calls s' = [].
Proof.
  split; [reflexivity|].
  destruct (AppMore.classifier_error_shows_no_result lenient broken_model
              good_provider
              vocabulary ["itching"] "New Delhi" App.start shape_error
              eq_refl eq_refl eq_refl)
    as (s' & Hrun & Hpage & Hcalls & _).
  exists s'. split; [exact Hrun|]. split; [exact Hpage|exact Hcalls].
Defined.

(** X11 at a search that times out. *)
Lemma search_error_still_shows_the_prediction_witness :
  gm_places (provider (inl timeout) all_clinics) []
    (query_of (resolve "Fungal infection") "New Delhi") "doctor" = inl timeout
  /\ exists s',
       App.results lenient sample_model (provider (inl timeout) all_clinics)
         vocabulary ["itching"] "New Delhi" true App.start = (inr tt, s')
       /\ App.page s' =
            progress "Fungal infection" "New Delhi"
            ++ [ App.status_update "Error processing request" "error";
                 App.st_error ("An error occurred: " ++ str_exn timeout) ]
            ++ headline "Fungal infection" ++ [no_doctors_warning]
       /\ App.calls s' = [CallPlaces new_delhi "doctor"].
Proof.
  split; [reflexivity|].
  destruct (AppMore.search_error_still_shows_the_prediction lenient sample_model
              (provider (inl timeout) all_clinics) vocabulary ["itching"]
              "New Delhi" App.start "Fungal infection" timeout
              eq_refl eq_refl eq_refl eq_refl eq_refl)
    as (s' & Hrun & Hpage & Hcalls).
  exists s'. split; [exact Hrun|]. split; [exact Hpage|exact Hcalls].
Defined.

(** X12 at a run whose second candidate has no geometry: five candidates,
    four map points. *)
Lemma map_points_follow_the_candidates_witness :
  App.process sample_model patchy_provider vocabulary
    ["itching"; "skin_rash"] "New Delhi" App.start = (inr tt, patchy_state)
  /\ App.map_data_list patchy_state
     = flat_map (fun c => point_of (stored_details c)) (App.doctors_list patchy_state)
  /\ length (App.doctors_list patchy_state) = 5%nat
  /\ length (App.map_data_list patchy_state) = 4%nat.
Proof.
  assert (H : App.process sample_model patchy_provider vocabulary
                ["itching"; "skin_rash"] "New Delhi" App.start
              = (inr tt, patchy_state)) by (vm_compute; reflexivity).
  destruct (AppMore.map_points_follow_the_candidates _ _ _ _ _ _ _ H)
    as (Hpoints & _ & _ & _).
  split; [exact H|]. split; [exact Hpoints|]. split; reflexivity.
Defined.

(** X13 at details whose geometry holds a viewport only. *)
Lemma geometry_without_location_witness :
  dict_get (details_of unlocated) "geometry" = Some (PDict [("viewport", PDict [])])
  /\ (exists entry,
        Web.doctor_entry "p1" (details_of unlocated) = inr (PDict entry)
        /\ dict_get entry "location" = Some (PDict []))
  /\ fst (App.enrich_one unlocated_provider 0 (found "p1") App.start)
     = inl (KeyError "location").
Proof.
  destruct (AppMore.geometry_without_location (details_of unlocated)
              [("viewport", PDict [])] eq_refl eq_refl) as [Hweb Happ].
  split; [reflexivity|]. split.
  - eexists. split; [reflexivity|]. eapply Hweb. reflexivity.
  - rewrite (Happ unlocated_provider 0%nat (found "p1") "p1" unlocated App.start
               eq_refl eq_refl eq_refl).
    reflexivity.
Defined.

(** X14 at a search whose first result has no place id. *)
Lemma nameless_candidate_escapes_the_handler_witness :
  capped first_is_nameless = [nameless; found "p2"]
  /\ exists s',
       App.results lenient sample_model nameless_provider vocabulary ["itching"]
         "New Delhi" true App.start = (inl (KeyError "place_id"), s')
       /\ App.calls s' = [CallPlaces new_delhi "doctor"].
Proof.
  split; [reflexivity|].
  destruct (AppMore.nameless_candidate_escapes_the_handler lenient sample_model
              nameless_provider vocabulary ["itching"] "New Delhi" App.start
              "Fungal infection" first_is_nameless nameless [found "p2"]
              eq_refl eq_refl eq_refl eq_refl eq_refl eq_refl eq_refl)
    as (s' & Hrun & _ & Hcalls & _).
  exists s'. split; [exact Hrun|exact Hcalls].
Defined.

(** X20 at a search that finds six places and one that finds the first
    five of them. *)
Lemma results_past_the_fifth_are_ignored_witness :
  capped six_found = capped five_found
  /\ Web.predict (Some sample_model) (Some good_provider) vocabulary
       (ask ["itching"; "skin_rash"] "New Delhi") Web.start
     = Web.predict (Some sample_model)
         (Some (provider (inr five_found) all_clinics)) vocabulary
         (ask ["itching"; "skin_rash"] "New Delhi") Web.start.
Proof.
  split; [reflexivity|].
  apply WebMore.results_past_the_fifth_are_ignored.
  - reflexivity.
  - intros log query type. reflexivity.
Defined.

(** X21 at the details of an open clinic, with Streamlit taking every
    widget and with Streamlit refusing the link to the website. *)
Lemma card_shows_the_entry_witness :
  Web.doctor_entry "p1" open_clinic = inr (PDict open_clinic_entry)
  /\ (exists s',
        App.card lenient {| place_id := Some "p1"; details := Some open_clinic |}
          App.start = (inr tt, s')
        /\ In (App.st_markdown [App.Lit "#### "; App.Val (PStr "Skin Care")])
             (App.page s')
        /\ length (App.page s') = 7%nat)
  /\ (exists s',
        App.card
          (fun _ u =>
             match u with
             | App.st_link_button "Visit Website 🌐" _ => Some timeout
             | _ => None
             end)
          {| place_id := Some "p1"; details := Some open_clinic |} App.start
          = (inl timeout, s')
        /\ length (App.page s') = 4%nat).
Proof.
  assert (H : Web.doctor_entry "p1" open_clinic = inr (PDict open_clinic_entry))
    by reflexivity.
  split; [exact H|]. split.
  - destruct (AppMore.card_shows_the_entry lenient "p1" open_clinic
                open_clinic_entry App.start H)
      as (name & address & phone & website & rating & status & link
          & Hname & _ & _ & Hweb & _ & _ & Hcard).
    injection Hname as <-. injection Hweb as <-.
    cbv zeta in Hcard. eexists. split; [exact Hcard|].
    split; [now left|reflexivity].
  - destruct (AppMore.card_shows_the_entry
                (fun _ u =>
                   match u with
                   | App.st_link_button "Visit Website 🌐" _ => Some timeout
                   | _ => None
                   end)
                "p1" open_clinic open_clinic_entry App.start H)
      as (name & address & phone & website & rating & status & link
          & _ & _ & _ & Hweb & _ & _ & Hcard).
    injection Hweb as <-.
    cbv zeta in Hcard. eexists. split; [exact Hcard|reflexivity].
Defined.

(** X18 with a client that could not be made for want of its key, and with
    a table that could not be read. *)
Lemma failed_load_and_the_endpoint_witness :
  went_well (inl key_missing : outcome gmaps_client) && went_well (inr sample_model)
    = false
  /\ fst (Startup.serve_predict (inl key_missing) (inr sample_model)
            (inr table_columns) (ask ["itching"] "New Delhi") Web.start)
     = inr ([("error", PStr "Backend server is not configured correctly.")], 500%Z)
  /\ Startup.serve_predict (inr good_provider) (inr sample_model)
       (inl file_missing) (ask ["itching"] "New Delhi") Web.start
     = Web.predict (Some sample_model) (Some good_provider) []
         (ask ["itching"] "New Delhi")
         {| Web.calls := [];
            Web.stdout :=
              [("Error loading symptoms from Training.csv: " ++ str_exn file_missing)%string] |}.
Proof.
  split; [reflexivity|]. split.
  - rewrite (proj1 (StartupFacts.failed_load_and_the_endpoint (inl key_missing)
                      (inr sample_model) (inr table_columns)
                      (ask ["itching"] "New Delhi") Web.start) eq_refl).
    reflexivity.
  - exact (proj1 (proj2 (StartupFacts.failed_load_and_the_endpoint
                           (inr good_provider) (inr sample_model)
                           (inl file_missing) (ask ["itching"] "New Delhi")
                           Web.start)
                    good_provider sample_model file_missing
                    eq_refl eq_refl eq_refl)).
Defined.

(** X19 with a table that is not found, and with the three resources. *)
Lemma page_needs_its_resources_witness :
  went_well (inr sample_model) && list_truthy (vocabulary_of (inl file_missing))
    && went_well (inr good_provider) = false
  /\ Startup.script lenient (inr good_provider) (inr sample_model)
       (inl file_missing) ["itching"] "New Delhi" true App.start
     = (inr tt,
        App.with_page
          [ App.st_error "Error: 'Training.csv' not found. Make sure it's in the main project folder.";
            App.st_error "Application could not be started. Please check model/data file paths." ]
          App.start)
  /\ Startup.script lenient (inr good_provider) (inr sample_model)
       (inr table_columns) ["itching"] "New Delhi" true App.start
     = App.results lenient sample_model good_provider
         (symptoms_of_columns table_columns) ["itching"] "New Delhi" true
         App.start.
Proof.
  destruct (StartupFacts.page_needs_its_resources lenient (inr good_provider)
              (inr sample_model) (inl file_missing) ["itching"] "New Delhi" true
              App.start) as [Hmissing _].
  destruct (StartupFacts.page_needs_its_resources lenient (inr good_provider)
              (inr sample_model) (inr table_columns) ["itching"] "New Delhi" true
              App.start) as [_ Hthere].
  split; [reflexivity|]. split.
  - exact (Hmissing eq_refl).
  - apply (Hthere good_provider sample_model table_columns eq_refl eq_refl eq_refl).
    discriminate.
Defined.

(** X23 at a search whose first result has no place id, and at a search
    that answers with the same place twice while Streamlit refuses a key
    used twice. *)
Lemma what_leaves_a_run_uncaught_witness :
  App.main lenient (Some sample_model) (Some nameless_provider) vocabulary
    ["itching"] "New Delhi" true App.start
    = (inl (KeyError "place_id"), nameless_state)
  /\ (malformed (KeyError "place_id") \/ refused lenient (KeyError "place_id"))
  /\ App.main unique_keys (Some sample_model) (Some twice_provider) vocabulary
       ["itching"] "New Delhi" true App.start
     = (inl (duplicate_key "web_na_p1"), twice_state)
  /\ (malformed (duplicate_key "web_na_p1")
      \/ refused unique_keys (duplicate_key "web_na_p1"))
  /\ exists s1,
       App.display unique_keys s1 = (inl (duplicate_key "web_na_p1"), twice_state).
Proof.
  assert (H : App.main lenient (Some sample_model) (Some nameless_provider)
                vocabulary ["itching"] "New Delhi" true App.start
              = (inl (KeyError "place_id"), nameless_state))
    by (vm_compute; reflexivity).
  assert (H' : App.main unique_keys (Some sample_model) (Some twice_provider)
                 vocabulary ["itching"] "New Delhi" true App.start
               = (inl (duplicate_key "web_na_p1"), twice_state))
    by (vm_compute; reflexivity).
  destruct (AppMore.what_leaves_a_run_uncaught _ _ _ _ _ _ _ _ _ _ H)
    as (Hmal & _).
  destruct (AppMore.what_leaves_a_run_uncaught _ _ _ _ _ _ _ _ _ _ H')
    as (Hrefused & classify & client & _ & _ & _ & _ & _ & Hdisplay).
  split; [exact H|]. split; [exact Hmal|]. split; [exact H'|].
  split; [exact Hrefused|exact Hdisplay].
Defined.

End MoreRuns.
